(** * skills-handler: validators, content types, providers and the request handler

    A shallow embedding of the TypeScript sources [src/types.ts],
    [src/handler/index.ts] and [src/lib/providers.ts].

    Conventions of the embedding.
    - A JavaScript string is a [string]: a sequence of code units, each in the
      range 0x00-0xFF.  Regular expressions of the source carry no flag, so
      they work on code units, [$] is the end of the input and [.] is any code
      unit but a line terminator.
    - A function that may throw, or an [async] function whose promise may
      reject, is a computation [M A] over a world [W]: it yields [Ret a] or
      [Throw t] together with the next world.  The provider, the event sink
      and the clock all live in that world.
    - A thrown value is an [Error] object, a value with an image under
      [String(...)], or a value whose conversion to a string throws.
    - A [Headers] object removes the HTTP whitespace around a value and
      refuses, with a [TypeError], a value that holds NUL, LF or CR.  URL
      resolution ([new URL(path, origin)]) is a parameter of the handler; it
      fails where the constructor throws.
    - The source files use line feeds, so the line breaks of a template
      literal are line feeds.
    - Console logging ([log]) has no effect on responses or events and is left
      out. *)

From Stdlib Require Import String Ascii List Bool Arith ZArith Lia.
Import ListNotations.
Local Open Scope string_scope.
Local Open Scope bool_scope.
Local Open Scope nat_scope.

Set Implicit Arguments.

(* ================================================================= *)
(** ** JavaScript string operations used by the sources *)

Module JsString.

Definition code (c : ascii) : nat := nat_of_ascii c.

Definition LF : ascii := "010"%char.
Definition CR : ascii := "013"%char.
Definition backslash : ascii := "092"%char.

(** [s.startsWith(p)] *)
Definition startsWith (s p : string) : bool := String.prefix p s.

(** [s.slice(n)] for [0 <= n]. *)
Fixpoint slice_from (n : nat) (s : string) : string :=
  match n, s with
  | O, _ => s
  | S _, EmptyString => EmptyString
  | S n', String _ s' => slice_from n' s'
  end.

(** [s.endsWith(c)] for a one-character [c]. *)
Fixpoint endsWithChar (s : string) (c : ascii) : bool :=
  match s with
  | EmptyString => false
  | String a EmptyString => Ascii.eqb a c
  | String _ s' => endsWithChar s' c
  end.

(** [s.slice(0, -1)] *)
Fixpoint slice_drop_last (s : string) : string :=
  match s with
  | EmptyString => EmptyString
  | String _ EmptyString => EmptyString
  | String a s' => String a (slice_drop_last s')
  end.

(** [s.includes(sub)] *)
Fixpoint includes (s sub : string) : bool :=
  String.prefix sub s
  || match s with
     | EmptyString => false
     | String _ s' => includes s' sub
     end.

(** Some code unit of [s] satisfies [p]: [/[class]/.test(s)]. *)
Fixpoint existsb (p : ascii -> bool) (s : string) : bool :=
  match s with
  | EmptyString => false
  | String c s' => p c || existsb p s'
  end.

(** Every code unit of [s] satisfies [p]. *)
Fixpoint forallb (p : ascii -> bool) (s : string) : bool :=
  match s with
  | EmptyString => true
  | String c s' => p c && forallb p s'
  end.

Definition map (f : ascii -> ascii) : string -> string :=
  fix go (s : string) : string :=
    match s with
    | EmptyString => EmptyString
    | String c s' => String (f c) (go s')
    end.

(** [s.split(sep)] for a one-character separator: never empty. *)
Fixpoint split (sep : ascii) (s : string) : list string :=
  match s with
  | EmptyString => [EmptyString]
  | String c s' =>
      if Ascii.eqb c sep then EmptyString :: split sep s'
      else match split sep s' with
           | [] => [String c EmptyString]
           | piece :: pieces => String c piece :: pieces
           end
  end.

(** [arr.pop()]: the last element, [undefined] on an empty array. *)
Fixpoint pop (l : list string) : option string :=
  match l with
  | [] => None
  | [x] => Some x
  | _ :: l' => pop l'
  end.

Definition lower_char (c : ascii) : ascii :=
  let n := code c in
  if ((65 <=? n) && (n <=? 90))
     || ((192 <=? n) && (n <=? 222) && negb (n =? 215))
  then ascii_of_nat (n + 32) else c.

(** [s.toLowerCase()] on code units 0x00-0xFF: A-Z and the capital letters
    of the range 0xC0-0xDE (0xD7, the multiplication sign, apart). *)
Definition toLowerCase : string -> string := map lower_char.

Definition upper_ascii_char (c : ascii) : ascii :=
  let n := code c in
  if (97 <=? n) && (n <=? 122) then ascii_of_nat (n - 32) else c.

(** [s.toUpperCase()] on an HTTP method, which is an ASCII token. *)
Definition toUpperCase : string -> string := map upper_ascii_char.

(** [arr.join(sep)] *)
Definition join (sep : string) (l : list string) : string :=
  String.concat sep l.

(** A string is truthy when it is not empty. *)
Definition nonempty (s : string) : bool :=
  match s with
  | EmptyString => false
  | String _ _ => true
  end.

(** The longest run [[^/]*] at the start of [s], and what follows it. *)
Fixpoint span_segment (s : string) : string * string :=
  match s with
  | EmptyString => (EmptyString, EmptyString)
  | String c s' =>
      if Ascii.eqb c "/" then (EmptyString, s)
      else let (segment, tail) := span_segment s' in (String c segment, tail)
  end.

(** The class [[^/]]. *)
Definition not_slash (c : ascii) : bool := negb (Ascii.eqb c "/").

(** [.] of a regular expression without the [s] flag. *)
Definition re_dot (c : ascii) : bool :=
  negb (Ascii.eqb c LF) && negb (Ascii.eqb c CR).

(** The string holds [sub] somewhere: the words of the specification. *)
Definition Contains (s sub : string) : Prop :=
  exists a b, s = a ++ sub ++ b.

Definition ContainsChar (s : string) (P : ascii -> Prop) : Prop :=
  exists a c b, s = a ++ String c b /\ P c.

End JsString.

Import JsString.

(* ================================================================= *)
(** ** [src/types.ts]: the validators *)

(** The character class [[a-z0-9-]]. *)
Definition name_class (c : ascii) : bool :=
  let n := code c in
  ((97 <=? n) && (n <=? 122)) || ((48 <=? n) && (n <=? 57)) || (n =? 45).

(** [.*--] tried from the start of [s]: some run of non-line-terminators is
    followed by two hyphens. *)
Fixpoint dotstar_dashdash (s : string) : bool :=
  String.prefix "--" s
  || match s with
     | EmptyString => false
     | String c s' => re_dot c && dotstar_dashdash s'
     end.

(** [SKILL_NAME_PATTERN.test(name)] for
    [/^(?!-)(?!.*--)[a-z0-9-]{1,64}(?<!-)$/]: both look-aheads stand at the
    start, the class run has to reach the end of the input, and the
    look-behind stands at the end. *)
Definition SKILL_NAME_PATTERN_test (name : string) : bool :=
  negb (String.prefix "-" name)
  && negb (dotstar_dashdash name)
  && (forallb name_class name
      && (1 <=? String.length name) && (String.length name <=? 64))
  && negb (endsWithChar name "-").

Definition isValidSkillName (name : string) : bool :=
  SKILL_NAME_PATTERN_test name.

(** The character class [[?#\[\]\x00-\x1f\x7f-\xff]]. *)
Definition invalidChars_class (c : ascii) : bool :=
  let n := code c in
  (n =? 63) || (n =? 35) || (n =? 91) || (n =? 93)
  || (n <=? 31) || ((127 <=? n) && (n <=? 255)).

Definition invalidChars_test (path : string) : bool :=
  existsb invalidChars_class path.

Definition isValidFilePath (path : string) : bool :=
  if String.eqb path EmptyString || (String.length path =? 0) then false
  else if startsWith path "/" then false
  else if includes path ".." then false
  else if includes path (String backslash EmptyString) then false
  else if invalidChars_test path then false
  else true.


(* ================================================================= *)
(** ** [src/handler/index.ts]: content types and the SKILL.md document *)

(** What a property read on an object literal can give: a string of its own
    table, or a member inherited from [Object.prototype]. *)
Inductive JsValue : Type :=
| JsStr (s : string)
| JsInherited (member : string).

(** The own properties of the object literal [contentTypes]. *)
Definition contentTypes : list (string * string) :=
  [ ("md", "text/markdown; charset=utf-8");
    ("markdown", "text/markdown; charset=utf-8");
    ("json", "application/json");
    ("yaml", "text/yaml; charset=utf-8");
    ("yml", "text/yaml; charset=utf-8");
    ("txt", "text/plain; charset=utf-8");
    ("py", "text/x-python; charset=utf-8");
    ("js", "text/javascript; charset=utf-8");
    ("ts", "text/typescript; charset=utf-8");
    ("sh", "text/x-shellscript; charset=utf-8");
    ("bash", "text/x-shellscript; charset=utf-8");
    ("html", "text/html; charset=utf-8");
    ("css", "text/css; charset=utf-8");
    ("xml", "application/xml") ].

(** The property names of [Object.prototype], which every object literal
    inherits; none of their values is [null] or [undefined]. *)
Definition Object_prototype_members : list string :=
  [ "constructor"; "__defineGetter__"; "__defineSetter__"; "hasOwnProperty";
    "__lookupGetter__"; "__lookupSetter__"; "isPrototypeOf";
    "propertyIsEnumerable"; "toString"; "valueOf"; "__proto__";
    "toLocaleString" ].

Fixpoint assoc (k : string) (table : list (string * string)) : option string :=
  match table with
  | [] => None
  | (k', v) :: rest => if String.eqb k k' then Some v else assoc k rest
  end.

(** [obj[key]] on an object literal with the own properties [table]: the own
    property first, then the prototype; [None] is [undefined]. *)
Definition object_get (table : list (string * string)) (key : string)
  : option JsValue :=
  match assoc key table with
  | Some v => Some (JsStr v)
  | None =>
      if List.existsb (String.eqb key) Object_prototype_members
      then Some (JsInherited key) else None
  end.

(** [a ?? b] *)
Definition nullish {A : Type} (a : option A) (b : A) : A :=
  match a with
  | Some x => x
  | None => b
  end.

Definition getContentType (filePath : string) : JsValue :=
  let ext := option_map toLowerCase (pop (split "." filePath)) in
  nullish (object_get contentTypes (nullish ext EmptyString))
          (JsStr "text/plain; charset=utf-8").

(** [String(v)], as [new Headers] applies it to a header value. *)
Definition JsValue_toString (v : JsValue) : string :=
  match v with
  | JsStr s => s
  | JsInherited member =>
      if String.eqb member "__proto__" then "[object Object]"
      else if String.eqb member "constructor"
           then "function Object() { [native code] }"
           else "function " ++ member ++ "() { [native code] }"
  end.

Record Skill : Type := mkSkill {
  name : string;
  description : string;
  body : string;
  files : list string
}.

Definition NL : string := String LF EmptyString.

(** The template literal of [reconstructSkillMd], line breaks included. *)
Definition reconstructSkillMd (skill : Skill) : string :=
  let frontmatter :=
    "---" ++ NL ++ "name: " ++ name skill ++ NL
    ++ "description: " ++ description skill ++ NL ++ "---" in
  frontmatter ++ NL ++ NL ++ body skill.

(* ================================================================= *)
(** ** Thrown values, outcomes and events *)

Record JsError : Type := mkError { message : string }.

(** A thrown value or a rejection reason: an [Error] object; another value
    given by its image under [String(...)]; or a value that is no [Error]
    and has no such image, given by what the conversion throws (a
    [TypeError] for an object without prototype, or what its own [toString]
    throws). *)
Inductive JsThrown : Type :=
| ThrownError (e : JsError)
| ThrownValue (str : string)
| ThrownOpaque (failure : JsThrown).

Inductive outcome (A : Type) : Type :=
| Ret (a : A)
| Throw (t : JsThrown).
Arguments Throw {A} t.

(** Sequencing of steps that may throw and touch no state. *)
Definition obind {A B : Type} (o : outcome A) (k : A -> outcome B)
  : outcome B :=
  match o with
  | Ret a => k a
  | Throw t => Throw t
  end.

(** [error instanceof Error ? error : new Error(String(error))] *)
Definition toError (error : JsThrown) : outcome JsError :=
  match error with
  | ThrownError e => Ret e
  | ThrownValue str => Ret (mkError str)
  | ThrownOpaque failure => Throw failure
  end.

(** The [TypeError] of the platform; the wording of its message is the
    platform's own. *)
Definition TypeError (msg : string) : JsThrown := ThrownError (mkError msg).

Inductive SkillsEventType : Type :=
| INDEX_REQUESTED | SKILL_REQUESTED | FILE_REQUESTED | NOT_FOUND | ERROR.

(** The object literal handed to [emitEvent]; an absent property is [None]. *)
Record EventData : Type := mkEventData {
  ev_type : SkillsEventType;
  ev_path : string;
  ev_skillCount : option nat;
  ev_skillName : option string;
  ev_filePath : option string;
  ev_error : option JsError;
  ev_context : option (list (string * string))
}.

(** [{ ...event, timestamp: Date.now() }] *)
Record SkillsEvent : Type := mkEvent {
  ev_data : EventData;
  ev_timestamp : Z
}.

Definition event (t : SkillsEventType) (path : string) : EventData :=
  mkEventData t path None None None None None.

Definition with_skillCount (n : nat) (e : EventData) : EventData :=
  mkEventData (ev_type e) (ev_path e) (Some n) (ev_skillName e)
              (ev_filePath e) (ev_error e) (ev_context e).
Definition with_skillName (s : string) (e : EventData) : EventData :=
  mkEventData (ev_type e) (ev_path e) (ev_skillCount e) (Some s)
              (ev_filePath e) (ev_error e) (ev_context e).
Definition with_filePath (s : string) (e : EventData) : EventData :=
  mkEventData (ev_type e) (ev_path e) (ev_skillCount e) (ev_skillName e)
              (Some s) (ev_error e) (ev_context e).
Definition with_error (x : JsError) (e : EventData) : EventData :=
  mkEventData (ev_type e) (ev_path e) (ev_skillCount e) (ev_skillName e)
              (ev_filePath e) (Some x) (ev_context e).
Definition with_context (c : list (string * string)) (e : EventData)
  : EventData :=
  mkEventData (ev_type e) (ev_path e) (ev_skillCount e) (ev_skillName e)
              (ev_filePath e) (ev_error e) (Some c).

(* ================================================================= *)
(** ** Requests and responses *)

(** A request, by what the handler reads of it: [request.method] and, of
    [new URL(request.url)], the origin and the path name. *)
Record Request : Type := mkRequest {
  req_method : string;
  req_origin : string;
  req_pathname : string
}.

(** A value handed to [JSON.stringify]. *)
#[local] Unset Elimination Schemes.
Inductive Json : Type :=
| JString (s : string)
| JArray (items : list Json)
| JObject (members : list (string * Json)).
#[local] Set Elimination Schemes.

(** A response body: [null], a string, or the text [JSON.stringify] makes of
    a value, compact or indented by two spaces. *)
Inductive Body : Type :=
| BodyNull
| BodyText (s : string)
| BodyJson (j : Json)
| BodyJsonPretty (j : Json).

(** A [Headers] object: header names with their values, in insertion order.
    The handler only uses literal names, all of them valid header names and
    each in one spelling. *)
Definition Headers : Type := list (string * string).

(** An HTTP whitespace byte: tab, line feed, carriage return or space. *)
Definition http_whitespace (c : ascii) : bool :=
  let n := code c in (n =? 9) || (n =? 10) || (n =? 13) || (n =? 32).

Fixpoint strip_leading (s : string) : string :=
  match s with
  | EmptyString => EmptyString
  | String c s' => if http_whitespace c then strip_leading s' else s
  end.

Fixpoint strip_trailing (s : string) : string :=
  match s with
  | EmptyString => EmptyString
  | String c s' =>
      match strip_trailing s' with
      | EmptyString =>
          if http_whitespace c then EmptyString else String c EmptyString
      | rest => String c rest
      end
  end.

(** The normalisation every value goes through on its way into a [Headers]
    object: the HTTP whitespace at both ends is removed. *)
Definition Headers_normalize (value : string) : string :=
  strip_trailing (strip_leading value).

(** A normalised value is a header value when it holds no NUL, LF or CR. *)
Definition header_value_char (c : ascii) : bool :=
  let n := code c in negb ((n =? 0) || (n =? 10) || (n =? 13)).

Definition isValidHeaderValue (value : string) : bool :=
  forallb header_value_char value.

(** What a [Headers] object stores for a value, or the [TypeError] it
    throws. *)
Definition Headers_value (value : string) : outcome string :=
  let normalized := Headers_normalize value in
  if isValidHeaderValue normalized then Ret normalized
  else Throw (TypeError "Invalid header value").

(** The entry of a name takes a new value in place, a new name goes last. *)
Fixpoint set_entry (h : Headers) (k v : string) : Headers :=
  match h with
  | [] => [(k, v)]
  | (k', v') :: h' =>
      if String.eqb k' k then (k', v) :: h' else (k', v') :: set_entry h' k v
  end.

(** A value for a name that has one is joined to it by a comma and a
    space. *)
Fixpoint append_entry (h : Headers) (k v : string) : Headers :=
  match h with
  | [] => [(k, v)]
  | (k', v') :: h' =>
      if String.eqb k' k then (k', v' ++ ", " ++ v) :: h'
      else (k', v') :: append_entry h' k v
  end.

(** [headers.set(name, value)] *)
Definition Headers_set (h : Headers) (k v : string) : outcome Headers :=
  obind (Headers_value v) (fun v' => Ret (set_entry h k v')).

(** [headers.append(name, value)] *)
Definition Headers_append (h : Headers) (k v : string) : outcome Headers :=
  obind (Headers_value v) (fun v' => Ret (append_entry h k v')).

Fixpoint Headers_fill (h : Headers) (init : list (string * string))
  : outcome Headers :=
  match init with
  | [] => Ret h
  | (k, v) :: rest =>
      obind (Headers_append h k v) (fun h' => Headers_fill h' rest)
  end.

(** [new Headers(init)] for a record [init], and the headers a [Response]
    makes of the record given as [headers]: the entries are appended in
    order. *)
Definition Headers_new (init : list (string * string)) : outcome Headers :=
  Headers_fill [] init.

(** [headers.get(name)]; [None] is [null]. *)
Definition Headers_get (h : Headers) (k : string) : option string :=
  assoc k h.

Record Response : Type := mkResponse {
  status : nat;
  headers : Headers;
  resp_body : Body
}.

(** [cors?: string | string[] | false] *)
Inductive CorsSetting : Type :=
| CorsOrigin (origin : string)
| CorsOrigins (origins : list string)
| CorsFalse.

Definition DEFAULT_CACHE_CONTROL : string := "public, max-age=3600".

(** [JSON.stringify({ error: msg })] *)
Definition error_body (msg : string) : Body :=
  BodyJson (JObject [("error", JString msg)]).

(* ================================================================= *)
(** ** The handler, over a world [W] *)

Section Handler.

(** The world: whatever the provider, the event sink and the clock read
    and write. *)
Variable W : Type.

(** [Date.now()] *)
Variable now : W -> Z.

(** [new URL(path, origin).toString()] of the platform; [None] where the
    constructor throws a [TypeError]: for an origin that is no valid base
    (the origin of a URL with an opaque origin reads [null]) or a path that
    does not parse against it. *)
Variable URL_resolve : string -> string -> option string.

Definition M (A : Type) : Type := W -> outcome A * W.

Definition ret {A : Type} (a : A) : M A := fun w => (Ret a, w).

Definition bind {A B : Type} (c : M A) (k : A -> M B) : M B :=
  fun w =>
    match c w with
    | (Ret a, w') => k a w'
    | (Throw t, w') => (Throw t, w')
    end.

(** [try { body } catch (error) { handler }] *)
Definition try_catch {A : Type} (body : M A) (handler : JsThrown -> M A)
  : M A :=
  fun w =>
    match body w with
    | (Ret a, w') => (Ret a, w')
    | (Throw t, w') => handler t w'
    end.

(** A step that may throw and touches no state. *)
Definition liftO {A : Type} (o : outcome A) : M A := fun w => (o, w).

Notation "x <- c ;; k" := (bind c (fun x => k))
  (at level 61, c at next level, right associativity).
Notation "c ;;; k" := (bind c (fun _ => k))
  (at level 61, right associativity).

(** [SkillProvider], generic in what it holds as a skill. *)
Record Provider (T : Type) : Type := mkProvider {
  getSkills : M (list T);
  getSkillFile : string -> string -> M (option string)
}.

Definition SkillProvider : Type := Provider Skill.

Record SkillsHandlerConfig : Type := mkConfig {
  basePath : option string;
  verboseLogs : option bool;
  cacheControl : option string;
  cors : option CorsSetting;
  onEvent : option (SkillsEvent -> M unit)
}.

Section createSkillsHandler.

Variable provider : SkillProvider.
Variable config : SkillsHandlerConfig.

(** The destructuring defaults of [createSkillsHandler]. *)
Definition the_basePath : string :=
  nullish (basePath config) "/.well-known/skills".
Definition the_cacheControl : string :=
  nullish (cacheControl config) DEFAULT_CACHE_CONTROL.
Definition the_cors : CorsSetting :=
  nullish (cors config) (CorsOrigin "*").

(** [basePath.replace(/\/$/, empty)]: one trailing slash is dropped. *)
Definition normalizedBasePath : string :=
  if endsWithChar the_basePath "/" then slice_drop_last the_basePath
  else the_basePath.

Definition emitEvent (event : EventData) : M unit :=
  match onEvent config with
  | Some sink => fun w => sink (mkEvent event (now w)) w
  | None => ret tt
  end.

(** [Array.isArray(cors) ? cors.join(", ") : cors], for [cors !== false]. *)
Definition cors_origin : option string :=
  match the_cors with
  | CorsFalse => None
  | CorsOrigin origin => Some origin
  | CorsOrigins origins => Some (join ", " origins)
  end.

Definition createHeaders (contentType : string) : outcome Headers :=
  obind (Headers_new [("Content-Type", contentType);
                      ("Cache-Control", the_cacheControl)])
    (fun headers =>
       match cors_origin with
       | None => Ret headers
       | Some origin =>
           obind (Headers_set headers "Access-Control-Allow-Origin" origin)
             (fun headers =>
                obind (Headers_set headers "Access-Control-Allow-Methods"
                                   "GET, HEAD, OPTIONS")
                  (fun headers =>
                     Headers_set headers "Access-Control-Allow-Headers"
                                 "Content-Type"))
       end).

Definition handleOptions : outcome Response :=
  obind (createHeaders "text/plain")
    (fun headers =>
       obind (Headers_set headers "Content-Length" "0")
         (fun headers => Ret (mkResponse 204 headers BodyNull))).

(** [new Response(JSON.stringify({ error: msg }),
    { status: code, headers: createHeaders("application/json") })] *)
Definition error_response (code : nat) (msg : string) : outcome Response :=
  obind (createHeaders "application/json")
    (fun headers => Ret (mkResponse code headers (error_body msg))).

Definition index_entry (skill : Skill) : Json :=
  JObject [ ("name", JString (name skill));
            ("description", JString (description skill));
            ("files", JArray (List.map JString (files skill))) ].

Definition serveIndex (requestPath : string) : M Response :=
  try_catch
    (skills <- getSkills provider ;;
     let index := JObject [("skills", JArray (List.map index_entry skills))] in
     emitEvent (with_skillCount (List.length skills)
                  (event INDEX_REQUESTED requestPath)) ;;;
     headers <- liftO (createHeaders "application/json") ;;
     ret (mkResponse 200 headers (BodyJsonPretty index)))
    (fun error =>
       err <- liftO (toError error) ;;
       emitEvent (with_error err (event ERROR requestPath)) ;;;
       liftO (error_response 500 "Internal server error")).

Definition serveSkillMd (skillName requestPath : string) : M Response :=
  try_catch
    (skills <- getSkills provider ;;
     match List.find (fun s => String.eqb (name s) skillName) skills with
     | None =>
         emitEvent (with_skillName skillName (event NOT_FOUND requestPath)) ;;;
         liftO (error_response 404 "Skill not found")
     | Some skill =>
         let content := reconstructSkillMd skill in
         emitEvent (with_skillName skillName
                      (event SKILL_REQUESTED requestPath)) ;;;
         headers <- liftO (createHeaders "text/markdown; charset=utf-8") ;;
         ret (mkResponse 200 headers (BodyText content))
     end)
    (fun error =>
       err <- liftO (toError error) ;;
       emitEvent (with_context [("skillName", skillName)]
                    (with_error err (event ERROR requestPath))) ;;;
       liftO (error_response 500 "Internal server error")).

Definition serveSkillFile (skillName filePath requestPath : string)
  : M Response :=
  try_catch
    (content <- getSkillFile provider skillName filePath ;;
     match content with
     | None =>
         emitEvent (with_filePath filePath
                      (with_skillName skillName
                         (event NOT_FOUND requestPath))) ;;;
         liftO (error_response 404 "File not found")
     | Some text =>
         emitEvent (with_filePath filePath
                      (with_skillName skillName
                         (event FILE_REQUESTED requestPath))) ;;;
         let contentType := getContentType filePath in
         headers <- liftO (createHeaders (JsValue_toString contentType)) ;;
         ret (mkResponse 200 headers (BodyText text))
     end)
    (fun error =>
       err <- liftO (toError error) ;;
       emitEvent (with_context [("skillName", skillName);
                                ("filePath", filePath)]
                    (with_error err (event ERROR requestPath))) ;;;
       liftO (error_response 500 "Internal server error")).

Definition createRedirect (request : Request) (path : string)
  : outcome Response :=
  match URL_resolve path (req_origin request) with
  | None => Throw (TypeError "Invalid URL")
  | Some redirectUrl =>
      obind (Headers_new [("Location", redirectUrl)])
        (fun headers => Ret (mkResponse 302 headers BodyNull))
  end.

(** [relativePath.match(/^\/([^/]+)\/SKILL\.md$/)]: the captured group. *)
Definition skillMdMatch (relativePath : string) : option string :=
  match relativePath with
  | String "/" rest =>
      let (segment, tail) := span_segment rest in
      if nonempty segment && String.eqb tail "/SKILL.md"
      then Some segment else None
  | _ => None
  end.

(** [relativePath.match(/^\/([^/]+)\/(.+)$/)]: the two captured groups. *)
Definition skillFileMatch (relativePath : string)
  : option (string * string) :=
  match relativePath with
  | String "/" rest =>
      match span_segment rest with
      | (segment, String "/" filePath) =>
          if nonempty segment && nonempty filePath
             && forallb re_dot filePath
          then Some (segment, filePath) else None
      | _ => None
      end
  | _ => None
  end.

(** [relativePath.match(/^\/([^/]+)$/)]: the captured group. *)
Definition skillDirMatch (relativePath : string) : option string :=
  match relativePath with
  | String "/" rest =>
      match span_segment rest with
      | (segment, EmptyString) =>
          if nonempty segment then Some segment else None
      | _ => None
      end
  | _ => None
  end.

(** The path the routes are matched against. *)
Definition relativePath_of (fullPath : string) : string :=
  let relativePath :=
    if startsWith fullPath normalizedBasePath
    then slice_from (String.length normalizedBasePath) fullPath
    else fullPath in
  let relativePath :=
    if negb (startsWith relativePath "/") then "/" ++ relativePath
    else relativePath in
  if (1 <? String.length relativePath) && endsWithChar relativePath "/"
  then slice_drop_last relativePath
  else relativePath.

Definition notFound (fullPath : string) : M Response :=
  emitEvent (event NOT_FOUND fullPath) ;;;
  liftO (error_response 404 "Not found").

(** The last route, [/{skill-name}], and the final not-found. *)
Definition routeSkillDir (request : Request) (relativePath : string)
  : M Response :=
  let fullPath := req_pathname request in
  match skillDirMatch relativePath with
  | Some skillName =>
      if nonempty skillName && isValidSkillName skillName
      then liftO (createRedirect request
                    (normalizedBasePath ++ "/" ++ skillName ++ "/SKILL.md"))
      else notFound fullPath
  | None => notFound fullPath
  end.

(** The route [/{skill-name}/{file-path}] and what follows it. *)
Definition routeSkillFile (request : Request) (relativePath : string)
  : M Response :=
  let fullPath := req_pathname request in
  match skillFileMatch relativePath with
  | Some (skillName, filePath) =>
      if nonempty skillName && nonempty filePath then
        if negb (isValidSkillName skillName) then
          emitEvent (with_skillName skillName (event NOT_FOUND fullPath)) ;;;
          liftO (error_response 400 "Invalid skill name")
        else if negb (isValidFilePath filePath) then
          emitEvent (with_filePath filePath
                       (with_skillName skillName
                          (event NOT_FOUND fullPath))) ;;;
          liftO (error_response 400 "Invalid file path")
        else serveSkillFile skillName filePath fullPath
      else routeSkillDir request relativePath
  | None => routeSkillDir request relativePath
  end.

Definition handler (request : Request) : M Response :=
  let fullPath := req_pathname request in
  let method := toUpperCase (req_method request) in
  if String.eqb method "OPTIONS" then liftO handleOptions
  else if negb (String.eqb method "GET") && negb (String.eqb method "HEAD")
  then liftO (error_response 405 "Method not allowed")
  else
    let relativePath := relativePath_of fullPath in
    if String.eqb relativePath "/" || String.eqb relativePath EmptyString
    then liftO (createRedirect request (normalizedBasePath ++ "/index.json"))
    else if String.eqb relativePath "/index.json" then serveIndex fullPath
    else
      match skillMdMatch relativePath with
      | Some skillName =>
          if nonempty skillName && isValidSkillName skillName
          then serveSkillMd skillName fullPath
          else
            emitEvent (with_skillName skillName
                         (event NOT_FOUND fullPath)) ;;;
            liftO (error_response 400 "Invalid skill name")
      | None => routeSkillFile request relativePath
      end.

End createSkillsHandler.

(** The configured sink, if there is one, returns on every event. *)
Definition sink_returns (config : SkillsHandlerConfig) : Prop :=
  match onEvent config with
  | None => True
  | Some sink => forall (e : SkillsEvent) (w : W), exists w', sink e w = (Ret tt, w')
  end.

(** The same configuration with no [onEvent]. *)
Definition without_sink (config : SkillsHandlerConfig)
  : SkillsHandlerConfig :=
  mkConfig (basePath config) (verboseLogs config) (cacheControl config)
           (cors config) None.

(* --------------------------------------------------------------- *)
(** *** [src/lib/providers.ts]: the composite provider *)

Section createCompositeProvider.

(** What the providers hold, and the property [name] of it. *)
Variable T : Type.
Variable skill_name : T -> string.

(** A [Map<string, T>]: the entries in insertion order, keys distinct. *)
Definition JsMap : Type := list (string * T).

(** [map.set(key, value)]: a present key keeps its place and takes the
    new value, a new key goes last. *)
Fixpoint Map_set (m : JsMap) (key : string) (value : T) : JsMap :=
  match m with
  | [] => [(key, value)]
  | (k, v) :: m' =>
      if String.eqb k key then (k, value) :: m'
      else (k, v) :: Map_set m' key value
  end.

(** [map.get(key)]; [None] is [undefined]. *)
Fixpoint Map_get (m : JsMap) (key : string) : option T :=
  match m with
  | [] => None
  | (k, v) :: m' => if String.eqb k key then Some v else Map_get m' key
  end.

(** [Array.from(map.values())] *)
Definition Map_values (m : JsMap) : list T := List.map snd m.

(** [for (const skill of skills) skillMap.set(skill.name, skill)] *)
Definition set_all (skillMap : JsMap) (skills : list T) : JsMap :=
  List.fold_left (fun m skill => Map_set m (skill_name skill) skill)
                 skills skillMap.

(** The loop over the providers of the composite [getSkills]. *)
Fixpoint collect (providers : list (Provider T)) (skillMap : JsMap)
  : M JsMap :=
  match providers with
  | [] => ret skillMap
  | provider :: rest =>
      skills <- getSkills provider ;;
      collect rest (set_all skillMap skills)
  end.

(** The loop of the composite [getSkillFile], last provider first. *)
Fixpoint first_file (reversed : list (Provider T))
         (skillName filePath : string) : M (option string) :=
  match reversed with
  | [] => ret None
  | provider :: rest =>
      content <- getSkillFile provider skillName filePath ;;
      match content with
      | Some text => ret (Some text)
      | None => first_file rest skillName filePath
      end
  end.

Definition createCompositeProvider (providers : list (Provider T))
  : Provider T :=
  {| getSkills :=
       skillMap <- collect providers [] ;;
       ret (Map_values skillMap);
     getSkillFile := fun skillName filePath =>
       first_file (List.rev providers) skillName filePath |}.

(** Calling every provider in turn: the lists they return, when all do. *)
Fixpoint getSkills_each (providers : list (Provider T))
  : M (list (list T)) :=
  match providers with
  | [] => ret []
  | provider :: rest =>
      skills <- getSkills provider ;;
      others <- getSkills_each rest ;;
      ret (skills :: others)
  end.

End createCompositeProvider.

End Handler.

Arguments ret {W A} a.
Arguments liftO {W A} o.
Arguments bind {W A B} c k.
Arguments try_catch {W A} body handler.

(* ================================================================= *)
(** ** The grammars in the words of the specification *)

(** A character of [{a-z, 0-9, -}]. *)
Definition name_char (c : ascii) : Prop :=
  (97 <= code c <= 122) \/ (48 <= code c <= 57) \/ c = "-"%char.

Definition is_uppercase (c : ascii) : Prop := 65 <= code c <= 90.

Definition StartsWith (s p : string) : Prop := exists t, s = p ++ t.
Definition EndsWith (s p : string) : Prop := exists t, s = t ++ p.

(** 1-64 characters of [{a-z, 0-9, -}], no hyphen first or last, no two
    hyphens in a row. *)
Definition skill_name_grammar (s : string) : Prop :=
  1 <= String.length s <= 64
  /\ (forall a c b, s = a ++ String c b -> name_char c)
  /\ ~ StartsWith s "-"
  /\ ~ EndsWith s "-"
  /\ ~ Contains s "--".

(** The characters the file-path grammar forbids. *)
Definition forbidden_path_char (c : ascii) : Prop :=
  c = "?"%char \/ c = "#"%char \/ c = "["%char \/ c = "]"%char
  \/ code c <= 31 \/ 127 <= code c <= 255.

(** What the composite provider is to return, in the words of the
    specification: of the skills with one name, the last one. *)
Section LastWins.

Variable T : Type.
Variable skill_name : T -> string.

(** [s] is the last element of [skills] with its name. *)
Definition LastWithName (skills : list T) (s : T) : Prop :=
  exists pre post,
    skills = (pre ++ s :: post)%list
    /\ forall s', In s' post -> skill_name s' <> skill_name s.

(** The last element of [skills] that bears the name [key]. *)
Fixpoint last_named (key : string) (skills : list T) : option T :=
  match skills with
  | [] => None
  | s :: rest =>
      match last_named key rest with
      | Some s' => Some s'
      | None => if String.eqb (skill_name s) key then Some s else None
      end
  end.

(** Every entry of a map stands under the name of its value. *)
Definition keyed_by_name (m : JsMap T) : Prop :=
  Forall (fun kv => fst kv = skill_name (snd kv)) m.

End LastWins.

(* ================================================================= *)
(** ** Fixtures: a concrete world, sinks and providers *)

Module Fixtures.

(** The world of the test suite's sink: the events pushed so far. *)
Definition World : Type := list SkillsEvent.

Definition clock (w : World) : Z := Z.of_nat (List.length w).

(** URL resolution on the paths of the fixtures: an absolute path of plain
    characters against an HTTP origin; the origin [null] is no base. *)
Definition resolve (path origin : string) : option string :=
  if String.eqb origin "null" then None else Some (origin ++ path).

(** [onEvent: (event) => events.push(event)] *)
Definition recording_sink : SkillsEvent -> M World unit :=
  fun e w => (Ret tt, (w ++ [e])%list).

(** [onEvent: () => { throw new Error("sink failed") }] *)
Definition throwing_sink : SkillsEvent -> M World unit :=
  fun _ w => (Throw (ThrownError (mkError "sink failed")), w).

(** A sink that throws on the first kind of event and records the rest. *)
Definition picky_sink : SkillsEvent -> M World unit :=
  fun e w =>
    match ev_type (ev_data e) with
    | INDEX_REQUESTED => (Throw (ThrownError (mkError "sink failed")), w)
    | _ => (Ret tt, (w ++ [e])%list)
    end.

Definition testSkills : list Skill :=
  [ mkSkill "git-workflow"
            "Follow team Git conventions for branching and commits."
            "# Git Workflow"
            ["SKILL.md"];
    mkSkill "code-review"
            "Review code for bugs, security issues, and best practices."
            "# Code Review"
            ["SKILL.md"; "references/CHECKLIST.md"] ].

(** A provider holding [testSkills] and one supporting file. *)
Definition static_provider : SkillProvider World :=
  {| getSkills := ret testSkills;
     getSkillFile := fun skillName filePath =>
       if String.eqb skillName "code-review"
          && String.eqb filePath "references/CHECKLIST.md"
       then ret (Some "# Checklist") else ret None |}.

(** A provider whose calls reject. *)
Definition failing_provider : SkillProvider World :=
  {| getSkills := fun w => (Throw (ThrownError (mkError "disk failure")), w);
     getSkillFile := fun _ _ w =>
       (Throw (ThrownValue "disk failure"), w) |}.

Definition SkillsEventType_eqb (a b : SkillsEventType) : bool :=
  match a, b with
  | INDEX_REQUESTED, INDEX_REQUESTED | SKILL_REQUESTED, SKILL_REQUESTED
  | FILE_REQUESTED, FILE_REQUESTED | NOT_FOUND, NOT_FOUND | ERROR, ERROR =>
      true
  | _, _ => false
  end.

(** A sink that throws on the events of one type and records the rest. *)
Definition averse_sink (t : SkillsEventType) : SkillsEvent -> M World unit :=
  fun e w =>
    if SkillsEventType_eqb (ev_type (ev_data e)) t
    then (Throw (ThrownError (mkError "sink failed")), w)
    else (Ret tt, (w ++ [e])%list).

Definition averse_config (t : SkillsEventType) : SkillsHandlerConfig World :=
  mkConfig None None None None (Some (averse_sink t)).


Definition TAB : string := String (ascii_of_nat 9) EmptyString.

(** [cacheControl] with a space before and a tab after the value. *)
Definition padded_config : SkillsHandlerConfig World :=
  mkConfig None None (Some (" max-age=60" ++ TAB)) None None.

(** [cacheControl] with a line feed inside, and a sink that records. *)
Definition broken_config : SkillsHandlerConfig World :=
  mkConfig None None (Some ("max-age=60" ++ String LF "public")) None
           (Some recording_sink).

Definition default_config : SkillsHandlerConfig World :=
  mkConfig None None None None None.

Definition recording_config : SkillsHandlerConfig World :=
  mkConfig None None None None (Some recording_sink).

Definition throwing_config : SkillsHandlerConfig World :=
  mkConfig None None None None (Some throwing_sink).

Definition picky_config : SkillsHandlerConfig World :=
  mkConfig None None None None (Some picky_sink).

Definition no_cors_config : SkillsHandlerConfig World :=
  mkConfig None None (Some "no-cache") (Some CorsFalse) None.

Definition GET (pathname : string) : Request :=
  mkRequest "GET" "http://localhost" pathname.

(** The headers of a response under a configuration that leaves
    [cacheControl] and [cors] to their defaults. *)
Definition default_headers (contentType : string) : Headers :=
  [ ("Content-Type", contentType);
    ("Cache-Control", "public, max-age=3600");
    ("Access-Control-Allow-Origin", "*");
    ("Access-Control-Allow-Methods", "GET, HEAD, OPTIONS");
    ("Access-Control-Allow-Headers", "Content-Type") ].

(** A request whose URL has an opaque origin, as [file:///...] has. *)
Definition GET_opaque (pathname : string) : Request :=
  mkRequest "GET" "null" pathname.

Definition run (provider : SkillProvider World)
           (config : SkillsHandlerConfig World) (request : Request)
  : outcome Response * World :=
  handler clock resolve provider config request [].

(** The skills of the composite-provider example: a name and a value. *)
Record Versioned : Type := mkVersioned { v_name : string; v : nat }.

Definition provider_of (skills : list Versioned) : Provider World Versioned :=
  {| getSkills := ret skills;
     getSkillFile := fun _ _ => ret None |}.

Definition provider_A : Provider World Versioned :=
  provider_of [mkVersioned "x" 1].
Definition provider_B : Provider World Versioned :=
  provider_of [mkVersioned "x" 2].

End Fixtures.

(* ================================================================= *)
(** ** [src/types.ts]: the frontmatter validator *)

Definition MAX_DESCRIPTION_LENGTH : nat := 1024.

(** An untyped value, by what [validateSkillFrontmatter] looks at: an object
    is given by what reading its properties yields, [AnyOther] is a number,
    boolean, bigint, symbol or function. *)
#[local] Unset Elimination Schemes.
Inductive JsAny : Type :=
| AnyUndefined
| AnyNull
| AnyString (s : string)
| AnyOther
| AnyObject (properties : list (string * JsAny)).
#[local] Set Elimination Schemes.

(** [fm[key]]; a property that is not there reads as [undefined]. *)
Fixpoint any_prop (properties : list (string * JsAny)) (key : string)
  : JsAny :=
  match properties with
  | [] => AnyUndefined
  | (k, value) :: rest =>
      if String.eqb k key then value else any_prop rest key
  end.

Definition validateSkillFrontmatter (frontmatter : JsAny) : bool :=
  match frontmatter with
  | AnyObject fm =>
      match any_prop fm "name" with
      | AnyString fm_name =>
          if negb (isValidSkillName fm_name) then false
          else
            match any_prop fm "description" with
            | AnyString fm_description =>
                if (String.length fm_description =? 0)
                   || (MAX_DESCRIPTION_LENGTH <? String.length fm_description)
                then false else true
            | _ => false
            end
      | _ => false
      end
  | _ => false
  end.

(** [value[key]] on a value that is an object. *)
Definition any_get (value : JsAny) (key : string) : JsAny :=
  match value with
  | AnyObject properties => any_prop properties key
  | _ => AnyUndefined
  end.

(** A value read as the string it is; the sources read [parsed.data.name]
    and [parsed.data.description] only after the validator has passed. *)
Definition any_string (value : JsAny) : string :=
  match value with
  | AnyString s => s
  | _ => EmptyString
  end.

(** White space and line terminators among the code units 0x00-0xFF. *)
Definition is_space (c : ascii) : bool :=
  let n := code c in
  ((9 <=? n) && (n <=? 13)) || (n =? 32) || (n =? 160).

Fixpoint trimStart (s : string) : string :=
  match s with
  | EmptyString => EmptyString
  | String c s' => if is_space c then trimStart s' else s
  end.

Fixpoint trimEnd (s : string) : string :=
  match s with
  | EmptyString => EmptyString
  | String c s' =>
      match trimEnd s' with
      | EmptyString => if is_space c then EmptyString else String c EmptyString
      | rest => String c rest
      end
  end.

(** [s.trim()] *)
Definition trim (s : string) : string := trimEnd (trimStart s).

(* ================================================================= *)
(** ** [src/lib/providers.ts]: the static and the file provider *)

(** [additionalFiles]: the own properties of the record and of each record
    in it. *)
Definition AdditionalFiles : Type := list (string * list (string * string)).

Fixpoint assoc_files (k : string) (table : AdditionalFiles)
  : option (list (string * string)) :=
  match table with
  | [] => None
  | (k', v) :: rest => if String.eqb k k' then Some v else assoc_files k rest
  end.

(** One turn of the validation loop of [createStaticProvider]: the error it
    throws, if any. *)
Definition check_static_skill (skill : Skill) : option JsError :=
  if negb (isValidSkillName (name skill)) then
    Some (mkError ("Invalid skill name: " ++ name skill))
  else if negb (nonempty (description skill))
          || (1024 <? String.length (description skill)) then
    Some (mkError ("Invalid skill description for: " ++ name skill))
  else if negb (List.existsb (String.eqb "SKILL.md") (files skill)) then
    Some (mkError ("Skill " ++ name skill
                   ++ " must include SKILL.md in files array"))
  else
    match List.find (fun file => negb (isValidFilePath file)) (files skill) with
    | Some file =>
        Some (mkError ("Invalid file path in skill " ++ name skill
                       ++ ": " ++ file))
    | None => None
    end.

Fixpoint validate_static (skills : list Skill) : option JsError :=
  match skills with
  | [] => None
  | skill :: rest =>
      match check_static_skill skill with
      | Some e => Some e
      | None => validate_static rest
      end
  end.

(** A directory entry of [readdir(..., { withFileTypes: true })]. *)
Record Dirent : Type := mkDirent {
  dirent_name : string;
  isDirectory : bool;
  isFile : bool
}.

(** The closure variables [skillsCache] and [lastScan]. *)
Record FileCache : Type := mkFileCache {
  skillsCache : option (list Skill);
  lastScan : Z
}.

Definition CACHE_TTL : Z := 60000.

Section MoreProviders.

Variable W : Type.

(** Reading the property [filePath] on the member of [Object.prototype]
    that [additionalFiles[skillName]] inherits when it has no own entry for
    a skill named like that member (the function [Object], for the skill
    name [constructor]): [Ret None] when the member has no such property or
    its value is nullish, the String image of the value otherwise, and
    [Throw] when the read itself throws, as the read of [caller] on a
    built-in function does.  Platform behaviour, kept as a parameter. *)
Variable Object_member_read : string -> string -> outcome (option string).

(** The [getSkillFile] of the static provider, with [skillMap] the [Map]
    built from the skills in order.  A value that is not a string is given
    by its String image, which is what a response body takes of it. *)
Definition static_getSkillFile (skills : list Skill)
           (additionalFiles : option AdditionalFiles)
           (skillName filePath : string) : outcome (option string) :=
  let skillMap := set_all name [] skills in
  match Map_get skillMap skillName with
  | None => Ret None
  | Some _ =>
      if String.eqb filePath "SKILL.md" then Ret None
      else
        match additionalFiles with
        | None => Ret None
        | Some table =>
            match assoc_files skillName table with
            | Some skillFiles =>
                match assoc filePath skillFiles with
                | Some content => Ret (Some content)
                | None =>
                    if List.existsb (String.eqb filePath)
                                    Object_prototype_members
                    then Ret (Some (JsValue_toString (JsInherited filePath)))
                    else Ret None
                end
            | None =>
                if List.existsb (String.eqb skillName)
                                Object_prototype_members
                then Object_member_read skillName filePath
                else Ret None
            end
        end
  end.

(** [createStaticProvider]: it throws while validating, or returns the
    provider. *)
Definition createStaticProvider (skills : list Skill)
           (additionalFiles : option AdditionalFiles)
  : outcome (SkillProvider W) :=
  match validate_static skills with
  | Some e => Throw (ThrownError e)
  | None =>
      Ret {| getSkills := ret skills;
             getSkillFile := fun skillName filePath =>
               liftO (static_getSkillFile skills additionalFiles
                                          skillName filePath) |}
  end.

(* --------------------------------------------------------------- *)
(** *** The provider of [createFileProvider] *)

Section createFileProvider.

(** [Date.now()] *)
Variable now : W -> Z.

(** [path.resolve(skillsDir)] *)
Variable resolvedDir : string.

(** [path.join] of two and of three parts, and [path.normalize]. *)
Variable path_join : string -> string -> string.
Variable path_join3 : string -> string -> string -> string.
Variable path_normalize : string -> string.

(** [fs.readdir(dir, { withFileTypes: true })] and
    [fs.readFile(path, "utf-8")]. *)
Variable readdir : string -> M W (list Dirent).
Variable readFile : string -> M W string.

(** [matter(content)] of gray-matter: the data and the content, or a throw. *)
Variable matter : string -> outcome (JsAny * string).

(** [collectFiles(dir, prefix)], the recursive listing of a skill
    directory; its recursion follows the directory tree and is not
    embedded. *)
Variable collectFiles : string -> string -> M W (list string).

(** One turn of the loop of [scanSkills]: [skills] is the array so far. *)
Definition scan_entry (entry : Dirent) (skills : list Skill)
  : M W (list Skill) :=
  if negb (isDirectory entry) then ret skills
  else if negb (isValidSkillName (dirent_name entry)) then ret skills
  else
    let skillDir := path_join resolvedDir (dirent_name entry) in
    let skillMdPath := path_join skillDir "SKILL.md" in
    try_catch
      (bind (readFile skillMdPath) (fun content =>
         match matter content with
         | Throw t => fun w => (Throw t, w)
         | Ret (data, parsed_content) =>
             if negb (validateSkillFrontmatter data) then ret skills
             else
               bind (collectFiles skillDir EmptyString) (fun files =>
                 ret (skills
                      ++ [mkSkill (any_string (any_get data "name"))
                                  (any_string (any_get data "description"))
                                  (trim parsed_content)
                                  files])%list)
         end))
      (fun _ => ret skills).

Fixpoint scan_entries (entries : list Dirent) (skills : list Skill)
  : M W (list Skill) :=
  match entries with
  | [] => ret skills
  | entry :: rest =>
      bind (scan_entry entry skills) (fun skills' => scan_entries rest skills')
  end.

(** The scan of [scanSkills] past the cache test.  Past the inner
    [try]/[catch] only [readdir] can throw, before any skill is pushed, so
    the outer [catch] leaves the empty array. *)
Definition scan_directory : M W (list Skill) :=
  try_catch
    (bind (readdir resolvedDir) (fun entries => scan_entries entries []))
    (fun _ => ret []).

(** [scanSkills], the closure variables passed in and out. *)
Definition scanSkills (cache : FileCache) : M W (list Skill * FileCache) :=
  fun w =>
    let now_ := now w in
    let rescan :=
      match scan_directory w with
      | (Ret skills, w') => (Ret (skills, mkFileCache (Some skills) now_), w')
      | (Throw t, w') => (Throw t, w')
      end in
    match skillsCache cache with
    | Some cached =>
        if (now_ - lastScan cache <? CACHE_TTL)%Z then (Ret (cached, cache), w)
        else rescan
    | None => rescan
    end.

Definition file_getSkillFile (skillName filePath : string)
  : M W (option string) :=
  if negb (isValidSkillName skillName) then ret None
  else if negb (isValidFilePath filePath) then ret None
  else if String.eqb filePath "SKILL.md" then ret None
  else
    let fullPath := path_join3 resolvedDir skillName filePath in
    let normalizedPath := path_normalize fullPath in
    let skillDirPath := path_join resolvedDir skillName in
    if negb (startsWith normalizedPath skillDirPath) then ret None
    else
      try_catch
        (bind (readFile fullPath) (fun content => ret (Some content)))
        (fun _ => ret None).

End createFileProvider.

(* --------------------------------------------------------------- *)
(** *** A sink that records, beside a provider with a state of its own *)

(** A call on the state [W], beside a log it leaves alone. *)
Definition lift_call {L A : Type} (c : M W A) : M (W * L) A :=
  fun wl =>
    match c (fst wl) with
    | (o, w') => (o, (w', snd wl))
    end.

(** A provider that works on its own state and leaves the log alone. *)
Definition lift_provider {L : Type} (provider : SkillProvider W)
  : SkillProvider (W * L) :=
  {| getSkills := lift_call (getSkills provider);
     getSkillFile := fun skillName filePath =>
       lift_call (getSkillFile provider skillName filePath) |}.

(** [onEvent: (event) => events.push(event)], the events pushed so far
    standing beside the state [W] of the provider. *)
Definition log_sink : SkillsEvent -> M (W * list SkillsEvent) unit :=
  fun e wl => (Ret tt, (fst wl, (snd wl ++ [e])%list)).

Definition with_log_sink (config : SkillsHandlerConfig W)
  : SkillsHandlerConfig (W * list SkillsEvent) :=
  mkConfig (basePath config) (verboseLogs config) (cacheControl config)
           (cors config) (Some log_sink).

(* --------------------------------------------------------------- *)
(** *** The calls a sink receives *)

(** The world [W], with the calls made to the sink so far: the event, and
    the world the sink was called in. *)
Definition Traced : Type := W * list (SkillsEvent * W).

(** The sink itself, with a record of each call. *)
Definition trace_sink (sink : SkillsEvent -> M W unit)
  : SkillsEvent -> M Traced unit :=
  fun e wl =>
    match sink e (fst wl) with
    | (o, w') => (o, (w', (snd wl ++ [(e, fst wl)])%list))
    end.

Definition traced (config : SkillsHandlerConfig W)
  : SkillsHandlerConfig Traced :=
  mkConfig (basePath config) (verboseLogs config) (cacheControl config)
           (cors config) (option_map trace_sink (onEvent config)).

(** The calls the sink receives while the handler serves [request] from the
    world [w], in order. *)
Definition sink_calls (now : W -> Z)
           (URL_resolve : string -> string -> option string)
           (provider : SkillProvider W) (config : SkillsHandlerConfig W)
           (request : Request) (w : W) : list (SkillsEvent * W) :=
  snd (snd (handler (fun wl : Traced => now (fst wl)) URL_resolve
                    (lift_provider provider) (traced config) request
                    (w, []))).

(** The configured sink, if there is one, returns on each of [calls]. *)
Definition sink_returns_on (config : SkillsHandlerConfig W)
           (calls : list (SkillsEvent * W)) : Prop :=
  match onEvent config with
  | None => True
  | Some sink =>
      Forall (fun call => exists w', sink (fst call) (snd call) = (Ret tt, w'))
             calls
  end.

(** The providers of [reversed], asked in turn from the world [w], each
    return [null]; the last of them leaves the world [w']. *)
Fixpoint all_null {T : Type} (reversed : list (Provider W T))
         (skillName filePath : string) (w w' : W) : Prop :=
  match reversed with
  | [] => w' = w
  | provider :: rest =>
      exists w1,
        getSkillFile provider skillName filePath w = (Ret None, w1)
        /\ all_null rest skillName filePath w1 w'
  end.

End MoreProviders.

(* --------------------------------------------------------------- *)
(** *** Header values a configuration can be served with *)

(** A value a [Headers] object accepts. *)
Definition header_safe (value : string) : bool :=
  isValidHeaderValue (Headers_normalize value).

(** The configured cache-control value and CORS origin are values a
    [Headers] object accepts. *)
Definition header_config_ok (W : Type) (config : SkillsHandlerConfig W)
  : bool :=
  header_safe (the_cacheControl config)
  && match cors_origin config with
     | None => true
     | Some origin => header_safe origin
     end.

(** The headers [createHeaders] makes when it returns: each value without
    the HTTP whitespace around it. *)
Definition served_headers (W : Type) (config : SkillsHandlerConfig W)
           (contentType : string) : Headers :=
  ([("Content-Type", Headers_normalize contentType);
    ("Cache-Control", Headers_normalize (the_cacheControl config))]
   ++ match cors_origin config with
      | None => []
      | Some origin =>
          [("Access-Control-Allow-Origin", Headers_normalize origin);
           ("Access-Control-Allow-Methods", "GET, HEAD, OPTIONS");
           ("Access-Control-Allow-Headers", "Content-Type")]
      end)%list.



(** The names of a list in the order of their first occurrence. *)
Fixpoint keep_first (names : list string) : list string :=
  match names with
  | [] => []
  | x :: rest =>
      x :: List.filter (fun y => negb (String.eqb y x)) (keep_first rest)
  end.

(** A skill that [createStaticProvider] accepts. *)
Definition static_skill_ok (skill : Skill) : Prop :=
  isValidSkillName (name skill) = true
  /\ 1 <= String.length (description skill) <= 1024
  /\ In "SKILL.md" (files skill)
  /\ (forall file, In file (files skill) -> isValidFilePath file = true).

(** The status codes and the error messages of the handler. *)
Definition handler_statuses : list nat := [200; 204; 302; 400; 404; 405; 500].

Definition handler_error_messages : list string :=
  [ "Method not allowed"; "Internal server error"; "Skill not found";
    "File not found"; "Invalid skill name"; "Invalid file path";
    "Not found" ].

(** Fixtures for the providers. *)
Module ProviderFixtures.

Definition additionalFiles : AdditionalFiles :=
  [ ("code-review",
     [("references/CHECKLIST.md", "# Checklist")]) ].

Definition no_member (skillName filePath : string)
  : outcome (option string) := Ret None.

(** [Object[filePath]]: reading [caller] throws, [name] is a string, the
    rest is taken as absent. *)
Definition Object_read (skillName filePath : string)
  : outcome (option string) :=
  if String.eqb filePath "caller"
  then Throw (TypeError "restricted function property")
  else if String.eqb filePath "name" then Ret (Some "Object")
  else Ret None.

Definition null_provider : Provider Fixtures.World Skill :=
  {| getSkills := ret [];
     getSkillFile := fun _ _ => ret None |}.

(** A provider that has no file and leaves a note of each call in the
    world. *)
Definition noting_provider : Provider Fixtures.World Skill :=
  {| getSkills := ret [];
     getSkillFile := fun _ _ w =>
       (Ret None, (w ++ [mkEvent (event NOT_FOUND "asked") 0%Z])%list) |}.

Definition checklist_provider : Provider Fixtures.World Skill :=
  {| getSkills := ret Fixtures.testSkills;
     getSkillFile := fun _ _ => ret (Some "# Checklist") |}.

(** A file system with one skill directory, as the functions of a
    provider: the world is the clock. *)
Definition fs_readdir (dir : string) : M Z (list Dirent) :=
  ret [mkDirent "git-workflow" true false; mkDirent "README.md" false true].

Definition fs_readFile (path : string) : M Z string :=
  if String.eqb path "skills/git-workflow/SKILL.md"
  then ret "frontmatter and body"
  else fun w => (Throw (ThrownError (mkError "ENOENT")), w).

Definition fs_matter (content : string) : outcome (JsAny * string) :=
  Ret (AnyObject [("name", AnyString "git-workflow");
                  ("description", AnyString "Follow team Git conventions.")],
       " # Git Workflow ").

Definition fs_collectFiles (dir pre : string) : M Z (list string) :=
  ret ["SKILL.md"].

Definition fs_join (a b : string) : string := a ++ "/" ++ b.
Definition fs_join3 (a b c : string) : string := a ++ "/" ++ b ++ "/" ++ c.

Definition fs_clock (w : Z) : Z := w.

End ProviderFixtures.

(* ================================================================= *)
(** ** Proof automation *)

Ltac bool_prop :=
  repeat rewrite ?Bool.andb_true_iff, ?Bool.orb_true_iff, ?Bool.negb_true_iff,
    ?Bool.andb_false_iff, ?Bool.orb_false_iff, ?Bool.negb_false_iff,
    ?Nat.leb_le, ?Nat.eqb_eq, ?Nat.ltb_lt, ?Nat.leb_gt, ?Nat.eqb_neq,
    ?Ascii.eqb_eq, ?Ascii.eqb_neq, ?String.eqb_eq, ?String.eqb_neq in *.

Ltac split_ifs :=
  repeat match goal with
         | |- context [if ?b then _ else _] => destruct b
         end.

(** Walks through every branch of a handler run [H : handler ... w = r]:
    provider and sink calls are split by their outcome, conditions by their
    value. *)
Ltac walk_handler H :=
  repeat (first
    [ match type of H with
      | context [getSkills ?p ?x] =>
          destruct (getSkills p x) as [[?|?] ?] eqn:?
      end
    | match type of H with
      | context [getSkillFile ?p ?a ?b ?x] =>
          destruct (getSkillFile p a b x) as [[?|?] ?] eqn:?
      end
    | match type of H with
      | context [emitEvent ?n ?c ?e ?x] =>
          destruct (emitEvent n c e x) as [[?|?] ?] eqn:?
      end
    | match type of H with
      | context [match ?x with pair _ _ => _ end] => is_var x; destruct x
      end
    | match type of H with
      | context [if ?b then _ else _] => destruct b eqn:?
      end
    | match type of H with
      | context [match ?x with Some _ => _ | None => _ end] =>
          destruct x eqn:?
      end
    | match type of H with
      | context [createHeaders ?c ?t] => destruct (createHeaders c t) eqn:?
      end
    | match type of H with
      | context [toError ?t] => destruct (toError t) eqn:?
      end
    | match type of H with
      | context [Headers_new ?i] => destruct (Headers_new i) eqn:?
      end
    | match type of H with
      | context [Headers_set ?h ?k ?v] => destruct (Headers_set h k v) eqn:?
      end
    | progress unfold handler, serveIndex, serveSkillMd, serveSkillFile,
        routeSkillFile, routeSkillDir, notFound, error_response,
        createRedirect, handleOptions, liftO, obind,
        bind, try_catch, ret in H ]);
  try discriminate H.

(** Walks through three runs of one computation from one world, [H1] with
    the sink, [H2] without it and [H3] with the sink under record: a call
    is split by its outcome in the three at once. *)
Ltac walk_runs H1 H2 H3 :=
  repeat first
    [ progress cbv beta iota in H1, H2, H3
    | progress cbn [fst snd app] in H3
    | match type of H1 with
      | context [if ?b then _ else _] => destruct b eqn:?
      end
    | match type of H1 with
      | context [getSkills ?p ?x] =>
          destruct (getSkills p x) as [[?|?] ?] eqn:?
      end
    | match type of H1 with
      | context [getSkillFile ?p ?a ?b ?x] =>
          destruct (getSkillFile p a b x) as [[?|?] ?] eqn:?
      end
    | match type of H1 with
      | context [match ?s ?e ?x with pair _ _ => _ end] =>
          destruct (s e x) as [[[]|?] ?] eqn:?
      end
    | match type of H1 with
      | context [createHeaders ?c ?t] => destruct (createHeaders c t) eqn:?
      end
    | match type of H1 with
      | context [toError ?t] => destruct (toError t) eqn:?
      end
    | match type of H1 with
      | context [match ?x with Some _ => _ | None => _ end] =>
          destruct x eqn:?
      end
    | progress unfold obind in H1, H2, H3 ].

(** Closes a case of [walk_runs]: the three runs agree, and a call that
    threw is not one the sink returns on. *)
Ltac close_runs H1 H2 H3 :=
  inversion H1; inversion H2; inversion H3; subst;
  (split; [now split|]); intros ?; try reflexivity; exfalso;
  repeat match goal with
         | HF : Forall _ (_ :: _) |- _ => inversion HF; subst; clear HF
         end;
  repeat match goal with
         | E : exists _, _ |- _ => destruct E as [? E]; cbn [fst snd] in E
         end;
  congruence.

(* ================================================================= *)
(** ** Strings: the boolean tests against their meaning *)



Lemma code_inj (c d : ascii) : code c = code d -> c = d.
Proof.
  unfold code. intros H.
  rewrite <- (ascii_nat_embedding c), <- (ascii_nat_embedding d).
  now rewrite H.
Qed.

Lemma code_eq (c : ascii) (n : nat) :
  n < 256 -> (code c = n <-> c = ascii_of_nat n).
Proof.
  intros Hn. split; intros H.
  - apply code_inj. unfold code in *. now rewrite nat_ascii_embedding.
  - subst c. unfold code. now apply nat_ascii_embedding.
Qed.

Lemma prefix_StartsWith (p s : string) :
  String.prefix p s = true <-> StartsWith s p.
Proof.
  unfold StartsWith. revert s.
  induction p as [|c p IH]; intros s; simpl.
  - split; [intros _; now exists s | intros _; now destruct s].
  - destruct s as [|d s]; simpl.
    + split; [discriminate | intros [t H]; discriminate].
    + destruct (Ascii.ascii_dec c d) as [->|Hne].
      * rewrite IH. split; intros [t H]; exists t; congruence.
      * split; [discriminate | intros [t H]; congruence].
Qed.

Lemma includes_Contains (s sub : string) :
  includes s sub = true <-> Contains s sub.
Proof.
  unfold Contains. induction s as [|c s IH]; cbn [includes].
  - rewrite Bool.orb_false_r, prefix_StartsWith. unfold StartsWith. split.
    + intros [t H]. now exists EmptyString, t.
    + intros [a [b H]]. destruct a; simpl in H.
      * now exists b.
      * discriminate.
  - rewrite Bool.orb_true_iff, prefix_StartsWith, IH. unfold StartsWith. split.
    + intros [[t H] | [a [b H]]].
      * now exists EmptyString, t.
      * exists (String c a), b. simpl. now rewrite H.
    + intros [a [b H]]. destruct a as [|d a]; simpl in H.
      * left. now exists b.
      * right. exists a, b. congruence.
Qed.

Lemma existsb_ContainsChar (p : ascii -> bool) (s : string) :
  existsb p s = true <-> ContainsChar s (fun c => p c = true).
Proof.
  unfold ContainsChar. induction s as [|c s IH]; simpl.
  - split; [discriminate | intros [a [d [b [H _]]]]; destruct a; discriminate].
  - rewrite Bool.orb_true_iff, IH. split.
    + intros [H | [a [d [b [H Hd]]]]].
      * now exists EmptyString, c, s.
      * exists (String c a), d, b. simpl. now rewrite H.
    + intros [a [d [b [H Hd]]]]. destruct a as [|e a]; simpl in H.
      * left. congruence.
      * right. exists a, d, b. split; congruence.
Qed.

Lemma forallb_chars (p : ascii -> bool) (s : string) :
  forallb p s = true <-> (forall a c b, s = a ++ String c b -> p c = true).
Proof.
  induction s as [|c s IH]; simpl.
  - split; [intros _ a d b H; destruct a; discriminate | reflexivity].
  - rewrite Bool.andb_true_iff, IH. split.
    + intros [Hc Hs] a d b H. destruct a as [|e a]; simpl in H.
      * congruence.
      * apply (Hs a d b). congruence.
    + intros H. split.
      * now apply (H EmptyString c s).
      * intros a d b E. apply (H (String c a) d b). simpl. now rewrite E.
Qed.

Lemma endsWithChar_EndsWith (s : string) (c : ascii) :
  endsWithChar s c = true <-> EndsWith s (String c EmptyString).
Proof.
  unfold EndsWith. induction s as [|d s IH].
  - simpl. split; [discriminate | intros [t H]; destruct t; discriminate].
  - destruct s as [|e s].
    + simpl. rewrite Ascii.eqb_eq. split.
      * intros ->. now exists EmptyString.
      * intros [t H]. destruct t as [|x t]; simpl in H.
        -- congruence.
        -- destruct t; discriminate.
    + change (endsWithChar (String d (String e s)) c)
        with (endsWithChar (String e s) c).
      rewrite IH. split.
      * intros [t H]. exists (String d t). simpl. now rewrite H.
      * intros [t H]. destruct t as [|x t]; simpl in H.
        -- discriminate.
        -- exists t. congruence.
Qed.

Lemma append_assoc (a b c : string) : (a ++ b) ++ c = a ++ (b ++ c).
Proof. induction a as [|x a IH]; simpl; [reflexivity | now rewrite IH]. Qed.


(* ================================================================= *)
(** ** The skill-name validator *)

Lemma name_class_char (c : ascii) : name_class c = true <-> name_char c.
Proof.
  unfold name_class, name_char. cbv zeta. bool_prop.
  rewrite (code_eq c (n:=45)) by lia. simpl. tauto.
Qed.

Lemma name_class_dot (c : ascii) : name_class c = true -> re_dot c = true.
Proof.
  unfold name_class, re_dot, LF, CR. cbv zeta. bool_prop.
  intros H. split; intros ->; cbv in H; lia.
Qed.

Lemma dotstar_includes (s : string) :
  forallb name_class s = true -> dotstar_dashdash s = includes s "--".
Proof.
  induction s as [|c s IH]; intros H.
  - reflexivity.
  - cbn [forallb] in H. apply Bool.andb_true_iff in H as [Hc Hs].
    cbn [dotstar_dashdash includes].
    now rewrite (name_class_dot _ Hc), IH.
Qed.

Lemma isValidSkillName_grammar (s : string) :
  isValidSkillName s = true <-> skill_name_grammar s.
Proof.
  unfold isValidSkillName, SKILL_NAME_PATTERN_test, skill_name_grammar.
  split.
  - intros H. bool_prop.
    destruct H as [[[Hp Hd] [[Hf H1] H64]] He].
    rewrite (dotstar_includes _ Hf) in Hd.
    repeat split; try assumption.
    + intros a c b E. apply name_class_char.
      now apply (proj1 (forallb_chars name_class s) Hf a c b).
    + intros Hs. apply prefix_StartsWith in Hs. congruence.
    + intros Hs. apply endsWithChar_EndsWith in Hs. congruence.
    + intros Hs. apply includes_Contains in Hs. congruence.
  - intros [[H1 H64] [Hc [Hp [He Hd]]]].
    assert (Hf : forallb name_class s = true).
    { apply forallb_chars. intros a c b E. apply name_class_char. eauto. }
    rewrite (dotstar_includes _ Hf), Hf.
    bool_prop. repeat split; try assumption.
    + apply Bool.not_true_is_false. now rewrite prefix_StartsWith.
    + apply Bool.not_true_is_false. now rewrite includes_Contains.
    + apply Bool.not_true_is_false. now rewrite endsWithChar_EndsWith.
Qed.

(** C6.  [isValidSkillName] returns true exactly for the strings of 1 to 64
    characters drawn from a-z, 0-9 and the hyphen that neither start nor end
    with a hyphen nor hold two hyphens in a row; it returns false for every
    string that holds an uppercase letter or an underscore, starts or ends
    with a hyphen, holds two consecutive hyphens, is empty, or is longer than
    64 characters. *)
Theorem isValidSkillName_correct (s : string) :
  (isValidSkillName s = true <-> skill_name_grammar s)
  /\ (ContainsChar s is_uppercase
      \/ ContainsChar s (fun c => c = "_"%char)
      \/ StartsWith s "-"
      \/ EndsWith s "-"
      \/ Contains s "--"
      \/ String.length s = 0
      \/ 64 < String.length s ->
      isValidSkillName s = false).
Proof.
  split; [apply isValidSkillName_grammar|].
  intros H. apply Bool.not_true_is_false. rewrite isValidSkillName_grammar.
  intros [Hlen [Hc [Hp [He Hd]]]].
  destruct H as [[a [c [b [E U]]]] | [[a [c [b [E U]]]] | [H | [H | [H | H]]]]].
  - specialize (Hc a c b E). unfold name_char, is_uppercase in *.
    destruct Hc as [Hc | [Hc | ->]]; [lia | lia | cbv in U; lia].
  - specialize (Hc a c b E). subst c. unfold name_char in Hc.
    destruct Hc as [Hc | [Hc | Hc]]; [cbv in Hc; lia | cbv in Hc; lia | discriminate].
  - now apply Hp.
  - now apply He.
  - now apply Hd.
  - lia.
Qed.

Lemma isValidSkillName_correct_witness :
  isValidSkillName "git--workflow" = false.
Proof.
  apply (proj2 (isValidSkillName_correct "git--workflow")).
  do 4 right. left. exists "git", "workflow". reflexivity.
Defined.

(* ================================================================= *)
(** ** The file-path validator *)

Lemma invalidChars_class_forbidden (c : ascii) :
  invalidChars_class c = true <-> forbidden_path_char c.
Proof.
  unfold invalidChars_class, forbidden_path_char. cbv zeta. bool_prop.
  rewrite (code_eq c (n:=63)), (code_eq c (n:=35)), (code_eq c (n:=91)),
    (code_eq c (n:=93)) by lia.
  simpl. tauto.
Qed.

(** C7.  [isValidFilePath] returns false for every string that is empty,
    starts with a slash, holds [..] anywhere, holds a backslash, or holds one
    of [? # [ ]] or a character in the ranges 0x00-0x1F or 0x7F-0xFF; it
    returns true for the three sample paths. *)
Theorem isValidFilePath_rejects :
  (forall path : string,
      path = EmptyString
      \/ StartsWith path "/"
      \/ Contains path ".."
      \/ Contains path (String backslash EmptyString)
      \/ ContainsChar path forbidden_path_char ->
      isValidFilePath path = false)
  /\ isValidFilePath "SKILL.md" = true
  /\ isValidFilePath "scripts/extract.py" = true
  /\ isValidFilePath "references/deep/nested/file.md" = true.
Proof.
  split; [|repeat split; reflexivity].
  intros path H. unfold isValidFilePath, startsWith, invalidChars_test.
  destruct H as [-> | [H | [H | [H | H]]]].
  - reflexivity.
  - apply prefix_StartsWith in H. rewrite H. now split_ifs.
  - apply includes_Contains in H. rewrite H. now split_ifs.
  - apply includes_Contains in H. rewrite H. now split_ifs.
  - assert (E : existsb invalidChars_class path = true).
    { apply existsb_ContainsChar. destruct H as [a [c [b [E Hc]]]].
      exists a, c, b. split; [assumption|].
      now apply invalidChars_class_forbidden. }
    rewrite E. now split_ifs.
Qed.

Lemma isValidFilePath_rejects_witness :
  isValidFilePath "scripts/../secret.md" = false.
Proof.
  apply (proj1 isValidFilePath_rejects).
  right. right. left. exists "scripts/", "/secret.md". reflexivity.
Defined.

(* ================================================================= *)
(** ** The content-type resolver *)

Lemma split_nonempty (sep : ascii) (s : string) : split sep s <> [].
Proof.
  induction s as [|c s IH]; simpl; [discriminate|].
  destruct (Ascii.eqb c sep); [discriminate|].
  destruct (split sep s); discriminate.
Qed.

Lemma split_app (sep : ascii) (a b : string) :
  split sep (a ++ String sep b) = (split sep a ++ split sep b)%list.
Proof.
  induction a as [|c a IH]; simpl.
  - now rewrite Ascii.eqb_refl.
  - destruct (Ascii.eqb c sep); [now rewrite IH|].
    rewrite IH. pose proof (split_nonempty sep a) as Hne.
    destruct (split sep a); [contradiction | reflexivity].
Qed.

Lemma split_no_sep (sep : ascii) (s : string) :
  forallb (fun c => negb (Ascii.eqb c sep)) s = true -> split sep s = [s].
Proof.
  induction s as [|c s IH]; simpl; [reflexivity|].
  intros H. apply Bool.andb_true_iff in H as [Hc Hs].
  apply Bool.negb_true_iff in Hc. now rewrite Hc, (IH Hs).
Qed.

Lemma pop_app (l1 l2 : list string) :
  l2 <> [] -> pop (l1 ++ l2) = pop l2.
Proof.
  intros Hne. induction l1 as [|x l1 IH]; [reflexivity|].
  simpl. rewrite IH. destruct (l1 ++ l2)%list eqn:E; [|reflexivity].
  apply app_eq_nil in E. tauto.
Qed.

(** The extension [getContentType] reads off a path with a dot: what follows
    the last dot, in lower case. *)
Lemma getContentType_after_last_dot (stem ext : string) :
  forallb (fun c => negb (Ascii.eqb c ".")) ext = true ->
  getContentType (stem ++ String "." ext)
  = nullish (object_get contentTypes (toLowerCase ext))
            (JsStr "text/plain; charset=utf-8").
Proof.
  intros H. unfold getContentType.
  rewrite split_app, pop_app by apply split_nonempty.
  now rewrite (split_no_sep _ _ H).
Qed.

(** On a path without a dot the whole path is taken for the extension. *)
Lemma getContentType_no_dot (path : string) :
  forallb (fun c => negb (Ascii.eqb c ".")) path = true ->
  getContentType path
  = nullish (object_get contentTypes (toLowerCase path))
            (JsStr "text/plain; charset=utf-8").
Proof.
  intros H. unfold getContentType. now rewrite (split_no_sep _ _ H).
Qed.

(** An extension that is neither a key of the table nor a member of
    [Object.prototype] falls back to plain text. *)
Lemma object_get_fallback (key : string) :
  assoc key contentTypes = None ->
  List.existsb (String.eqb key) Object_prototype_members = false ->
  nullish (object_get contentTypes key) (JsStr "text/plain; charset=utf-8")
  = JsStr "text/plain; charset=utf-8".
Proof. intros H1 H2. unfold object_get. now rewrite H1, H2. Qed.

(** The table, as the specification lists it. *)
Lemma getContentType_table :
  List.map (fun ext => getContentType ("file." ++ ext))
           ["md"; "MARKDOWN"; "json"; "yaml"; "yml"; "txt"; "py"; "js"; "ts";
            "sh"; "bash"; "html"; "css"; "xml"]
  = List.map JsStr
      ["text/markdown; charset=utf-8"; "text/markdown; charset=utf-8";
       "application/json"; "text/yaml; charset=utf-8";
       "text/yaml; charset=utf-8"; "text/plain; charset=utf-8";
       "text/x-python; charset=utf-8"; "text/javascript; charset=utf-8";
       "text/typescript; charset=utf-8"; "text/x-shellscript; charset=utf-8";
       "text/x-shellscript; charset=utf-8"; "text/html; charset=utf-8";
       "text/css; charset=utf-8"; "application/xml"].
Proof. reflexivity. Qed.

(** C5.  [getContentType] does not fall back to plain text on every path
    with an unknown or missing extension: a path without a dot that spells a
    key of the table takes that key's type, and an extension that names a
    member of [Object.prototype] yields the inherited member, which is not
    a string at all. *)
Theorem getContentType_missing_extension :
  getContentType "json" = JsStr "application/json"
  /\ getContentType "json" <> JsStr "text/plain; charset=utf-8"
  /\ getContentType "notes.constructor" = JsInherited "constructor"
  /\ getContentType "notes.constructor" <> JsStr "text/plain; charset=utf-8".
Proof. repeat split; discriminate. Qed.

(* ================================================================= *)
(** ** Path normalisation *)

Lemma prefix_append (p r : string) : String.prefix p (p ++ r) = true.
Proof. apply prefix_StartsWith. now exists r. Qed.

Lemma slice_from_append (p r : string) :
  slice_from (String.length p) (p ++ r) = r.
Proof. induction p; simpl; [now destruct r | assumption]. Qed.

Lemma endsWithChar_append (b : string) (c : ascii) :
  endsWithChar (b ++ String c EmptyString) c = true.
Proof. apply endsWithChar_EndsWith. now exists b. Qed.

Lemma slice_drop_last_append (b : string) (c : ascii) :
  slice_drop_last (b ++ String c EmptyString) = b.
Proof.
  induction b as [|d b IH]; [reflexivity|].
  simpl. rewrite IH. now destruct b.
Qed.

(** A configured base path loses one trailing slash, and no more. *)
Lemma normalizedBasePath_trailing_slash
      (W : Type) (config : SkillsHandlerConfig W) (b : string) :
  basePath config = Some (b ++ "/") -> normalizedBasePath config = b.
Proof.
  intros H. unfold normalizedBasePath, the_basePath. rewrite H. simpl.
  now rewrite endsWithChar_append, slice_drop_last_append.
Qed.

(** C10.  Stripping the base prefix is a plain string-prefix test: whatever
    follows the characters of the normalised base path (the configured value
    less one trailing slash) is the remainder, whether or not the prefix ends
    at a slash.  With the base path
    [/.well-known/skills], the request path [/.well-known/skillsfoo] has the
    remainder [/foo] and is answered as the redirect for the skill name
    [foo]. *)
Theorem base_prefix_is_raw_string_prefix :
  (forall (W : Type) (config : SkillsHandlerConfig W) (rest : string),
      relativePath_of config (normalizedBasePath config ++ rest)
      = let remainder :=
          if startsWith rest "/" then rest else "/" ++ rest in
        if (1 <? String.length remainder) && endsWithChar remainder "/"
        then slice_drop_last remainder else remainder)
  /\ (forall (W : Type) (b : string),
         normalizedBasePath
           (mkConfig (W:=W) (Some (b ++ "/")) None None None None) = b)
  /\ normalizedBasePath Fixtures.default_config = "/.well-known/skills"
  /\ relativePath_of Fixtures.default_config "/.well-known/skillsfoo" = "/foo"
  /\ skillDirMatch "/foo" = Some "foo"
  /\ Fixtures.run Fixtures.static_provider Fixtures.default_config
       (Fixtures.GET "/.well-known/skillsfoo")
     = (Ret (mkResponse 302
               [("Location",
                 "http://localhost/.well-known/skills/foo/SKILL.md")]
               BodyNull),
        []).
Proof.
  split; [|split; [|repeat split]].
  - intros W config rest. unfold relativePath_of, startsWith.
    rewrite prefix_append, slice_from_append.
    now destruct (String.prefix "/" rest).
  - intros W b. now apply normalizedBasePath_trailing_slash.
Qed.

(* ================================================================= *)
(** ** The composite provider *)

Section CompositeFacts.

Variable W : Type.
Variable T : Type.
Variable skill_name : T -> string.

Lemma Map_get_set (m : JsMap T) (k k' : string) (v : T) :
  Map_get (Map_set m k v) k'
  = if String.eqb k k' then Some v else Map_get m k'.
Proof.
  induction m as [|[k0 v0] m IH]; simpl; [reflexivity|].
  destruct (String.eqb k0 k) eqn:E; simpl.
  - apply String.eqb_eq in E. subst k0.
    now destruct (String.eqb k k').
  - rewrite IH. destruct (String.eqb k0 k') eqn:E'; [|reflexivity].
    apply String.eqb_eq in E'. subst k0.
    now rewrite String.eqb_sym, E.
Qed.

Lemma Map_set_keys (m : JsMap T) (k : string) (v : T) :
  List.map fst (Map_set m k v)
  = if List.existsb (fun k0 => String.eqb k0 k) (List.map fst m)
    then List.map fst m else (List.map fst m ++ [k])%list.
Proof.
  induction m as [|[k0 v0] m IH]; simpl; [reflexivity|].
  destruct (String.eqb k0 k) eqn:E; simpl; [reflexivity|].
  rewrite IH. now destruct (List.existsb _ _).
Qed.

Lemma Map_set_NoDup (m : JsMap T) (k : string) (v : T) :
  NoDup (List.map fst m) -> NoDup (List.map fst (Map_set m k v)).
Proof.
  intros H. rewrite Map_set_keys.
  destruct (List.existsb _ _) eqn:E; [assumption|].
  apply NoDup_app; [assumption | repeat constructor; intros [] | ].
  intros x Hx [<- | []].
  assert (List.existsb (fun k0 => String.eqb k0 k) (List.map fst m) = true)
    as E'; [|congruence].
  apply List.existsb_exists. exists k. split; [assumption|].
  apply String.eqb_refl.
Qed.

Lemma Map_set_keyed (m : JsMap T) (s : T) :
  keyed_by_name skill_name m -> keyed_by_name skill_name (Map_set m (skill_name s) s).
Proof.
  unfold keyed_by_name. induction 1 as [|[k0 v0] m Hk Hm IH]; simpl.
  - repeat constructor.
  - destruct (String.eqb k0 (skill_name s)) eqn:E.
    + apply String.eqb_eq in E. constructor; [assumption | assumption].
    + constructor; assumption.
Qed.

Lemma Map_get_In (m : JsMap T) (k : string) (v : T) :
  NoDup (List.map fst m) -> (In (k, v) m <-> Map_get m k = Some v).
Proof.
  induction m as [|[k0 v0] m IH]; simpl; intros Hnd.
  - split; [contradiction | discriminate].
  - inversion Hnd as [|? ? Hnotin Hnd']; subst.
    destruct (String.eqb k0 k) eqn:E.
    + apply String.eqb_eq in E. subst k0. split.
      * intros [H | H]; [congruence|].
        exfalso. apply Hnotin. apply (in_map fst) in H. exact H.
      * intros H. left. congruence.
    + apply String.eqb_neq in E. rewrite <- (IH Hnd'). split.
      * intros [H | H]; [congruence | assumption].
      * intros H. now right.
Qed.

Lemma set_all_invariant (skills : list T) (m : JsMap T) :
  NoDup (List.map fst m) -> keyed_by_name skill_name m ->
  NoDup (List.map fst (set_all skill_name m skills)) /\ keyed_by_name skill_name (set_all skill_name m skills).
Proof.
  revert m. induction skills as [|s skills IH]; intros m Hnd Hk; simpl.
  - now split.
  - apply IH; [now apply Map_set_NoDup | now apply Map_set_keyed].
Qed.

Lemma Map_get_set_all (skills : list T) (m : JsMap T) (k : string) :
  Map_get (set_all skill_name m skills) k
  = match last_named skill_name k skills with
    | Some s => Some s
    | None => Map_get m k
    end.
Proof.
  revert m. induction skills as [|s skills IH]; intros m; simpl.
  - reflexivity.
  - unfold set_all in *. rewrite IH.
    destruct (last_named skill_name k skills); [reflexivity|].
    rewrite Map_get_set. now destruct (String.eqb (skill_name s) k).
Qed.

Lemma last_named_spec (skills : list T) (s : T) :
  last_named skill_name (skill_name s) skills = Some s <-> LastWithName skill_name skills s.
Proof.
  unfold LastWithName. induction skills as [|x skills IH]; simpl.
  - split; [discriminate | intros [pre [post [H _]]]].
    destruct pre; discriminate.
  - destruct (last_named skill_name (skill_name s) skills) as [s'|] eqn:E.
    + split.
      * intros H. inversion H; subst s'.
        destruct (proj1 IH eq_refl) as [pre [post [-> Hp]]].
        now exists (x :: pre), post.
      * intros [pre [post [H Hp]]]. destruct pre as [|y pre]; simpl in H.
        -- inversion H; subst x post. clear H.
           exfalso. clear IH. revert s' E.
           induction skills as [|z skills IHs]; simpl; [discriminate|].
           intros s' E.
           destruct (last_named skill_name (skill_name s) skills) as [s''|] eqn:E2.
           ++ apply (IHs (fun t Ht => Hp t (or_intror Ht)) s'' eq_refl).
           ++ destruct (String.eqb (skill_name z) (skill_name s)) eqn:E3;
                [|discriminate].
              apply String.eqb_eq in E3.
              apply (Hp z); [now left | assumption].
        -- inversion H; subst y skills. f_equal.
           assert (Some s' = Some s) as Hs; [|congruence].
           apply IH. now exists pre, post.
    + destruct (String.eqb (skill_name x) (skill_name s)) eqn:E3.
      * split.
        -- intros H. inversion H; subst x. exists [], skills.
           split; [reflexivity|]. intros s' Hin Hname.
           clear IH E3 H. induction skills as [|z skills IHs];
             simpl in *; [contradiction|].
           destruct (last_named skill_name (skill_name s) skills); [discriminate|].
           destruct (String.eqb (skill_name z) (skill_name s)) eqn:E4;
             [discriminate|].
           apply String.eqb_neq in E4.
           destruct Hin as [-> | Hin]; [contradiction|].
           now apply IHs.
        -- intros [pre [post [H Hp]]]. destruct pre as [|y pre]; simpl in H.
           ++ congruence.
           ++ inversion H; subst y skills.
              assert (None = Some s) as Hs; [|discriminate].
              apply IH. now exists pre, post.
      * split; [discriminate|].
        intros [pre [post [H Hp]]]. destruct pre as [|y pre]; simpl in H.
        -- inversion H; subst x. now rewrite String.eqb_refl in E3.
        -- inversion H; subst y skills.
           assert (None = Some s) as Hs; [|discriminate].
           apply IH. now exists pre, post.
Qed.

Lemma set_all_app (m : JsMap T) (l1 l2 : list T) :
  set_all skill_name (set_all skill_name m l1) l2
  = set_all skill_name m (l1 ++ l2).
Proof. unfold set_all. now rewrite fold_left_app. Qed.

(** When every provider returns, the loop ends with the map filled from
    their lists in order. *)
Lemma collect_each (providers : list (Provider W T)) :
  forall (m : JsMap T) (w w' : W) (lists : list (list T)),
    getSkills_each providers w = (Ret lists, w') ->
    collect skill_name providers m w
    = (Ret (set_all skill_name m (List.concat lists)), w').
Proof.
  induction providers as [|p rest IH]; intros m w w' lists H.
  - cbn in H. inversion H; subst. reflexivity.
  - cbn [getSkills_each collect] in *. unfold bind in *.
    destruct (getSkills p w) as [[skills|t] w1]; [|discriminate].
    destruct (getSkills_each rest w1) as [[others|t] w2] eqn:E;
      [|discriminate].
    cbn in H. inversion H; subst. clear H.
    rewrite (IH _ _ _ _ E). cbn [List.concat].
    now rewrite set_all_app.
Qed.

Lemma composite_values (skills : list T) (s : T) :
  In s (Map_values (set_all skill_name [] skills))
  <-> LastWithName skill_name skills s.
Proof.
  destruct (set_all_invariant skills (m:=[])) as [Hnd Hk];
    [constructor | constructor |].
  rewrite <- last_named_spec.
  pose proof (Map_get_set_all skills [] (skill_name s)) as Hget.
  cbn [Map_get] in Hget.
  assert (Map_get (set_all skill_name [] skills) (skill_name s) = Some s
          <-> last_named skill_name (skill_name s) skills = Some s) as <-.
  { rewrite Hget. now destruct (last_named _ _ _). }
  rewrite <- (Map_get_In _ _ _ Hnd).
  unfold Map_values. rewrite in_map_iff. split.
  - intros [[k v] [E Hin]]. simpl in E. subst v.
    unfold keyed_by_name in Hk. rewrite Forall_forall in Hk.
    specialize (Hk _ Hin). simpl in Hk. now subst k.
  - intros Hin. now exists (skill_name s, s).
Qed.

Lemma composite_NoDup (skills : list T) :
  NoDup (List.map skill_name (Map_values (set_all skill_name [] skills))).
Proof.
  destruct (set_all_invariant skills (m:=[])) as [Hnd Hk];
    [constructor | constructor |].
  unfold Map_values. rewrite List.map_map.
  erewrite List.map_ext_in; [exact Hnd|].
  intros kv Hin. unfold keyed_by_name in Hk. rewrite Forall_forall in Hk.
  symmetry. now apply Hk.
Qed.

(** The last skill with a name in the concatenation lies in the last list
    that holds a skill of that name. *)
Lemma LastWithName_concat (lists : list (list T)) (s : T) :
  LastWithName skill_name (List.concat lists) s ->
  exists before l after,
    lists = (before ++ l :: after)%list
    /\ In s l
    /\ forall l' s', In l' after -> In s' l' ->
                     skill_name s' <> skill_name s.
Proof.
  unfold LastWithName. intros [pre [post [E Hpost]]].
  revert pre E. induction lists as [|l0 rest IH]; intros pre E.
  - destruct pre; discriminate.
  - cbn [List.concat] in E. apply app_eq_app in E as [l' [[E1 E2] | [E1 E2]]].
    + destruct l' as [|x l'].
      * rewrite app_nil_r in E1. simpl in E2. subst pre.
        destruct (IH [] (eq_sym E2)) as [before [l [after [-> [Hin Hafter]]]]].
        now exists (l0 :: before), l, after.
      * simpl in E2. inversion E2; subst x post.
        exists [], l0, rest. split; [reflexivity|]. split.
        -- rewrite E1. apply in_or_app. right. now left.
        -- intros l'' s' Hl Hs. apply Hpost. apply in_or_app. right.
           apply in_concat. now exists l''.
    + destruct (IH l' E2) as [before [l [after [-> [Hin Hafter]]]]].
      now exists (l0 :: before), l, after.
Qed.

End CompositeFacts.

(** C9.  Whenever every provider of the list returns its skills, the
    composite [getSkills] returns a list with no two skills of the same
    name; the skills returned are exactly the last ones of their names in
    the providers' lists taken in order, so each comes from the last provider
    that holds a skill of its name.  For the providers [[A, B]] where A holds
    [{name: x, v: 1}] and B holds [{name: x, v: 2}], the result is the one
    skill named [x] with [v] 2. *)
Theorem composite_getSkills_last_wins :
  (forall (W T : Type) (skill_name : T -> string)
          (providers : list (Provider W T)) (w w' : W)
          (lists : list (list T)),
      getSkills_each providers w = (Ret lists, w') ->
      exists result,
        getSkills (createCompositeProvider skill_name providers) w
        = (Ret result, w')
        /\ NoDup (List.map skill_name result)
        /\ (forall s, In s result
                      <-> LastWithName skill_name (List.concat lists) s)
        /\ (forall s, In s result ->
              exists before l after,
                lists = (before ++ l :: after)%list
                /\ In s l
                /\ forall l' s', In l' after -> In s' l' ->
                                 skill_name s' <> skill_name s))
  /\ getSkills (createCompositeProvider Fixtures.v_name
                  [Fixtures.provider_A; Fixtures.provider_B]) []
     = (Ret [Fixtures.mkVersioned "x" 2], []).
Proof.
  split; [|reflexivity].
  intros W T skill_name providers w w' lists H.
  exists (Map_values (set_all skill_name [] (List.concat lists))).
  split; [|split; [|split]].
  - cbn [createCompositeProvider getSkills]. unfold bind.
    now rewrite (collect_each skill_name providers [] w H).
  - apply composite_NoDup.
  - intros s. apply composite_values.
  - intros s Hin. apply LastWithName_concat. now apply composite_values.
Qed.

Lemma composite_getSkills_last_wins_witness :
  exists result,
    getSkills (createCompositeProvider Fixtures.v_name
                 [Fixtures.provider_A; Fixtures.provider_B]) []
    = (Ret result, [])
    /\ NoDup (List.map Fixtures.v_name result)
    /\ (forall s, In s result
                  <-> LastWithName Fixtures.v_name
                        (List.concat [[Fixtures.mkVersioned "x" 1];
                                      [Fixtures.mkVersioned "x" 2]]) s)
    /\ (forall s, In s result ->
          exists before l after,
            [[Fixtures.mkVersioned "x" 1]; [Fixtures.mkVersioned "x" 2]]
            = (before ++ l :: after)%list
            /\ In s l
            /\ forall l' s', In l' after -> In s' l' ->
                             Fixtures.v_name s' <> Fixtures.v_name s).
Proof.
  apply (proj1 composite_getSkills_last_wins
           Fixtures.World Fixtures.Versioned Fixtures.v_name
           [Fixtures.provider_A; Fixtures.provider_B] [] []).
  reflexivity.
Defined.

(* ================================================================= *)
(** ** Route matching *)

Lemma span_segment_slash (segment tail : string) :
  forallb not_slash segment = true ->
  span_segment (segment ++ String "/" tail) = (segment, String "/" tail).
Proof.
  induction segment as [|c segment IH]; intros H.
  - reflexivity.
  - cbn [forallb] in H. apply Bool.andb_true_iff in H as [Hc Hs].
    unfold not_slash in Hc. apply Bool.negb_true_iff in Hc.
    cbn. rewrite Hc, (IH Hs). reflexivity.
Qed.

Lemma span_segment_end (segment : string) :
  forallb not_slash segment = true ->
  span_segment segment = (segment, EmptyString).
Proof.
  induction segment as [|c segment IH]; intros H.
  - reflexivity.
  - cbn [forallb] in H. apply Bool.andb_true_iff in H as [Hc Hs].
    unfold not_slash in Hc. apply Bool.negb_true_iff in Hc.
    cbn. rewrite Hc, (IH Hs). reflexivity.
Qed.

Lemma forallb_impl (p q : ascii -> bool) (s : string) :
  (forall c, p c = true -> q c = true) ->
  forallb p s = true -> forallb q s = true.
Proof.
  intros Hpq. induction s as [|c s IH]; [reflexivity|].
  cbn [forallb]. rewrite !Bool.andb_true_iff. intros [Hc Hs]. auto.
Qed.

Lemma valid_name_segment (skillName : string) :
  isValidSkillName skillName = true ->
  forallb not_slash skillName = true /\ nonempty skillName = true.
Proof.
  unfold isValidSkillName, SKILL_NAME_PATTERN_test. bool_prop.
  intros [[_ [[Hf H1] _]] _]. split.
  - revert Hf. apply forallb_impl. intros c Hc.
    unfold not_slash. apply Bool.negb_true_iff, Ascii.eqb_neq. intros ->.
    discriminate.
  - destruct skillName; [simpl in H1; lia | reflexivity].
Qed.

Lemma valid_path_chars (filePath : string) :
  isValidFilePath filePath = true ->
  forallb re_dot filePath = true /\ nonempty filePath = true.
Proof.
  unfold isValidFilePath, invalidChars_test. intros H. split.
  - destruct (_ || _); [discriminate|].
    destruct (startsWith _ _); [discriminate|].
    destruct (includes _ _); [discriminate|].
    destruct (includes _ _); [discriminate|].
    destruct (existsb invalidChars_class filePath) eqn:E; [discriminate|].
    clear H. induction filePath as [|c s IH]; [reflexivity|].
    cbn [existsb forallb] in *. apply Bool.orb_false_iff in E as [Ec Es].
    rewrite (IH Es), Bool.andb_true_r.
    unfold re_dot, LF, CR. bool_prop.
    split; intros ->; discriminate.
  - destruct filePath; [discriminate | reflexivity].
Qed.

Lemma nonempty_true (s : string) : s <> EmptyString -> nonempty s = true.
Proof. destruct s; [contradiction | reflexivity]. Qed.

(** A path of two parts is neither the root nor [/index.json]. *)
Lemma two_part_path_not_fixed (segment rest : string) :
  forallb not_slash segment = true ->
  String.eqb (String "/" (segment ++ String "/" rest)) "/" = false
  /\ String.eqb (String "/" (segment ++ String "/" rest)) EmptyString = false
  /\ String.eqb (String "/" (segment ++ String "/" rest)) "/index.json" = false.
Proof.
  intros H. repeat split.
  - destruct segment; reflexivity.
  - apply String.eqb_neq. intros E. inversion E as [E'].
    pose proof (span_segment_slash segment rest H) as Hs. rewrite E' in Hs.
    discriminate.
Qed.

Lemma skillMdMatch_document (segment : string) :
  forallb not_slash segment = true -> segment <> EmptyString ->
  skillMdMatch (String "/" (segment ++ "/SKILL.md")) = Some segment.
Proof.
  intros H Hne. unfold skillMdMatch.
  change (segment ++ "/SKILL.md") with (segment ++ String "/" "SKILL.md").
  rewrite (span_segment_slash _ _ H), (nonempty_true Hne). reflexivity.
Qed.

Lemma skillMdMatch_other (segment rest : string) :
  forallb not_slash segment = true -> rest <> "SKILL.md" ->
  skillMdMatch (String "/" (segment ++ String "/" rest)) = None.
Proof.
  intros H Hne. unfold skillMdMatch.
  rewrite (span_segment_slash _ _ H).
  assert (String.eqb (String "/" rest) "/SKILL.md" = false) as ->.
  { apply String.eqb_neq. intros E. apply Hne. now inversion E. }
  now rewrite Bool.andb_false_r.
Qed.

Lemma skillFileMatch_file (segment rest : string) :
  forallb not_slash segment = true -> segment <> EmptyString ->
  rest <> EmptyString -> forallb re_dot rest = true ->
  skillFileMatch (String "/" (segment ++ String "/" rest))
  = Some (segment, rest).
Proof.
  intros H Hne Hr Hd. unfold skillFileMatch.
  rewrite (span_segment_slash _ _ H), (nonempty_true Hne), (nonempty_true Hr), Hd.
  reflexivity.
Qed.

Lemma single_segment_routes (segment : string) :
  forallb not_slash segment = true -> segment <> EmptyString ->
  skillMdMatch (String "/" segment) = None
  /\ skillFileMatch (String "/" segment) = None
  /\ skillDirMatch (String "/" segment) = Some segment.
Proof.
  intros H Hne. unfold skillMdMatch, skillFileMatch, skillDirMatch.
  rewrite (span_segment_end _ H), (nonempty_true Hne). repeat split.
Qed.

(* ================================================================= *)
(** ** Header values *)

Lemma Headers_value_ok (value : string) :
  header_safe value = true ->
  Headers_value value = Ret (Headers_normalize value).
Proof. unfold Headers_value, header_safe. cbv zeta. now intros ->. Qed.

Lemma Headers_value_inv (value stored : string) :
  Headers_value value = Ret stored ->
  stored = Headers_normalize value /\ header_safe value = true.
Proof.
  unfold Headers_value, header_safe. cbv zeta.
  destruct (isValidHeaderValue (Headers_normalize value));
    [|discriminate].
  intros E. inversion E. now split.
Qed.

Lemma Headers_value_throws (value : string) (t : JsThrown) :
  Headers_value value = Throw t -> header_safe value = false.
Proof.
  unfold Headers_value, header_safe. cbv zeta.
  now destruct (isValidHeaderValue (Headers_normalize value)).
Qed.

(** A value without HTTP whitespace at its ends is kept as it is. *)
Lemma strip_trailing_keeps (s : string) (c : ascii) :
  http_whitespace c = false ->
  strip_trailing (s ++ String c EmptyString) = s ++ String c EmptyString.
Proof.
  intros Hc. induction s as [|d s IH]; simpl.
  - now rewrite Hc.
  - rewrite IH. now destruct s.
Qed.

Lemma Headers_normalize_keeps (c d : ascii) (middle : string) :
  http_whitespace c = false -> http_whitespace d = false ->
  Headers_normalize (String c (middle ++ String d EmptyString))
  = String c (middle ++ String d EmptyString).
Proof.
  intros Hc Hd. unfold Headers_normalize. cbn [strip_leading]. rewrite Hc.
  change (String c (middle ++ String d EmptyString))
    with ((String c middle) ++ String d EmptyString).
  now apply strip_trailing_keeps.
Qed.

Section HeaderFacts.

Variable W : Type.
Variable config : SkillsHandlerConfig W.

Lemma createHeaders_ok (contentType : string) :
  header_config_ok config = true ->
  header_safe contentType = true ->
  createHeaders config contentType
  = Ret (served_headers config contentType).
Proof.
  unfold header_config_ok, createHeaders, served_headers, Headers_new,
    Headers_fill, Headers_append, Headers_set.
  intros Hc Hct. apply Bool.andb_true_iff in Hc. destruct Hc as [Hcc Hco].
  rewrite (Headers_value_ok _ Hct), (Headers_value_ok _ Hcc).
  destruct (cors_origin config) as [origin|]; [|reflexivity].
  rewrite (Headers_value_ok _ Hco). reflexivity.
Qed.

Lemma createHeaders_inv (contentType : string) (h : Headers) :
  createHeaders config contentType = Ret h ->
  h = served_headers config contentType
  /\ header_safe contentType = true
  /\ header_config_ok config = true.
Proof.
  unfold header_config_ok, createHeaders, served_headers, Headers_new,
    Headers_fill, Headers_append, Headers_set, obind.
  destruct (Headers_value contentType) as [ct|] eqn:Hct; [|discriminate].
  destruct (Headers_value_inv _ Hct) as [-> Hct'].
  destruct (Headers_value (the_cacheControl config)) as [cc|] eqn:Hcc;
    [|discriminate].
  destruct (Headers_value_inv _ Hcc) as [-> Hcc'].
  rewrite Hct', Hcc'.
  destruct (cors_origin config) as [origin|].
  - destruct (Headers_value origin) as [o|] eqn:Ho; [|discriminate].
    destruct (Headers_value_inv _ Ho) as [-> Ho'].
    rewrite Ho'. intros E. cbn in E. inversion E. now repeat split.
  - intros E. cbn in E. inversion E. now repeat split.
Qed.

(** Whether [createHeaders] throws does not depend on a content type that
    is itself acceptable. *)
Lemma createHeaders_throws (contentType : string) (t : JsThrown) :
  createHeaders config contentType = Throw t ->
  header_safe contentType = true ->
  header_config_ok config = false.
Proof.
  intros Ht Hct. destruct (header_config_ok config) eqn:Hc; [|reflexivity].
  rewrite (createHeaders_ok _ Hc Hct) in Ht. discriminate.
Qed.

Lemma served_headers_get (contentType : string) :
  let h := served_headers config contentType in
  Headers_get h "Content-Type" = Some (Headers_normalize contentType)
  /\ Headers_get h "Cache-Control"
     = Some (Headers_normalize (the_cacheControl config))
  /\ (forall origin, cors_origin config = Some origin ->
        Headers_get h "Access-Control-Allow-Origin"
        = Some (Headers_normalize origin)
        /\ Headers_get h "Access-Control-Allow-Methods"
           = Some "GET, HEAD, OPTIONS"
        /\ Headers_get h "Access-Control-Allow-Headers"
           = Some "Content-Type")
  /\ (cors_origin config = None ->
      Headers_get h "Access-Control-Allow-Origin" = None
      /\ Headers_get h "Access-Control-Allow-Methods" = None
      /\ Headers_get h "Access-Control-Allow-Headers" = None).
Proof.
  unfold served_headers. cbv zeta.
  destruct (cors_origin config) as [origin|]; cbn;
    repeat split; intros; try discriminate;
    match goal with
    | E : Some _ = Some _ |- _ => inversion E; subst; reflexivity
    end.
Qed.

End HeaderFacts.

(** Every content type the resolver gives is a value a [Headers] object
    accepts and keeps as it is. *)
Lemma contentTypes_safe (key value : string) :
  assoc key contentTypes = Some value ->
  header_safe value = true /\ Headers_normalize value = value.
Proof.
  unfold contentTypes. cbn [assoc].
  repeat match goal with
         | |- context [if ?b then _ else _] => destruct b
         end;
    intros E; inversion E; subst; split; reflexivity.
Qed.

Lemma inherited_safe (key : string) :
  List.existsb (String.eqb key) Object_prototype_members = true ->
  header_safe (JsValue_toString (JsInherited key)) = true.
Proof.
  unfold Object_prototype_members. cbn [List.existsb]. intros H.
  repeat (apply Bool.orb_true_iff in H;
          destruct H as [H | H];
          [apply String.eqb_eq in H; subst; reflexivity|]).
  discriminate.
Qed.

Lemma getContentType_safe (filePath : string) :
  header_safe (JsValue_toString (getContentType filePath)) = true.
Proof.
  unfold getContentType, object_get. cbv zeta.
  set (key := nullish _ EmptyString).
  destruct (assoc key contentTypes) as [value|] eqn:Ha.
  - cbn. now apply (contentTypes_safe key).
  - destruct (List.existsb (String.eqb key) Object_prototype_members)
      eqn:Hm; [|reflexivity].
    cbn [nullish]. now apply inherited_safe.
Qed.

Lemma inherited_kept (key : string) :
  List.existsb (String.eqb key) Object_prototype_members = true ->
  Headers_normalize (JsValue_toString (JsInherited key))
  = JsValue_toString (JsInherited key).
Proof.
  unfold Object_prototype_members. cbn [List.existsb]. intros H.
  repeat (apply Bool.orb_true_iff in H;
          destruct H as [H | H];
          [apply String.eqb_eq in H; subst; reflexivity|]).
  discriminate.
Qed.

(** The content type of a path is stored as it is. *)
Lemma getContentType_kept (filePath : string) :
  Headers_normalize (JsValue_toString (getContentType filePath))
  = JsValue_toString (getContentType filePath).
Proof.
  unfold getContentType, object_get. cbv zeta.
  set (key := nullish _ EmptyString).
  destruct (assoc key contentTypes) as [value|] eqn:Ha.
  - cbn. now apply (contentTypes_safe key).
  - destruct (List.existsb (String.eqb key) Object_prototype_members)
      eqn:Hm; [|reflexivity].
    cbn [nullish]. now apply inherited_kept.
Qed.

Lemma createHeaders_not_ok (W : Type) (config : SkillsHandlerConfig W)
      (contentType : string) :
  header_config_ok config = false ->
  exists t, createHeaders config contentType = Throw t.
Proof.
  intros Hno. destruct (createHeaders config contentType) as [h|t] eqn:E.
  - destruct (createHeaders_inv _ _ E) as [_ [_ Hok]]. congruence.
  - now exists t.
Qed.

(* ================================================================= *)
(** ** The handler: validation failures *)

Section HandlerFacts.

Variable W : Type.
Variable now : W -> Z.
Variable URL_resolve : string -> string -> option string.
Variable provider : SkillProvider W.
Variable config : SkillsHandlerConfig W.

(** An emission followed by an error response: the response when the
    emission returns, the thrown value when it throws. *)
Lemma emit_then_respond (ev : EventData) (code : nat) (msg : string)
      (h : Headers) (w : W) :
  createHeaders config "application/json" = Ret h ->
  (forall w', emitEvent now config ev w = (Ret tt, w') ->
     bind (emitEvent now config ev)
          (fun _ => liftO (error_response config code msg)) w
     = (Ret (mkResponse code h (BodyJson (JObject [("error", JString msg)]))),
        w'))
  /\ (forall t w', emitEvent now config ev w = (Throw t, w') ->
        bind (emitEvent now config ev)
             (fun _ => liftO (error_response config code msg)) w
        = (Throw t, w')).
Proof.
  intros Hh. unfold bind, liftO, error_response, obind. rewrite Hh.
  split; [intros w' E | intros t w' E]; now rewrite E.
Qed.

(** What the handler does with a GET request, by its relative path. *)
Lemma handler_GET (request : Request) :
  toUpperCase (req_method request) = "GET" ->
  handler now URL_resolve provider config request
  = let fullPath := req_pathname request in
    let relativePath := relativePath_of config fullPath in
    if String.eqb relativePath "/" || String.eqb relativePath EmptyString
    then liftO (createRedirect URL_resolve request
                  (normalizedBasePath config ++ "/index.json"))
    else if String.eqb relativePath "/index.json"
         then serveIndex now provider config fullPath
         else
           match skillMdMatch relativePath with
           | Some skillName =>
               if nonempty skillName && isValidSkillName skillName
               then serveSkillMd now provider config skillName fullPath
               else
                 bind (emitEvent now config
                         (with_skillName skillName
                            (event NOT_FOUND fullPath)))
                      (fun _ => liftO (error_response config 400
                                         "Invalid skill name"))
           | None =>
               routeSkillFile now URL_resolve provider config request
                              relativePath
           end.
Proof. intros H. unfold handler. rewrite H. reflexivity. Qed.

(** C3.  For a GET request whose normalised path is [/{segment}/{rest}]
    (the document path [/{segment}/SKILL.md] included), with configured
    header values the platform accepts: an invalid segment makes the
    handler call the sink with an event of type NOT_FOUND that carries the
    request path and the segment as skill name, and nothing else; a valid
    segment with an invalid rest, with an event of type NOT_FOUND that
    carries the path and both identifiers.  When that call returns (or no
    sink is configured) the handler answers 400 with the body
    [{error: Invalid skill name}], respectively [{error: Invalid file
    path}]; when it throws, the handler raises what the sink threw.  For a
    path of the single segment [/{segment}], other than the index path, an
    invalid segment falls through to the NOT_FOUND event without
    identifiers and, when the call returns, to the 404 response
    [{error: Not found}]. *)
Theorem invalid_segments_rejected (request : Request) (w : W)
        (h : Headers) :
  toUpperCase (req_method request) = "GET" ->
  createHeaders config "application/json" = Ret h ->
  let fullPath := req_pathname request in
  let relativePath := relativePath_of config fullPath in
  let answers (ev : EventData) (code : nat) (msg : string) : Prop :=
    (forall w',
        emitEvent now config ev w = (Ret tt, w') ->
        handler now URL_resolve provider config request w
        = (Ret (mkResponse code h
                  (BodyJson (JObject [("error", JString msg)]))),
           w'))
    /\ (forall t w',
           emitEvent now config ev w = (Throw t, w') ->
           handler now URL_resolve provider config request w
           = (Throw t, w')) in
  (forall segment rest : string,
      relativePath = "/" ++ segment ++ "/" ++ rest ->
      segment <> EmptyString -> forallb not_slash segment = true ->
      rest <> EmptyString -> forallb re_dot rest = true ->
      (isValidSkillName segment = false ->
       answers (mkEventData NOT_FOUND fullPath None (Some segment)
                            None None None)
               400 "Invalid skill name")
      /\ (isValidSkillName segment = true ->
          isValidFilePath rest = false ->
          answers (mkEventData NOT_FOUND fullPath None (Some segment)
                               (Some rest) None None)
                  400 "Invalid file path"))
  /\ (forall segment : string,
         relativePath = "/" ++ segment ->
         segment <> EmptyString -> forallb not_slash segment = true ->
         relativePath <> "/index.json" ->
         isValidSkillName segment = false ->
         answers (mkEventData NOT_FOUND fullPath None None None None None)
                 404 "Not found").
Proof.
  intros Hget Hh fullPath relativePath answers.
  assert (forall ev code msg,
             handler now URL_resolve provider config request w
             = bind (emitEvent now config ev)
                    (fun _ => liftO (error_response config code msg)) w ->
             answers ev code msg) as Hanswers.
  { intros ev code msg E. unfold answers. rewrite E.
    exact (emit_then_respond ev code msg w Hh). }
  clearbody answers.
  rewrite (handler_GET _ Hget) in Hanswers.
  cbv zeta in Hanswers. fold fullPath in Hanswers.
  fold relativePath in Hanswers. split.
  - intros segment rest Hrel Hne Hseg Hrest Hdot.
    change ("/" ++ segment ++ "/" ++ rest)
      with (String "/" (segment ++ String "/" rest)) in Hrel.
    rewrite Hrel in Hanswers.
    destruct (two_part_path_not_fixed segment rest Hseg) as [E1 [E2 E3]].
    rewrite E1, E2, E3 in Hanswers.
    cbn [orb] in Hanswers. split.
    + intros Hbad. apply Hanswers.
      destruct (String.string_dec rest "SKILL.md") as [-> | Hother].
      * change (String "/" (segment ++ String "/" "SKILL.md"))
          with (String "/" (segment ++ "/SKILL.md")).
        rewrite (skillMdMatch_document Hseg Hne), Hbad, Bool.andb_false_r.
        reflexivity.
      * rewrite (skillMdMatch_other _ Hseg Hother).
        unfold routeSkillFile.
        rewrite (skillFileMatch_file Hseg Hne Hrest Hdot).
        rewrite (nonempty_true Hne), (nonempty_true Hrest), Hbad.
        reflexivity.
    + intros Hok Hbad. apply Hanswers.
      assert (rest <> "SKILL.md") as Hother by (intros ->; discriminate).
      rewrite (skillMdMatch_other _ Hseg Hother).
      unfold routeSkillFile.
      rewrite (skillFileMatch_file Hseg Hne Hrest Hdot).
      rewrite (nonempty_true Hne), (nonempty_true Hrest), Hok, Hbad.
      reflexivity.
  - intros segment Hrel Hne Hseg Hindex Hbad. apply Hanswers.
    change ("/" ++ segment) with (String "/" segment) in Hrel.
    apply String.eqb_neq in Hindex. rewrite Hindex.
    rewrite Hrel in *.
    destruct (single_segment_routes Hseg Hne) as [-> [Hfile Hdir]].
    assert (String.eqb (String "/" segment) "/" = false) as ->
        by (destruct segment; [contradiction | reflexivity]).
    cbn [orb String.eqb]. unfold routeSkillFile, routeSkillDir.
    rewrite Hfile, Hdir, Hbad, Bool.andb_false_r. reflexivity.
Qed.

End HandlerFacts.

Lemma invalid_segments_rejected_witness :
  Fixtures.run Fixtures.static_provider Fixtures.recording_config
    (Fixtures.GET "/.well-known/skills/Invalid_Name/SKILL.md")
  = (Ret (mkResponse 400
            (Fixtures.default_headers "application/json")
            (BodyJson (JObject [("error", JString "Invalid skill name")]))),
     [mkEvent (mkEventData NOT_FOUND
                 "/.well-known/skills/Invalid_Name/SKILL.md"
                 None (Some "Invalid_Name") None None None)
              0%Z]).
Proof.
  unfold Fixtures.run.
  apply (proj1 (proj1 (proj1 (@invalid_segments_rejected
             Fixtures.World Fixtures.clock Fixtures.resolve
             Fixtures.static_provider Fixtures.recording_config
             (Fixtures.GET "/.well-known/skills/Invalid_Name/SKILL.md") []
             _ eq_refl eq_refl)
           "Invalid_Name" "SKILL.md" eq_refl
           ltac:(discriminate) eq_refl ltac:(discriminate) eq_refl)
         eq_refl)).
  reflexivity.
Defined.

(** Against C3 as stated: with a sink that throws, the request with an
    invalid segment is not answered 400, with either shape of the path, and
    the request for an invalid single segment is not answered 404: the
    handler raises what the sink threw. *)
Lemma invalid_segment_raises_through_sink :
  Fixtures.run Fixtures.static_provider Fixtures.throwing_config
    (Fixtures.GET "/.well-known/skills/Invalid_Name/SKILL.md")
  = (Throw (ThrownError (mkError "sink failed")), [])
  /\ Fixtures.run Fixtures.static_provider Fixtures.throwing_config
       (Fixtures.GET "/.well-known/skills/Invalid_Name/notes.md")
     = (Throw (ThrownError (mkError "sink failed")), [])
  /\ Fixtures.run Fixtures.static_provider Fixtures.throwing_config
       (Fixtures.GET "/.well-known/skills/git-workflow/a..b")
     = (Throw (ThrownError (mkError "sink failed")), [])
  /\ Fixtures.run Fixtures.static_provider Fixtures.throwing_config
       (Fixtures.GET "/.well-known/skills/Invalid_Name")
     = (Throw (ThrownError (mkError "sink failed")), []).
Proof. repeat split. Qed.

(* ================================================================= *)
(** ** The handler: response headers *)

Lemma Headers_new_single (k v : string) (h : Headers) :
  Headers_new [(k, v)] = Ret h ->
  h = [(k, Headers_normalize v)] /\ header_safe v = true.
Proof.
  unfold Headers_new, Headers_fill, Headers_append, obind.
  destruct (Headers_value v) as [stored|] eqn:Hv; [|discriminate].
  destruct (Headers_value_inv _ Hv) as [-> Hsafe].
  intros E. inversion E. now split.
Qed.

Section HandlerHeaders.

Variable W : Type.
Variable now : W -> Z.
Variable URL_resolve : string -> string -> option string.
Variable provider : SkillProvider W.
Variable config : SkillsHandlerConfig W.

(** A response to a request other than OPTIONS is a redirect with the one
    header [Location], or carries the headers [createHeaders] returned. *)
Lemma handler_response_shape (request : Request) (w w' : W)
      (response : Response) :
  handler now URL_resolve provider config request w = (Ret response, w') ->
  toUpperCase (req_method request) <> "OPTIONS" ->
  (exists location,
      status response = 302
      /\ headers response = [("Location", location)])
  \/ (exists contentType,
         status response <> 302
         /\ createHeaders config contentType = Ret (headers response)).
Proof.
  intros H Hmethod.
  walk_handler H.
  all: try (apply String.eqb_eq in Heqb; contradiction).
  all: inversion H; subst; clear H.
  all: cbn [status headers].
  all: first
         [ right; eexists; split; [discriminate | eassumption]
         | left;
           match goal with
           | E : Headers_new _ = Ret _ |- _ =>
               apply Headers_new_single in E; destruct E as [-> _]
           end;
           eexists; split; reflexivity ].
Qed.

(** C2.  Every response to a request other than OPTIONS that is not a 302
    redirect carries a Content-Type header and a Cache-Control header whose
    value is the configured (or default) cache-control value without the
    HTTP whitespace at its ends; with CORS enabled it carries
    Access-Control-Allow-Origin (the configured origin, or the origins
    joined by a comma and a space, likewise without the whitespace at the
    ends), Access-Control-Allow-Methods [GET, HEAD, OPTIONS] and
    Access-Control-Allow-Headers [Content-Type]; with CORS disabled the
    three are absent.  Such a response is only returned with configured
    values the platform accepts as header values.  A 302 redirect response
    carries the Location header and no other. *)
Theorem response_headers (request : Request) (w w' : W)
        (response : Response) :
  handler now URL_resolve provider config request w = (Ret response, w') ->
  toUpperCase (req_method request) <> "OPTIONS" ->
  (status response <> 302 ->
   let h := headers response in
   (exists contentType, Headers_get h "Content-Type" = Some contentType)
   /\ Headers_get h "Cache-Control"
      = Some (Headers_normalize (the_cacheControl config))
   /\ isValidHeaderValue (Headers_normalize (the_cacheControl config)) = true
   /\ (forall origin, the_cors config = CorsOrigin origin ->
         Headers_get h "Access-Control-Allow-Origin"
         = Some (Headers_normalize origin)
         /\ isValidHeaderValue (Headers_normalize origin) = true
         /\ Headers_get h "Access-Control-Allow-Methods"
            = Some "GET, HEAD, OPTIONS"
         /\ Headers_get h "Access-Control-Allow-Headers"
            = Some "Content-Type")
   /\ (forall origins, the_cors config = CorsOrigins origins ->
         Headers_get h "Access-Control-Allow-Origin"
         = Some (Headers_normalize (join ", " origins))
         /\ isValidHeaderValue (Headers_normalize (join ", " origins)) = true
         /\ Headers_get h "Access-Control-Allow-Methods"
            = Some "GET, HEAD, OPTIONS"
         /\ Headers_get h "Access-Control-Allow-Headers"
            = Some "Content-Type")
   /\ (the_cors config = CorsFalse ->
       Headers_get h "Access-Control-Allow-Origin" = None
       /\ Headers_get h "Access-Control-Allow-Methods" = None
       /\ Headers_get h "Access-Control-Allow-Headers" = None))
  /\ (status response = 302 ->
      exists location, headers response = [("Location", location)]).
Proof.
  intros H Hmethod.
  destruct (handler_response_shape _ _ H Hmethod)
    as [[location [Hs Hh]] | [contentType [Hs Hh]]].
  - split; [intros Hn; now contradiction Hn|].
    intros _. now exists location.
  - split; [|intros Hr; now contradiction Hs].
    intros _. cbv zeta.
    destruct (createHeaders_inv _ _ Hh) as [-> [_ Hok]].
    unfold header_config_ok in Hok. apply Bool.andb_true_iff in Hok.
    destruct Hok as [Hcc Hco].
    destruct (served_headers_get config contentType)
      as [Hct [Hcache [Hon Hoff]]].
    split; [eexists; exact Hct|]. split; [exact Hcache|].
    split; [exact Hcc|].
    unfold cors_origin in Hon, Hoff, Hco.
    destruct (the_cors config) as [origin|origins|].
    + split; [|split]; [|discriminate|discriminate].
      intros origin' E. inversion E; subst.
      destruct (Hon _ eq_refl) as [H1 [H2 H3]]. now repeat split.
    + split; [|split]; [discriminate| |discriminate].
      intros origins' E. inversion E; subst.
      destruct (Hon _ eq_refl) as [H1 [H2 H3]]. now repeat split.
    + split; [|split]; [discriminate|discriminate|].
      intros _. now apply Hoff.
Qed.

End HandlerHeaders.

Lemma response_headers_witness :
  exists response,
    Fixtures.run Fixtures.static_provider Fixtures.padded_config
      (Fixtures.GET "/.well-known/skills/index.json") = (Ret response, [])
    /\ Headers_get (headers response) "Cache-Control" = Some "max-age=60"
    /\ Headers_get (headers response) "Access-Control-Allow-Origin"
       = Some "*".
Proof.
  eexists. split; [reflexivity|].
  destruct (@response_headers Fixtures.World Fixtures.clock Fixtures.resolve
              Fixtures.static_provider Fixtures.padded_config
              (Fixtures.GET "/.well-known/skills/index.json") [] [] _
              eq_refl ltac:(discriminate))
    as [Hheaders _].
  destruct (Hheaders ltac:(discriminate)) as [_ [Hcc [_ [Hon _]]]].
  split; [exact Hcc|].
  exact (proj1 (Hon "*" eq_refl)).
Defined.

(** Against C2 as stated: the redirects of the Root and SkillRedirect routes
    carry neither Content-Type nor Cache-Control nor, with CORS enabled, any
    CORS header. *)
Lemma redirect_lacks_headers :
  exists root skill : Response,
    Fixtures.run Fixtures.static_provider Fixtures.default_config
      (Fixtures.GET "/.well-known/skills/") = (Ret root, [])
    /\ Fixtures.run Fixtures.static_provider Fixtures.default_config
         (Fixtures.GET "/.well-known/skills/git-workflow") = (Ret skill, [])
    /\ the_cors Fixtures.default_config = CorsOrigin "*"
    /\ status root = 302 /\ status skill = 302
    /\ headers skill
       = [("Location",
           "http://localhost/.well-known/skills/git-workflow/SKILL.md")]
    /\ Headers_get (headers root) "Content-Type" = None
    /\ Headers_get (headers root) "Cache-Control" = None
    /\ Headers_get (headers root) "Access-Control-Allow-Origin" = None
    /\ Headers_get (headers skill) "Content-Type" = None
    /\ Headers_get (headers skill) "Cache-Control" = None
    /\ Headers_get (headers skill) "Access-Control-Allow-Origin" = None.
Proof. do 2 eexists. repeat split. Qed.

(** A configured cache-control value with a space before it and a tab after
    it is served without them, and one with a line feed inside makes the
    handler raise after the sink has been given two events. *)
Lemma configured_header_values_on_the_fixtures :
  (exists response,
      Fixtures.run Fixtures.static_provider Fixtures.padded_config
        (Fixtures.GET "/.well-known/skills/index.json") = (Ret response, [])
      /\ the_cacheControl Fixtures.padded_config
         = " max-age=60" ++ Fixtures.TAB
      /\ Headers_get (headers response) "Cache-Control" = Some "max-age=60")
  /\ Fixtures.run Fixtures.static_provider Fixtures.broken_config
       (Fixtures.GET "/.well-known/skills/index.json")
     = (Throw (TypeError "Invalid header value"),
        [mkEvent (mkEventData INDEX_REQUESTED
                    "/.well-known/skills/index.json"
                    (Some 2) None None None None) 0%Z;
         mkEvent (mkEventData ERROR "/.well-known/skills/index.json"
                    None None None
                    (Some (mkError "Invalid header value")) None) 1%Z]).
Proof.
  split; [|reflexivity].
  eexists. split; [reflexivity|]. split; reflexivity.
Qed.

(* ================================================================= *)
(** ** The handler: documents, provider failures and the event sink *)

Lemma Headers_set_Content_Length (h : Headers) :
  Headers_set h "Content-Length" "0"
  = Ret (set_entry h "Content-Length" "0").
Proof. reflexivity. Qed.

Section HandlerOutcomes.

Variable W : Type.
Variable now : W -> Z.
Variable URL_resolve : string -> string -> option string.
Variable provider : SkillProvider W.

Lemma emitEvent_returns (config : SkillsHandlerConfig W) :
  sink_returns config ->
  forall (ev : EventData) (w : W),
  exists w', emitEvent now config ev w = (Ret tt, w').
Proof.
  unfold sink_returns, emitEvent. intros H ev w.
  destruct (onEvent config) as [sink|].
  - apply H.
  - now exists w.
Qed.



(** C8.  For a GET request routed as the document of a valid skill name,
    with the provider returning its skills and configured header values the
    platform accepts: when a skill of the list bears exactly that name, the
    handler calls the sink with an event of type SKILL_REQUESTED that
    carries the request path and the skill name and, when that call
    returns, answers 200, Content-Type [text/markdown; charset=utf-8], with
    the body made of the opening fence, the name line, the description line,
    the closing fence, two line feeds and the skill's body (the skill being
    the first of the list with that name); when none does, it calls the
    sink with an event of type NOT_FOUND that carries the path and the
    skill name and, when that call returns, answers 404 with the body
    [{error: Skill not found}]. *)
Theorem skill_document_response (config : SkillsHandlerConfig W)
        (request : Request) (skillName : string) (skills : list Skill)
        (w w1 : W) :
  toUpperCase (req_method request) = "GET" ->
  relativePath_of config (req_pathname request)
  = "/" ++ skillName ++ "/SKILL.md" ->
  isValidSkillName skillName = true ->
  getSkills provider w = (Ret skills, w1) ->
  header_config_ok config = true ->
  let fullPath := req_pathname request in
  let lf := String (ascii_of_nat 10) EmptyString in
  ((exists s, In s skills /\ name s = skillName) ->
   exists skill,
     List.find (fun s => String.eqb (name s) skillName) skills = Some skill
     /\ In skill skills
     /\ name skill = skillName
     /\ forall w2,
         emitEvent now config
           (mkEventData SKILL_REQUESTED fullPath None (Some skillName)
                        None None None) w1
         = (Ret tt, w2) ->
         exists response,
           handler now URL_resolve provider config request w
           = (Ret response, w2)
           /\ status response = 200
           /\ Headers_get (headers response) "Content-Type"
              = Some "text/markdown; charset=utf-8"
           /\ createHeaders config "text/markdown; charset=utf-8"
              = Ret (headers response)
           /\ resp_body response
              = BodyText ("---" ++ lf ++ "name: " ++ skillName ++ lf
                          ++ "description: " ++ description skill ++ lf
                          ++ "---" ++ lf ++ lf ++ body skill))
  /\ ((forall s, In s skills -> name s <> skillName) ->
      forall w2,
        emitEvent now config
          (mkEventData NOT_FOUND fullPath None (Some skillName)
                       None None None) w1
        = (Ret tt, w2) ->
        exists h,
          createHeaders config "application/json" = Ret h
          /\ handler now URL_resolve provider config request w
             = (Ret (mkResponse 404 h
                       (BodyJson (JObject [("error",
                                            JString "Skill not found")]))),
                w2)).
Proof.
  intros Hget Hrel Hname Hskills Hok fullPath lf.
  assert (handler now URL_resolve provider config request w
          = serveSkillMd now provider config skillName fullPath w) as ->.
  { rewrite (handler_GET now URL_resolve provider config request Hget).
    cbv zeta. unfold fullPath.
    destruct (valid_name_segment skillName Hname) as [Hseg Hne].
    change ("/" ++ skillName ++ "/SKILL.md")
      with (String "/" (skillName ++ String "/" "SKILL.md")) in Hrel.
    rewrite Hrel.
    destruct (two_part_path_not_fixed skillName "SKILL.md" Hseg)
      as [-> [-> ->]].
    cbn [orb].
    change (String "/" (skillName ++ String "/" "SKILL.md"))
      with (String "/" (skillName ++ "/SKILL.md")).
    rewrite skillMdMatch_document, Hne, Hname;
      [reflexivity | assumption | now destruct skillName]. }
  unfold serveSkillMd, try_catch, bind, liftO, error_response, obind.
  rewrite Hskills. split.
  - intros [s [Hin Hs]].
    destruct (List.find (fun s => String.eqb (name s) skillName) skills)
      as [skill|] eqn:Hfind.
    + destruct (List.find_some _ _ Hfind) as [Hin' Heq].
      apply String.eqb_eq in Heq.
      exists skill. repeat split; try assumption.
      intros w2 Hemit.
      change (with_skillName skillName (event SKILL_REQUESTED fullPath))
        with (mkEventData SKILL_REQUESTED fullPath None (Some skillName)
                          None None None).
      rewrite Hemit.
      rewrite (createHeaders_ok config "text/markdown; charset=utf-8"
                                Hok eq_refl).
      eexists. split; [reflexivity|].
      cbn [status headers resp_body]. repeat split.
      unfold reconstructSkillMd. rewrite Heq.
      cbv zeta. now rewrite !append_assoc.
    + exfalso. pose proof (List.find_none _ _ Hfind s Hin) as Hno.
      cbv beta in Hno. apply String.eqb_neq in Hno. contradiction.
  - intros Hnone w2 Hemit.
    destruct (List.find (fun s => String.eqb (name s) skillName) skills)
      as [skill|] eqn:Hfind.
    + exfalso. destruct (List.find_some _ _ Hfind) as [Hin' Heq].
      apply String.eqb_eq in Heq. now apply (Hnone skill).
    + change (with_skillName skillName (event NOT_FOUND fullPath))
        with (mkEventData NOT_FOUND fullPath None (Some skillName)
                          None None None).
      rewrite Hemit.
      rewrite (createHeaders_ok config "application/json" Hok eq_refl).
      eexists. split; reflexivity.
Qed.

End HandlerOutcomes.

(* ================================================================= *)
(** ** The handler and its sink *)

Section SinkTransparency.

Variable W : Type.
Variable now : W -> Z.
Variable URL_resolve : string -> string -> option string.
Variable provider : SkillProvider W.
Variable config : SkillsHandlerConfig W.

(** The three runs of one computation from one world [w]: with the sink,
    without it, and with the sink under record.  The run under record is
    the run with the sink, and the run without the sink has the same
    outcome when the sink returns on the calls recorded. *)
Lemma respond_runs (ev : EventData) (code : nat) (msg : string) (w : W)
      (o1 o2 o3 : outcome Response) (w1 w2 w3 : W)
      (calls : list (SkillsEvent * W)) :
  bind (emitEvent now config ev)
       (fun _ => liftO (error_response config code msg)) w = (o1, w1) ->
  bind (emitEvent now (without_sink config) ev)
       (fun _ => liftO (error_response (without_sink config) code msg)) w
  = (o2, w2) ->
  bind (emitEvent (fun wl : Traced W => now (fst wl)) (traced config) ev)
       (fun _ => liftO (error_response (traced config) code msg)) (w, [])
  = (o3, (w3, calls)) ->
  (o3 = o1 /\ w3 = w1) /\ (sink_returns_on config calls -> o1 = o2).
Proof.
  intros H1 H2 H3. unfold sink_returns_on.
  unfold emitEvent, error_response, liftO, bind, try_catch, ret
    in H1, H2, H3.
  change (createHeaders (without_sink config))
    with (createHeaders config) in H2.
  change (createHeaders (traced config)) with (createHeaders config) in H3.
  cbn [onEvent without_sink traced] in H2, H3.
  destruct (onEvent config) as [sink|];
    unfold option_map, trace_sink in H3;
    walk_runs H1 H2 H3; close_runs H1 H2 H3.
Qed.

Lemma serveIndex_runs (requestPath : string) (w : W)
      (o1 o2 o3 : outcome Response) (w1 w2 w3 : W)
      (calls : list (SkillsEvent * W)) :
  serveIndex now provider config requestPath w = (o1, w1) ->
  serveIndex now provider (without_sink config) requestPath w = (o2, w2) ->
  serveIndex (fun wl : Traced W => now (fst wl)) (lift_provider provider)
             (traced config) requestPath (w, [])
  = (o3, (w3, calls)) ->
  (o3 = o1 /\ w3 = w1) /\ (sink_returns_on config calls -> o1 = o2).
Proof.
  intros H1 H2 H3. unfold sink_returns_on.
  unfold serveIndex, emitEvent, error_response, liftO, bind, try_catch, ret
    in H1, H2, H3.
  change (createHeaders (without_sink config))
    with (createHeaders config) in H2.
  change (createHeaders (traced config)) with (createHeaders config) in H3.
  cbn [onEvent without_sink traced] in H2, H3.
  unfold lift_provider, lift_call in H3. cbn [getSkills getSkillFile] in H3.
  destruct (onEvent config) as [sink|];
    unfold option_map, trace_sink in H3;
    walk_runs H1 H2 H3; close_runs H1 H2 H3.
Qed.

Lemma serveSkillMd_runs (skillName requestPath : string) (w : W)
      (o1 o2 o3 : outcome Response) (w1 w2 w3 : W)
      (calls : list (SkillsEvent * W)) :
  serveSkillMd now provider config skillName requestPath w = (o1, w1) ->
  serveSkillMd now provider (without_sink config) skillName requestPath w
  = (o2, w2) ->
  serveSkillMd (fun wl : Traced W => now (fst wl)) (lift_provider provider)
               (traced config) skillName requestPath (w, [])
  = (o3, (w3, calls)) ->
  (o3 = o1 /\ w3 = w1) /\ (sink_returns_on config calls -> o1 = o2).
Proof.
  intros H1 H2 H3. unfold sink_returns_on.
  unfold serveSkillMd, emitEvent, error_response, liftO, bind, try_catch, ret
    in H1, H2, H3.
  change (createHeaders (without_sink config))
    with (createHeaders config) in H2.
  change (createHeaders (traced config)) with (createHeaders config) in H3.
  cbn [onEvent without_sink traced] in H2, H3.
  unfold lift_provider, lift_call in H3. cbn [getSkills getSkillFile] in H3.
  destruct (onEvent config) as [sink|];
    unfold option_map, trace_sink in H3;
    walk_runs H1 H2 H3; close_runs H1 H2 H3.
Qed.

Lemma serveSkillFile_runs (skillName filePath requestPath : string) (w : W)
      (o1 o2 o3 : outcome Response) (w1 w2 w3 : W)
      (calls : list (SkillsEvent * W)) :
  serveSkillFile now provider config skillName filePath requestPath w
  = (o1, w1) ->
  serveSkillFile now provider (without_sink config) skillName filePath
                 requestPath w
  = (o2, w2) ->
  serveSkillFile (fun wl : Traced W => now (fst wl)) (lift_provider provider)
                 (traced config) skillName filePath requestPath (w, [])
  = (o3, (w3, calls)) ->
  (o3 = o1 /\ w3 = w1) /\ (sink_returns_on config calls -> o1 = o2).
Proof.
  intros H1 H2 H3. unfold sink_returns_on.
  unfold serveSkillFile, emitEvent, error_response, liftO, bind, try_catch,
    ret in H1, H2, H3.
  change (createHeaders (without_sink config))
    with (createHeaders config) in H2.
  change (createHeaders (traced config)) with (createHeaders config) in H3.
  cbn [onEvent without_sink traced] in H2, H3.
  unfold lift_provider, lift_call in H3. cbn [getSkills getSkillFile] in H3.
  destruct (onEvent config) as [sink|];
    unfold option_map, trace_sink in H3;
    walk_runs H1 H2 H3; close_runs H1 H2 H3.
Qed.

Lemma handler_runs (request : Request) (w : W)
      (o1 o2 o3 : outcome Response) (w1 w2 w3 : W)
      (calls : list (SkillsEvent * W)) :
  handler now URL_resolve provider config request w = (o1, w1) ->
  handler now URL_resolve provider (without_sink config) request w
  = (o2, w2) ->
  handler (fun wl : Traced W => now (fst wl)) URL_resolve
          (lift_provider provider) (traced config) request (w, [])
  = (o3, (w3, calls)) ->
  (o3 = o1 /\ w3 = w1) /\ (sink_returns_on config calls -> o1 = o2).
Proof.
  intros H1 H2 H3.
  unfold handler, routeSkillFile, routeSkillDir, notFound in H1, H2, H3.
  change (relativePath_of (without_sink config))
    with (relativePath_of config) in H2.
  change (normalizedBasePath (without_sink config))
    with (normalizedBasePath config) in H2.
  change (relativePath_of (traced config))
    with (relativePath_of config) in H3.
  change (normalizedBasePath (traced config))
    with (normalizedBasePath config) in H3.
  repeat first
    [ progress cbv beta iota zeta in H1, H2, H3
    | match type of H1 with
      | context [if ?b then _ else _] => destruct b eqn:?
      end
    | match type of H1 with
      | context [match ?x with Some _ => _ | None => _ end] =>
          destruct x eqn:?
      end
    | match type of H1 with
      | context [match ?x with pair _ _ => _ end] => is_var x; destruct x
      end ].
  all: first
         [ eapply serveIndex_runs; [exact H1 | exact H2 | exact H3]
         | eapply serveSkillMd_runs; [exact H1 | exact H2 | exact H3]
         | eapply serveSkillFile_runs; [exact H1 | exact H2 | exact H3]
         | eapply respond_runs; [exact H1 | exact H2 | exact H3]
         | unfold liftO in H1, H2, H3;
           inversion H1; inversion H2; inversion H3; subst;
           split; [split; reflexivity | intros _; reflexivity] ].
Qed.

(** C1.  The sink is called with no failure boundary around it.  For every
    request, the calls made to the sink are those of the run itself, and
    when the configured sink returns on each event it is given in that run
    (or none is configured), the sink is transparent: the outcome of the
    handler, the response it returns or the value it raises, is the outcome
    it has with no sink configured. *)
Theorem returning_sink_is_transparent (request : Request) (w : W) :
  let run := handler now URL_resolve provider config request w in
  handler (fun wl : Traced W => now (fst wl)) URL_resolve
          (lift_provider provider) (traced config) request (w, [])
  = (fst run,
     (snd run, sink_calls now URL_resolve provider config request w))
  /\ (sink_returns_on config
        (sink_calls now URL_resolve provider config request w) ->
      fst run
      = fst (handler now URL_resolve provider (without_sink config)
                     request w)).
Proof.
  cbv zeta. unfold sink_calls.
  destruct (handler now URL_resolve provider config request w)
    as [o1 w1] eqn:H1.
  destruct (handler now URL_resolve provider (without_sink config) request w)
    as [o2 w2] eqn:H2.
  destruct (handler (fun wl : Traced W => now (fst wl)) URL_resolve
                    (lift_provider provider) (traced config) request (w, []))
    as [o3 [w3 calls]] eqn:H3.
  cbn [fst snd].
  destruct (handler_runs _ _ H1 H2 H3) as [[-> ->] Hsame].
  split; [reflexivity | exact Hsame].
Qed.

End SinkTransparency.

(* ================================================================= *)
(** ** The handler on the fixtures *)

Lemma returning_sink_is_transparent_witness :
  fst (Fixtures.run Fixtures.static_provider
         (Fixtures.averse_config ERROR)
         (Fixtures.GET "/.well-known/skills/index.json"))
  = fst (Fixtures.run Fixtures.static_provider
           (without_sink (Fixtures.averse_config ERROR))
           (Fixtures.GET "/.well-known/skills/index.json")).
Proof.
  apply (proj2 (@returning_sink_is_transparent Fixtures.World Fixtures.clock
                  Fixtures.resolve Fixtures.static_provider
                  (Fixtures.averse_config ERROR)
                  (Fixtures.GET "/.well-known/skills/index.json") [])).
  unfold sink_returns_on. cbn [onEvent Fixtures.averse_config].
  vm_compute. repeat constructor. eexists. reflexivity.
Defined.

(** Against C1 as stated: a sink that throws makes the handler raise on a
    request it answers with 404 when no sink is configured, and a sink that
    throws on the INDEX_REQUESTED event turns the 200 index response into a
    500. *)
Lemma sink_failure_propagates :
  Fixtures.run Fixtures.static_provider Fixtures.throwing_config
    (Fixtures.GET "/.well-known/skills/Unknown_Skill")
  = (Throw (ThrownError (mkError "sink failed")), [])
  /\ Fixtures.run Fixtures.static_provider Fixtures.default_config
       (Fixtures.GET "/.well-known/skills/Unknown_Skill")
     = (Ret (mkResponse 404
               (Fixtures.default_headers "application/json")
               (BodyJson (JObject [("error", JString "Not found")]))),
        [])
  /\ (exists plain,
         Fixtures.run Fixtures.static_provider Fixtures.default_config
           (Fixtures.GET "/.well-known/skills/index.json") = (Ret plain, [])
         /\ status plain = 200)
  /\ Fixtures.run Fixtures.static_provider Fixtures.picky_config
       (Fixtures.GET "/.well-known/skills/index.json")
     = (Ret (mkResponse 500
               (Fixtures.default_headers "application/json")
               (BodyJson (JObject [("error",
                                    JString "Internal server error")]))),
        [mkEvent (mkEventData ERROR "/.well-known/skills/index.json"
                    None None None (Some (mkError "sink failed")) None)
                 0%Z]).
Proof.
  split; [reflexivity|]. split; [reflexivity|]. split; [|reflexivity].
  eexists. split; reflexivity.
Qed.



Lemma skill_document_response_witness :
  exists response,
    Fixtures.run Fixtures.static_provider Fixtures.recording_config
      (Fixtures.GET "/.well-known/skills/git-workflow/SKILL.md")
    = (Ret response,
       [mkEvent (mkEventData SKILL_REQUESTED
                   "/.well-known/skills/git-workflow/SKILL.md"
                   None (Some "git-workflow") None None None)
                0%Z])
    /\ status response = 200
    /\ Headers_get (headers response) "Content-Type"
       = Some "text/markdown; charset=utf-8"
    /\ resp_body response
       = BodyText ("---" ++ NL ++ "name: git-workflow" ++ NL
                   ++ "description: Follow team Git conventions for branching and commits."
                   ++ NL ++ "---" ++ NL ++ NL ++ "# Git Workflow").
Proof.
  destruct (proj1 (@skill_document_response Fixtures.World Fixtures.clock
                     Fixtures.resolve Fixtures.static_provider
                     Fixtures.recording_config
                     (Fixtures.GET "/.well-known/skills/git-workflow/SKILL.md")
                     "git-workflow" Fixtures.testSkills [] []
                     eq_refl eq_refl eq_refl eq_refl eq_refl)
                  (ex_intro _ (List.hd (mkSkill EmptyString EmptyString EmptyString [])
                                     Fixtures.testSkills)
                            (conj (or_introl eq_refl) eq_refl)))
    as [skill [Hfind [_ [_ Hrun]]]].
  cbn in Hfind. injection Hfind as <-.
  destruct (Hrun _ eq_refl) as [response [Hresp [Hs [Hct [_ Hb]]]]].
  exists response. repeat split; assumption.
Defined.

(** Against C8 as stated: with a sink that throws on SKILL_REQUESTED, the
    request for the document of a listed skill is answered 500, not 200,
    and with a sink that throws on every event the handler raises. *)
Lemma skill_document_fails_through_sink :
  (exists s, In s Fixtures.testSkills /\ name s = "git-workflow")
  /\ Fixtures.run Fixtures.static_provider
       (Fixtures.averse_config SKILL_REQUESTED)
       (Fixtures.GET "/.well-known/skills/git-workflow/SKILL.md")
     = (Ret (mkResponse 500
               (Fixtures.default_headers "application/json")
               (BodyJson (JObject [("error",
                                    JString "Internal server error")]))),
        [mkEvent (mkEventData ERROR
                    "/.well-known/skills/git-workflow/SKILL.md"
                    None None None (Some (mkError "sink failed"))
                    (Some [("skillName", "git-workflow")]))
                 0%Z])
  /\ Fixtures.run Fixtures.static_provider Fixtures.throwing_config
       (Fixtures.GET "/.well-known/skills/git-workflow/SKILL.md")
     = (Throw (ThrownError (mkError "sink failed")), []).
Proof.
  split; [|split; reflexivity].
  eexists. split; [left; reflexivity | reflexivity].
Qed.

(* ================================================================= *)
(** ** More of the handler: methods and path normalisation *)

Lemma relativePath_of_append (W : Type) (config : SkillsHandlerConfig W)
      (rest : string) :
  relativePath_of config (normalizedBasePath config ++ rest)
  = let remainder := if startsWith rest "/" then rest else "/" ++ rest in
    if (1 <? String.length remainder) && endsWithChar remainder "/"
    then slice_drop_last remainder else remainder.
Proof.
  unfold relativePath_of, startsWith.
  rewrite prefix_append, slice_from_append.
  now destruct (String.prefix "/" rest).
Qed.

Lemma endsWithChar_append_nonempty (a b : string) (c : ascii) :
  b <> EmptyString -> endsWithChar (a ++ b) c = endsWithChar b c.
Proof.
  intros Hb. induction a as [|x a IH]; [reflexivity|].
  simpl. rewrite <- IH. destruct (a ++ b) eqn:E; [|reflexivity].
  destruct a; simpl in E; [contradiction | discriminate].
Qed.

Lemma length_append (a b : string) :
  String.length (a ++ b) = String.length a + String.length b.
Proof. induction a; simpl; auto. Qed.

Lemma prefix_slash_cons (c : ascii) (t : string) :
  String.prefix "/" (String c t) = Ascii.eqb c "/".
Proof.
  destruct (Ascii.eqb_spec c "/") as [-> | Hne].
  - apply prefix_StartsWith. now exists t.
  - apply Bool.not_true_is_false. rewrite prefix_StartsWith.
    intros [u E]. simpl in E. congruence.
Qed.

Lemma slice_drop_last_cons (c : ascii) (t : string) :
  t <> EmptyString ->
  slice_drop_last (String c t) = String c (slice_drop_last t).
Proof. destruct t; [contradiction | reflexivity]. Qed.

Section MoreHandlerFacts.

Variable W : Type.
Variable now : W -> Z.
Variable URL_resolve : string -> string -> option string.
Variable provider : SkillProvider W.
Variable config : SkillsHandlerConfig W.

(** X1.  A request whose method is OPTIONS in any letter case is decided
    without its path, the provider or the sink: the world is left as it
    was.  With configured header values the platform accepts it is answered
    with status 204, no body, Content-Length 0, Content-Type text/plain, the
    configured Cache-Control without the HTTP whitespace at its ends, and
    the CORS headers when CORS is enabled (none of them when it is
    disabled); with a configured value the platform refuses, the handler
    raises. *)
Theorem preflight_response (request : Request) (w : W) :
  toUpperCase (req_method request) = "OPTIONS" ->
  (header_config_ok config = true ->
   exists response,
     handler now URL_resolve provider config request w = (Ret response, w)
     /\ status response = 204
     /\ resp_body response = BodyNull
     /\ Headers_get (headers response) "Content-Length" = Some "0"
     /\ Headers_get (headers response) "Content-Type" = Some "text/plain"
     /\ Headers_get (headers response) "Cache-Control"
        = Some (Headers_normalize (the_cacheControl config))
     /\ (the_cors config <> CorsFalse ->
         Headers_get (headers response) "Access-Control-Allow-Methods"
         = Some "GET, HEAD, OPTIONS"
         /\ Headers_get (headers response) "Access-Control-Allow-Headers"
            = Some "Content-Type")
     /\ (the_cors config = CorsFalse ->
         Headers_get (headers response) "Access-Control-Allow-Origin" = None
         /\ Headers_get (headers response) "Access-Control-Allow-Methods"
            = None
         /\ Headers_get (headers response) "Access-Control-Allow-Headers"
            = None))
  /\ (header_config_ok config = false ->
      exists t,
        handler now URL_resolve provider config request w = (Throw t, w)).
Proof.
  intros H. unfold handler. rewrite H. unfold liftO, handleOptions, obind.
  split; intros Hok.
  - rewrite (createHeaders_ok config "text/plain" Hok eq_refl).
    rewrite Headers_set_Content_Length.
    eexists. split; [reflexivity|].
    unfold served_headers, cors_origin. cbn [status resp_body headers].
    destruct (the_cors config); cbn;
      repeat split; try reflexivity; congruence.
  - destruct (createHeaders config "text/plain") as [h|t] eqn:E.
    + destruct (createHeaders_inv _ _ E) as [_ [_ Hok']]. congruence.
    + now exists t.
Qed.

(** X2.  Only the upper-cased method matters.  A method other than OPTIONS,
    GET and HEAD is decided whatever the path, with neither the provider nor
    the sink called: it is answered 405 with the body
    [{error: Method not allowed}] and the headers [createHeaders] returns,
    and the handler raises what [createHeaders] throws when it throws.  A
    HEAD request is served exactly as the GET request for the same URL: the
    same provider calls, events and response, body included. *)
Theorem method_gating (request : Request) (w : W) :
  (toUpperCase (req_method request) <> "OPTIONS" ->
   toUpperCase (req_method request) <> "GET" ->
   toUpperCase (req_method request) <> "HEAD" ->
   handler now URL_resolve provider config request w
   = (match createHeaders config "application/json" with
      | Ret h =>
          Ret (mkResponse 405 h
                 (BodyJson (JObject [("error",
                                      JString "Method not allowed")])))
      | Throw t => Throw t
      end,
      w))
  /\ (toUpperCase (req_method request) = "HEAD" ->
      handler now URL_resolve provider config request w
      = handler now URL_resolve provider config
          (mkRequest "GET" (req_origin request) (req_pathname request)) w).
Proof.
  split.
  - intros Ho Hg Hh. unfold handler.
    apply String.eqb_neq in Ho, Hg, Hh. rewrite Ho, Hg, Hh. reflexivity.
  - intros H. unfold handler. rewrite H. reflexivity.
Qed.

(** X3.  The path the routes are matched against always begins with a
    slash: it is never empty, so the test of the root route against the
    empty string never decides anything. *)
Theorem relativePath_starts_with_slash (fullPath : string) :
  (exists rest, relativePath_of config fullPath = String "/" rest)
  /\ String.eqb (relativePath_of config fullPath) EmptyString = false.
Proof.
  assert (exists rest, relativePath_of config fullPath = String "/" rest)
    as [rest E].
  { unfold relativePath_of, startsWith.
    set (r1 := if String.prefix (normalizedBasePath config) fullPath
               then _ else _).
    set (r2 := if negb (String.prefix "/" r1) then "/" ++ r1 else r1).
    assert (exists t, r2 = String "/" t) as [t Ht].
    { unfold r2. destruct (String.prefix "/" r1) eqn:Ep; cbn [negb].
      - apply prefix_StartsWith in Ep. destruct Ep as [t ->]. now exists t.
      - now exists r1. }
    rewrite Ht. destruct t as [|c t].
    - now exists EmptyString.
    - destruct ((1 <? String.length (String "/" (String c t)))
                && endsWithChar (String "/" (String c t)) "/").
      + rewrite slice_drop_last_cons by discriminate. eauto.
      + eauto. }
  split; [now exists rest | now rewrite E].
Qed.

(** X4.  One trailing slash is ignored: a path under the base path that
    does not end with a slash and the same path with a slash appended are
    matched against the same relative path. *)
Theorem trailing_slash_ignored (fullPath : string) :
  startsWith fullPath (normalizedBasePath config) = true ->
  endsWithChar fullPath "/" = false ->
  relativePath_of config (fullPath ++ "/") = relativePath_of config fullPath.
Proof.
  unfold startsWith. intros Hp He.
  apply prefix_StartsWith in Hp. destruct Hp as [rest ->].
  rewrite append_assoc, !relativePath_of_append. cbv zeta.
  destruct rest as [|c rest]; [reflexivity|].
  rewrite endsWithChar_append_nonempty in He by discriminate.
  unfold startsWith.
  assert (String.prefix "/" (String c rest ++ "/")
          = String.prefix "/" (String c rest)) as ->.
  { change (String c rest ++ "/") with (String c (rest ++ "/")).
    now rewrite !prefix_slash_cons. }
  set (e := if String.prefix "/" (String c rest)
            then String c rest else "/" ++ String c rest).
  assert ((if String.prefix "/" (String c rest)
           then String c rest ++ "/" else "/" ++ String c rest ++ "/")
          = e ++ "/") as ->.
  { unfold e. now destruct (String.prefix "/" (String c rest)). }
  assert (endsWithChar e "/" = false) as Ee.
  { unfold e. destruct (String.prefix "/" (String c rest)); [assumption|].
    now rewrite endsWithChar_append_nonempty by discriminate. }
  rewrite Ee, Bool.andb_false_r, endsWithChar_append, slice_drop_last_append.
  assert ((1 <? String.length (e ++ "/")) = true) as ->; [|reflexivity].
  apply Nat.ltb_lt. rewrite length_append. unfold e.
  destruct (String.prefix "/" (String c rest)); simpl; lia.
Qed.

End MoreHandlerFacts.

Lemma preflight_response_witness :
  exists response,
    Fixtures.run Fixtures.failing_provider Fixtures.throwing_config
      (mkRequest "options" "http://localhost" "/anything/at/all")
    = (Ret response, [])
    /\ status response = 204.
Proof.
  destruct (proj1 (@preflight_response Fixtures.World Fixtures.clock
                     Fixtures.resolve Fixtures.failing_provider
                     Fixtures.throwing_config
                     (mkRequest "options" "http://localhost"
                                "/anything/at/all") []
                     eq_refl) eq_refl)
    as [response [Hrun [Hs _]]].
  now exists response.
Defined.

Lemma method_gating_witness :
  Fixtures.run Fixtures.failing_provider Fixtures.throwing_config
    (mkRequest "POST" "http://localhost" "/.well-known/skills/index.json")
  = (Ret (mkResponse 405
            (Fixtures.default_headers "application/json")
            (BodyJson (JObject [("error", JString "Method not allowed")]))),
     [])
  /\ Fixtures.run Fixtures.static_provider Fixtures.recording_config
       (mkRequest "head" "http://localhost" "/.well-known/skills/index.json")
     = Fixtures.run Fixtures.static_provider Fixtures.recording_config
         (Fixtures.GET "/.well-known/skills/index.json").
Proof.
  split.
  - apply (proj1 (@method_gating Fixtures.World Fixtures.clock
                    Fixtures.resolve Fixtures.failing_provider
                    Fixtures.throwing_config
                    (mkRequest "POST" "http://localhost"
                               "/.well-known/skills/index.json") []));
      discriminate.
  - apply (proj2 (@method_gating Fixtures.World Fixtures.clock
                    Fixtures.resolve Fixtures.static_provider
                    Fixtures.recording_config
                    (mkRequest "head" "http://localhost"
                               "/.well-known/skills/index.json") [])).
    reflexivity.
Defined.

Lemma trailing_slash_ignored_witness :
  relativePath_of Fixtures.default_config "/.well-known/skills/git-workflow/"
  = relativePath_of Fixtures.default_config "/.well-known/skills/git-workflow".
Proof.
  apply (@trailing_slash_ignored Fixtures.World Fixtures.default_config
           "/.well-known/skills/git-workflow"); reflexivity.
Defined.

(* ================================================================= *)
(** ** More of the handler: routes, statuses and the provider *)

Lemma span_segment_spec (s segment tail : string) :
  span_segment s = (segment, tail) ->
  s = segment ++ tail
  /\ forallb not_slash segment = true
  /\ (tail = EmptyString \/ exists t, tail = String "/" t).
Proof.
  revert segment tail. induction s as [|c s IH]; intros segment tail H.
  - inversion H; subst. repeat split. now left.
  - cbn [span_segment] in H. destruct (Ascii.eqb c "/") eqn:Ec.
    + inversion H; subst. apply Ascii.eqb_eq in Ec. subst c.
      repeat split. right. now exists s.
    + destruct (span_segment s) as [seg tl] eqn:Es. inversion H; subst.
      destruct (IH seg tail eq_refl) as [-> [Hf Ht]].
      repeat split; [|assumption].
      cbn [forallb]. unfold not_slash at 1. now rewrite Ec, Hf.
Qed.

Lemma skillFileMatch_spec (relativePath skillName filePath : string) :
  skillFileMatch relativePath = Some (skillName, filePath) ->
  relativePath = String "/" (skillName ++ String "/" filePath)
  /\ forallb not_slash skillName = true
  /\ skillName <> EmptyString.
Proof.
  unfold skillFileMatch. destruct relativePath as [|c rest]; [discriminate|].
  destruct (Ascii.eqb_spec c "/") as [-> | Hne].
  - destruct (span_segment rest) as [seg tl] eqn:Es.
    destruct (span_segment_spec rest Es) as [-> [Hf _]].
    destruct tl as [|d fp]; [discriminate|].
    destruct (Ascii.eqb_spec d "/") as [-> | Hd].
    + destruct (nonempty seg && nonempty fp && forallb re_dot fp) eqn:E;
        [|discriminate].
      intros H. inversion H; subst.
      apply Bool.andb_true_iff in E as [E _].
      apply Bool.andb_true_iff in E as [E _].
      repeat split; [assumption|]. now destruct skillName.
    + intros H. exfalso. revert H.
      destruct d as [[] [] [] [] [] [] [] []]; try discriminate.
      now contradiction Hd.
  - intros H. exfalso. revert H.
    destruct c as [[] [] [] [] [] [] [] []]; try discriminate.
    now contradiction Hne.
Qed.

(** The file route never holds the document path. *)
Lemma file_route_not_document (relativePath skillName filePath : string) :
  skillMdMatch relativePath = None ->
  skillFileMatch relativePath = Some (skillName, filePath) ->
  filePath <> "SKILL.md".
Proof.
  intros Hmd Hfile ->.
  destruct (skillFileMatch_spec _ Hfile) as [-> [Hseg Hne]].
  change (String "/" (skillName ++ String "/" "SKILL.md"))
    with (String "/" (skillName ++ "/SKILL.md")) in Hmd.
  rewrite (skillMdMatch_document Hseg Hne) in Hmd. discriminate.
Qed.

Section MoreHandlerOutcomes.

Variable W : Type.
Variable now : W -> Z.
Variable URL_resolve : string -> string -> option string.

(** X5.  Preflight answers, redirects, validation failures and method
    failures are decided without the provider: a run that ends in status
    204, 302, 400 or 405 is the same run, response and world, with any other
    provider. *)
Theorem provider_not_consulted (config : SkillsHandlerConfig W)
        (provider provider' : SkillProvider W)
        (request : Request) (w w' : W) (response : Response) :
  handler now URL_resolve provider config request w = (Ret response, w') ->
  In (status response) [204; 302; 400; 405] ->
  handler now URL_resolve provider' config request w = (Ret response, w').
Proof.
  intros H Hs.
  unfold handler, routeSkillFile, routeSkillDir, notFound,
    serveIndex, serveSkillMd, serveSkillFile, error_response,
    createRedirect, handleOptions, liftO, obind,
    bind, try_catch, ret in H |- *.
  walk_handler H.
  all: inversion H; subst; clear H; cbn [status] in Hs.
  all: try (exfalso; cbn [In] in Hs; lia).
  all: reflexivity.
Qed.

(** X6.  The handler depends on [getSkillFile] through validated arguments
    only: two providers with the same [getSkills] whose [getSkillFile] agree
    on every valid skill name with every valid file path other than
    [SKILL.md] give the same run on every request. *)
Theorem provider_reached_through_validation
        (config : SkillsHandlerConfig W)
        (provider provider' : SkillProvider W) :
  (forall w, getSkills provider w = getSkills provider' w) ->
  (forall skillName filePath w,
      isValidSkillName skillName = true ->
      isValidFilePath filePath = true ->
      filePath <> "SKILL.md" ->
      getSkillFile provider skillName filePath w
      = getSkillFile provider' skillName filePath w) ->
  forall (request : Request) (w : W),
    handler now URL_resolve provider config request w
    = handler now URL_resolve provider' config request w.
Proof.
  intros Hskills Hfile request w.
  assert (forall path x, serveIndex now provider config path x
                         = serveIndex now provider' config path x) as Hindex.
  { intros path x. unfold serveIndex, try_catch, bind.
    now rewrite Hskills. }
  assert (forall n path x, serveSkillMd now provider config n path x
                           = serveSkillMd now provider' config n path x)
    as Hmd.
  { intros n path x. unfold serveSkillMd, try_catch, bind.
    now rewrite Hskills. }
  assert (forall n f path x,
             isValidSkillName n = true -> isValidFilePath f = true ->
             f <> "SKILL.md" ->
             serveSkillFile now provider config n f path x
             = serveSkillFile now provider' config n f path x) as Hf.
  { intros n f path x Hn Hp Hne. unfold serveSkillFile, try_catch, bind.
    now rewrite (Hfile n f x Hn Hp Hne). }
  unfold handler, routeSkillFile, routeSkillDir.
  repeat match goal with
         | |- context [if ?b then _ else _] => destruct b eqn:?
         | |- context [match ?x with Some _ => _ | None => _ end] =>
             destruct x eqn:?
         | |- context [match ?x with pair _ _ => _ end] =>
             is_var x; destruct x
         end; try reflexivity; try apply Hindex; try apply Hmd.
  all: match goal with
       | M : skillMdMatch _ = None, F : skillFileMatch _ = Some (?n, ?f),
         N : negb (isValidSkillName ?n) = false,
         P : negb (isValidFilePath ?f) = false |- _ =>
           apply Bool.negb_false_iff in N, P;
           apply (Hf n f _ _ N P (file_route_not_document _ M F))
       end.
Qed.

End MoreHandlerOutcomes.

Lemma provider_not_consulted_witness :
  Fixtures.run Fixtures.failing_provider Fixtures.default_config
    (Fixtures.GET "/.well-known/skills/git-workflow")
  = Fixtures.run Fixtures.static_provider Fixtures.default_config
      (Fixtures.GET "/.well-known/skills/git-workflow").
Proof.
  unfold Fixtures.run at 1.
  rewrite (@provider_not_consulted Fixtures.World Fixtures.clock
             Fixtures.resolve Fixtures.default_config
             Fixtures.static_provider Fixtures.failing_provider
             (Fixtures.GET "/.well-known/skills/git-workflow") [] [] _
             eq_refl (or_intror (or_introl eq_refl))).
  reflexivity.
Defined.

Lemma provider_reached_through_validation_witness :
  Fixtures.run Fixtures.static_provider Fixtures.default_config
    (Fixtures.GET "/.well-known/skills/code-review/..%2Fsecret")
  = Fixtures.run
      {| getSkills := getSkills Fixtures.static_provider;
         getSkillFile := fun skillName filePath =>
           if isValidFilePath filePath
           then getSkillFile Fixtures.static_provider skillName filePath
           else fun w => (Throw (ThrownValue "unreachable"), w) |}
      Fixtures.default_config
      (Fixtures.GET "/.well-known/skills/code-review/..%2Fsecret").
Proof.
  apply (@provider_reached_through_validation Fixtures.World Fixtures.clock
           Fixtures.resolve Fixtures.default_config).
  - reflexivity.
  - intros skillName filePath w _ Hpath _. cbn [getSkillFile].
    now rewrite Hpath.
Defined.

Section MoreRoutes.

Variable W : Type.
Variable now : W -> Z.
Variable URL_resolve : string -> string -> option string.
Variable provider : SkillProvider W.
Variable config : SkillsHandlerConfig W.

(** X7.  For a GET request for a valid skill name and a valid file path
    other than [SKILL.md], with configured header values the platform
    accepts: when the provider returns content, the handler calls the sink
    with an event of type FILE_REQUESTED that carries the request path and
    both identifiers and, when that call returns (or no sink is
    configured), answers 200 with the content verbatim and the content type
    of the path; when the provider returns [null], it calls the sink with
    an event of type NOT_FOUND that carries the path and both identifiers
    and, when that call returns, answers 404 with the body
    [{error: File not found}]. *)
Theorem skill_file_response (request : Request)
        (skillName filePath : string) (w w1 : W) :
  toUpperCase (req_method request) = "GET" ->
  relativePath_of config (req_pathname request)
  = "/" ++ skillName ++ "/" ++ filePath ->
  isValidSkillName skillName = true ->
  isValidFilePath filePath = true ->
  filePath <> "SKILL.md" ->
  header_config_ok config = true ->
  let fullPath := req_pathname request in
  (forall text w2,
      getSkillFile provider skillName filePath w = (Ret (Some text), w1) ->
      emitEvent now config
        (mkEventData FILE_REQUESTED fullPath None (Some skillName)
                     (Some filePath) None None) w1
      = (Ret tt, w2) ->
      exists h,
        createHeaders config (JsValue_toString (getContentType filePath))
        = Ret h
        /\ Headers_get h "Content-Type"
           = Some (JsValue_toString (getContentType filePath))
        /\ handler now URL_resolve provider config request w
           = (Ret (mkResponse 200 h (BodyText text)), w2))
  /\ (forall w2,
         getSkillFile provider skillName filePath w = (Ret None, w1) ->
         emitEvent now config
           (mkEventData NOT_FOUND fullPath None (Some skillName)
                        (Some filePath) None None) w1
         = (Ret tt, w2) ->
         exists h,
           createHeaders config "application/json" = Ret h
           /\ handler now URL_resolve provider config request w
              = (Ret (mkResponse 404 h
                        (BodyJson (JObject [("error",
                                             JString "File not found")]))),
                 w2)).
Proof.
  intros Hget Hrel Hname Hpath Hother Hok fullPath.
  assert (handler now URL_resolve provider config request w
          = serveSkillFile now provider config skillName filePath fullPath w)
    as ->.
  { rewrite (handler_GET now URL_resolve provider config request Hget).
    cbv zeta. unfold fullPath.
    destruct (valid_name_segment skillName Hname) as [Hseg Hne].
    destruct (valid_path_chars filePath Hpath) as [Hdot Hne'].
    change ("/" ++ skillName ++ "/" ++ filePath)
      with (String "/" (skillName ++ String "/" filePath)) in Hrel.
    rewrite Hrel.
    destruct (two_part_path_not_fixed skillName filePath Hseg)
      as [-> [-> ->]].
    cbn [orb].
    rewrite (skillMdMatch_other _ Hseg Hother).
    unfold routeSkillFile.
    rewrite skillFileMatch_file, Hne, Hne', Hname, Hpath;
      [reflexivity | assumption | now destruct skillName
       | now destruct filePath | assumption]. }
  unfold serveSkillFile, try_catch, bind, liftO, error_response, obind, ret.
  split.
  - intros text w2 Hfile Hemit. rewrite Hfile.
    change (with_filePath filePath
              (with_skillName skillName (event FILE_REQUESTED fullPath)))
      with (mkEventData FILE_REQUESTED fullPath None (Some skillName)
                        (Some filePath) None None).
    rewrite Hemit. cbv zeta.
    rewrite (createHeaders_ok config _ Hok (getContentType_safe filePath)).
    eexists. split; [reflexivity|]. split; [|reflexivity].
    rewrite (proj1 (served_headers_get config _)).
    now rewrite getContentType_kept.
  - intros w2 Hfile Hemit. rewrite Hfile.
    change (with_filePath filePath
              (with_skillName skillName (event NOT_FOUND fullPath)))
      with (mkEventData NOT_FOUND fullPath None (Some skillName)
                        (Some filePath) None None).
    rewrite Hemit.
    rewrite (createHeaders_ok config "application/json" Hok eq_refl).
    eexists. split; reflexivity.
Qed.

(** X8.  For a GET request for the index with the provider returning its
    skills and configured header values the platform accepts, the handler
    calls the sink with an event of type INDEX_REQUESTED that carries the
    request path and the number of skills and, when that call returns (or
    no sink is configured), answers 200, [application/json], with the
    indented JSON text of [{skills: [...]}]: one entry per skill in the
    provider's order, made of the name, the description and the files,
    without the body. *)
Theorem index_response (request : Request) (skills : list Skill)
        (w w1 w2 : W) :
  toUpperCase (req_method request) = "GET" ->
  relativePath_of config (req_pathname request) = "/index.json" ->
  header_config_ok config = true ->
  getSkills provider w = (Ret skills, w1) ->
  emitEvent now config
    (mkEventData INDEX_REQUESTED (req_pathname request)
                 (Some (List.length skills)) None None None None) w1
  = (Ret tt, w2) ->
  exists h,
    createHeaders config "application/json" = Ret h
    /\ Headers_get h "Content-Type" = Some "application/json"
    /\ handler now URL_resolve provider config request w
       = (Ret (mkResponse 200 h
                 (BodyJsonPretty
                    (JObject
                       [("skills",
                         JArray
                           (List.map
                              (fun skill =>
                                 JObject
                                   [("name", JString (name skill));
                                    ("description",
                                     JString (description skill));
                                    ("files",
                                     JArray
                                       (List.map JString (files skill)))])
                              skills))]))),
          w2).
Proof.
  intros Hget Hrel Hok Hskills Hemit.
  rewrite (handler_GET now URL_resolve provider config request Hget).
  cbv zeta. rewrite Hrel.
  change (String.eqb "/index.json" "/" || String.eqb "/index.json" EmptyString)
    with false.
  change (String.eqb "/index.json" "/index.json") with true. cbv iota.
  unfold serveIndex, try_catch, bind, liftO, ret. rewrite Hskills.
  change (with_skillCount (List.length skills)
            (event INDEX_REQUESTED (req_pathname request)))
    with (mkEventData INDEX_REQUESTED (req_pathname request)
                      (Some (List.length skills)) None None None None).
  rewrite Hemit.
  rewrite (createHeaders_ok config "application/json" Hok eq_refl).
  eexists. split; [reflexivity|]. split; [|reflexivity].
  now rewrite (proj1 (served_headers_get config _)).
Qed.

(** X9.  A GET request for the base path itself, with or without a trailing
    slash, is a redirect to the index under the base path, and a GET
    request for a valid skill name a redirect to that skill's [SKILL.md].
    Neither the provider nor the sink is called.  When the target resolves
    against the origin of the request, to a URL a [Headers] object keeps as
    it is, the answer is 302 with that URL as the only header, Location,
    and no body; when it does not resolve, as with a request URL of opaque
    origin, the handler raises a TypeError. *)
Theorem redirect_responses (request : Request) (w : W) :
  toUpperCase (req_method request) = "GET" ->
  let redirects (path : string) : Prop :=
    (forall url,
        URL_resolve path (req_origin request) = Some url ->
        Headers_value url = Ret url ->
        handler now URL_resolve provider config request w
        = (Ret (mkResponse 302 [("Location", url)] BodyNull), w))
    /\ (URL_resolve path (req_origin request) = None ->
        handler now URL_resolve provider config request w
        = (Throw (TypeError "Invalid URL"), w)) in
  (relativePath_of config (req_pathname request) = "/" ->
   redirects (normalizedBasePath config ++ "/index.json"))
  /\ (forall skillName,
         relativePath_of config (req_pathname request) = "/" ++ skillName ->
         isValidSkillName skillName = true ->
         redirects (normalizedBasePath config ++ "/" ++ skillName
                    ++ "/SKILL.md"))
  /\ relativePath_of config (normalizedBasePath config) = "/"
  /\ relativePath_of config (normalizedBasePath config ++ "/") = "/".
Proof.
  intros Hget redirects.
  assert (forall path,
             handler now URL_resolve provider config request w
             = liftO (createRedirect URL_resolve request path) w ->
             redirects path) as Hredirects.
  { intros path E. unfold redirects. rewrite E.
    unfold liftO, createRedirect, Headers_new, Headers_fill, Headers_append,
      obind.
    split.
    - intros url -> ->. reflexivity.
    - intros ->. reflexivity. }
  clearbody redirects.
  rewrite (handler_GET now URL_resolve provider config request Hget)
    in Hredirects.
  cbv zeta in Hredirects. split; [|split; [|split]].
  - intros Hrel. apply Hredirects. rewrite Hrel. reflexivity.
  - intros skillName Hrel Hname. apply Hredirects.
    destruct (valid_name_segment skillName Hname) as [Hseg Hne].
    change ("/" ++ skillName) with (String "/" skillName) in Hrel.
    rewrite Hrel.
    assert (skillName <> EmptyString) as Hne' by now destruct skillName.
    destruct (single_segment_routes Hseg Hne') as [-> [Hfile Hdir]].
    assert (String.eqb (String "/" skillName) "/" = false) as ->
        by (destruct skillName; [discriminate | reflexivity]).
    assert (String.eqb (String "/" skillName) "/index.json" = false) as ->.
    { apply String.eqb_neq. intros E. inversion E; subst. discriminate. }
    cbn [orb String.eqb]. unfold routeSkillFile, routeSkillDir.
    rewrite Hfile, Hdir, Hne, Hname. reflexivity.
  - pose proof (relativePath_of_append config EmptyString) as H.
    assert (normalizedBasePath config ++ EmptyString
            = normalizedBasePath config) as E.
    { generalize (normalizedBasePath config). intros s.
      induction s; simpl; congruence. }
    rewrite E in H. exact H.
  - apply (relativePath_of_append config "/").
Qed.

(** X10.  Every response of the handler has one of the statuses 200, 204,
    302, 400, 404, 405 and 500.  A response with status 400 or more carries
    the content type [application/json] and a body [{error: message}] with
    one of seven fixed messages; the 204 and 302 responses have no body; a
    200 response has a text body or an indented JSON body. *)
Theorem response_taxonomy (request : Request) (w w' : W)
        (response : Response) :
  handler now URL_resolve provider config request w = (Ret response, w') ->
  In (status response) handler_statuses
  /\ (400 <= status response ->
      createHeaders config "application/json" = Ret (headers response)
      /\ exists msg,
          In msg handler_error_messages
          /\ resp_body response = BodyJson (JObject [("error", JString msg)]))
  /\ (status response = 204 \/ status response = 302 ->
      resp_body response = BodyNull)
  /\ (status response = 200 ->
      exists contentType,
        createHeaders config contentType = Ret (headers response)
        /\ ((exists text, resp_body response = BodyText text)
            \/ exists j, resp_body response = BodyJsonPretty j)).
Proof.
  intros H. walk_handler H.
  all: inversion H; subst; clear H.
  all: unfold handler_statuses, handler_error_messages, error_body;
       cbn [status headers resp_body In].
  all: split; [tauto|].
  all: split;
    [intros Hs;
     first [ exfalso; lia
           | split; [first [reflexivity | assumption]|];
             eexists; split; [|reflexivity]; tauto ]|].
  all: split; [intros [Hs|Hs]; first [reflexivity | exfalso; lia]|].
  all: intros Hs; first [ exfalso; lia
                        | eexists; split; [eassumption|]; eauto ].
Qed.

(** Where a 500 response comes from, the sink returning. *)
Lemma status_500_cause (request : Request) (w w' : W)
      (response : Response) :
  sink_returns config ->
  handler now URL_resolve provider config request w = (Ret response, w') ->
  status response = 500 ->
  (exists t w1, getSkills provider w = (Throw t, w1))
  \/ (exists skillName filePath t w1,
         isValidSkillName skillName = true
         /\ isValidFilePath filePath = true
         /\ getSkillFile provider skillName filePath w = (Throw t, w1)).
Proof.
  intros Hsink H Hs. walk_handler H.
  all: inversion H; subst; clear H; cbn [status] in Hs; try discriminate Hs.
  all: repeat match goal with
         | E : emitEvent ?n ?c ?ev ?x = (Throw _, _) |- _ =>
             destruct (emitEvent_returns n c Hsink ev x) as [? E'];
             rewrite E' in E; discriminate E
         | E : createHeaders ?c (JsValue_toString (getContentType ?p))
               = Throw _,
           E' : createHeaders ?c "application/json" = Ret _ |- _ =>
             destruct (createHeaders_inv _ _ E') as [_ [_ Hok]];
             rewrite (createHeaders_throws _ _ E (getContentType_safe p))
               in Hok;
             discriminate Hok
         | E : createHeaders ?c ?ct = Throw _,
           E' : createHeaders ?c "application/json" = Ret _ |- _ =>
             destruct (createHeaders_inv _ _ E') as [_ [_ Hok]];
             rewrite (createHeaders_throws _ _ E eq_refl) in Hok;
             discriminate Hok
         end.
  all: try (left; eauto; fail).
  all: right; do 4 eexists; repeat split; [| |eassumption];
    match goal with
    | N : negb (isValidSkillName _) = false |- isValidSkillName _ = true =>
        now apply Bool.negb_false_iff in N
    | P : negb (isValidFilePath _) = false |- isValidFilePath _ = true =>
        now apply Bool.negb_false_iff in P
    end.
Qed.

(** X11.  With a sink that returns, a 500 response means that the provider
    call of the request, made with a valid skill name and file path, threw
    or rejected. *)
Theorem server_error_means_provider_failure (request : Request) (w w' : W)
        (response : Response) :
  sink_returns config ->
  handler now URL_resolve provider config request w = (Ret response, w') ->
  status response = 500 ->
  (exists t w1, getSkills provider w = (Throw t, w1))
  \/ (exists skillName filePath t w1,
         isValidSkillName skillName = true
         /\ isValidFilePath filePath = true
         /\ getSkillFile provider skillName filePath w = (Throw t, w1)).
Proof. apply status_500_cause. Qed.

End MoreRoutes.

Lemma skill_file_response_witness :
  exists h,
    Headers_get h "Content-Type" = Some "text/markdown; charset=utf-8"
    /\ Fixtures.run Fixtures.static_provider Fixtures.recording_config
         (Fixtures.GET
            "/.well-known/skills/code-review/references/CHECKLIST.md")
       = (Ret (mkResponse 200 h (BodyText "# Checklist")),
          [mkEvent
             (mkEventData FILE_REQUESTED
                "/.well-known/skills/code-review/references/CHECKLIST.md"
                None (Some "code-review") (Some "references/CHECKLIST.md")
                None None)
             0%Z]).
Proof.
  destruct (proj1 (@skill_file_response Fixtures.World Fixtures.clock
                     Fixtures.resolve Fixtures.static_provider
                     Fixtures.recording_config
                     (Fixtures.GET
                        "/.well-known/skills/code-review/references/CHECKLIST.md")
                     "code-review" "references/CHECKLIST.md" [] []
                     eq_refl eq_refl eq_refl eq_refl ltac:(discriminate)
                     eq_refl)
                  "# Checklist" _ eq_refl eq_refl)
    as [h [_ [Hct Hrun]]].
  exists h. split; [exact Hct | exact Hrun].
Defined.

Lemma index_response_witness :
  exists h,
    Headers_get h "Content-Type" = Some "application/json"
    /\ exists body,
        Fixtures.run Fixtures.static_provider Fixtures.recording_config
          (Fixtures.GET "/.well-known/skills/index.json")
        = (Ret (mkResponse 200 h body),
           [mkEvent (mkEventData INDEX_REQUESTED
                       "/.well-known/skills/index.json"
                       (Some 2) None None None None)
                    0%Z]).
Proof.
  destruct (@index_response Fixtures.World Fixtures.clock Fixtures.resolve
              Fixtures.static_provider Fixtures.recording_config
              (Fixtures.GET "/.well-known/skills/index.json")
              Fixtures.testSkills [] [] _
              eq_refl eq_refl eq_refl eq_refl eq_refl)
    as [h [_ [Hct Hrun]]].
  exists h. split; [exact Hct|]. eexists. exact Hrun.
Defined.

Lemma redirect_responses_witness :
  Fixtures.run Fixtures.failing_provider Fixtures.throwing_config
    (Fixtures.GET "/.well-known/skills/git-workflow/")
  = (Ret (mkResponse 302
            [("Location",
              "http://localhost/.well-known/skills/git-workflow/SKILL.md")]
            BodyNull),
     [])
  /\ Fixtures.run Fixtures.failing_provider Fixtures.throwing_config
       (Fixtures.GET_opaque "/.well-known/skills/")
     = (Throw (TypeError "Invalid URL"), []).
Proof.
  split.
  - apply (proj1 (proj1 (proj2 (@redirect_responses Fixtures.World
                                  Fixtures.clock
                                  Fixtures.resolve Fixtures.failing_provider
                                  Fixtures.throwing_config
                                  (Fixtures.GET
                                     "/.well-known/skills/git-workflow/") []
                                  eq_refl))
                        "git-workflow" eq_refl eq_refl));
      reflexivity.
  - apply (proj2 (proj1 (@redirect_responses Fixtures.World Fixtures.clock
                           Fixtures.resolve Fixtures.failing_provider
                           Fixtures.throwing_config
                           (Fixtures.GET_opaque "/.well-known/skills/") []
                           eq_refl)
                        eq_refl)).
    reflexivity.
Defined.

Lemma response_taxonomy_witness :
  In 500 handler_statuses
  /\ exists msg,
      In msg handler_error_messages
      /\ BodyJson (JObject [("error", JString "Internal server error")])
         = BodyJson (JObject [("error", JString msg)]).
Proof.
  destruct (@response_taxonomy Fixtures.World Fixtures.clock Fixtures.resolve
              Fixtures.failing_provider Fixtures.default_config
              (Fixtures.GET "/.well-known/skills/index.json") [] [] _ eq_refl)
    as [Hs [Herr _]].
  split; [exact Hs|].
  destruct (Herr ltac:(cbn; lia)) as [_ Hmsg]. exact Hmsg.
Defined.

Lemma server_error_means_provider_failure_witness :
  (exists t w1, getSkills Fixtures.failing_provider [] = (Throw t, w1))
  \/ (exists skillName filePath t w1,
         isValidSkillName skillName = true
         /\ isValidFilePath filePath = true
         /\ getSkillFile Fixtures.failing_provider skillName filePath []
            = (Throw t, w1)).
Proof.
  apply (@server_error_means_provider_failure Fixtures.World Fixtures.clock
           Fixtures.resolve Fixtures.failing_provider
           Fixtures.default_config
           (Fixtures.GET "/.well-known/skills/index.json") [] [] _
           I eq_refl eq_refl).
Defined.

(* ================================================================= *)
(** ** Events against statuses *)

Section RecordedEvents.

Variable W : Type.
Variable now : W -> Z.
Variable URL_resolve : string -> string -> option string.

(** X12.  With a sink that records and a provider that keeps to its own
    state, whenever the handler returns a response, the events pushed
    during the run follow its status: none for 204, 302 and 405; exactly
    one for any other status, bearing the request path, of type
    INDEX_REQUESTED, SKILL_REQUESTED or FILE_REQUESTED for 200, NOT_FOUND
    for 400 and 404, and ERROR with the error for 500. *)
Theorem one_event_per_request (provider : SkillProvider W)
        (config : SkillsHandlerConfig W) (request : Request)
        (w w' : W) (log log' : list SkillsEvent) (response : Response) :
  handler (fun wl : W * list SkillsEvent => now (fst wl)) URL_resolve
          (lift_provider provider) (with_log_sink config) request (w, log)
  = (Ret response, (w', log')) ->
  exists events,
    log' = (log ++ events)%list
    /\ (status response = 204 \/ status response = 302
        \/ status response = 405 -> events = [])
    /\ (status response = 200 ->
        exists e, events = [e]
                  /\ ev_path (ev_data e) = req_pathname request
                  /\ In (ev_type (ev_data e))
                        [INDEX_REQUESTED; SKILL_REQUESTED; FILE_REQUESTED])
    /\ (status response = 400 \/ status response = 404 ->
        exists e, events = [e]
                  /\ ev_path (ev_data e) = req_pathname request
                  /\ ev_type (ev_data e) = NOT_FOUND)
    /\ (status response = 500 ->
        exists e err, events = [e]
                      /\ ev_path (ev_data e) = req_pathname request
                      /\ ev_type (ev_data e) = ERROR
                      /\ ev_error (ev_data e) = Some err).
Proof.
  intros H.
  walk_handler H.
  all: repeat match goal with
         | E : getSkills (lift_provider _) _ = _ |- _ =>
             unfold lift_provider, lift_call in E;
             cbn [getSkills fst snd] in E;
             destruct (getSkills provider _) as [? ?];
             inversion E; subst; clear E
         | E : getSkillFile (lift_provider _) _ _ _ = _ |- _ =>
             unfold lift_provider, lift_call in E;
             cbn [getSkillFile fst snd] in E;
             destruct (getSkillFile provider _ _ _) as [? ?];
             inversion E; subst; clear E
         | E : emitEvent _ (with_log_sink _) _ _ = _ |- _ =>
             unfold emitEvent, with_log_sink, log_sink in E;
             cbn [onEvent fst snd] in E;
             inversion E; subst; clear E
         end.
  all: inversion H; subst; clear H.
  all: repeat match goal with
         | E : createHeaders ?c (JsValue_toString (getContentType ?p))
               = Throw _,
           E' : createHeaders ?c "application/json" = Ret _ |- _ =>
             exfalso;
             destruct (createHeaders_inv _ _ E') as [_ [_ Hok]];
             rewrite (createHeaders_throws _ _ E (getContentType_safe p))
               in Hok;
             discriminate Hok
         | E : createHeaders ?c ?ct = Throw _,
           E' : createHeaders ?c "application/json" = Ret _ |- _ =>
             exfalso;
             destruct (createHeaders_inv _ _ E') as [_ [_ Hok]];
             rewrite (createHeaders_throws _ _ E eq_refl) in Hok;
             discriminate Hok
         end.
  all: first
         [ exists []; split; [rewrite app_nil_r; reflexivity|]
         | eexists; split; [reflexivity|] ].
  all: cbn [status].
  all: repeat split; intros Hs; try reflexivity; try (exfalso; lia).
  all: try (eexists; repeat split; cbn; tauto).
  all: do 2 eexists; repeat split.
Qed.

End RecordedEvents.

Lemma one_event_per_request_witness :
  exists events,
    [mkEvent (mkEventData INDEX_REQUESTED "/.well-known/skills/index.json"
                (Some 2) None None None None) 0%Z]
    = ([] ++ events)%list
    /\ exists e, events = [e]
                 /\ ev_path (ev_data e) = "/.well-known/skills/index.json"
                 /\ In (ev_type (ev_data e))
                       [INDEX_REQUESTED; SKILL_REQUESTED; FILE_REQUESTED].
Proof.
  destruct (@one_event_per_request Z (fun w => w) Fixtures.resolve
              {| getSkills := ret Fixtures.testSkills;
                 getSkillFile := fun _ _ => ret None |}
              (mkConfig None None None None None)
              (Fixtures.GET "/.well-known/skills/index.json")
              0%Z 0%Z [] _ _ eq_refl)
    as [events [Hlog [_ [H200 _]]]].
  exists events. split; [exact Hlog|]. exact (H200 eq_refl).
Defined.

(* ================================================================= *)
(** ** The content type by extension, and the frontmatter validator *)

(** X13.  On a path with a dot, the content type is decided by what follows
    the last dot, in lower case, and by nothing else of the path: the type
    of the table when it is a key of the table, and [text/plain;
    charset=utf-8] when it is neither a key nor the name of a member of
    [Object.prototype]. *)
Theorem getContentType_by_extension (stem ext : string) :
  forallb (fun c => negb (Ascii.eqb c ".")) ext = true ->
  (forall mime,
      assoc (toLowerCase ext) contentTypes = Some mime ->
      getContentType (stem ++ String "." ext) = JsStr mime)
  /\ (assoc (toLowerCase ext) contentTypes = None ->
      List.existsb (String.eqb (toLowerCase ext)) Object_prototype_members
      = false ->
      getContentType (stem ++ String "." ext)
      = JsStr "text/plain; charset=utf-8")
  /\ (forall stem' ext',
         forallb (fun c => negb (Ascii.eqb c ".")) ext' = true ->
         toLowerCase ext' = toLowerCase ext ->
         getContentType (stem' ++ String "." ext')
         = getContentType (stem ++ String "." ext)).
Proof.
  intros H. rewrite (getContentType_after_last_dot stem ext H).
  repeat split.
  - intros mime E. unfold object_get. now rewrite E.
  - intros E1 E2. now apply object_get_fallback.
  - intros stem' ext' H' E.
    rewrite (getContentType_after_last_dot stem' ext' H'). now rewrite E.
Qed.

Lemma getContentType_by_extension_witness :
  getContentType ("references/CHECK.LIST" ++ String "." "Md")
  = JsStr "text/markdown; charset=utf-8".
Proof.
  apply (proj1 (getContentType_by_extension "references/CHECK.LIST" "Md"
                  eq_refl)).
  reflexivity.
Defined.

(** The frontmatter a skill may carry, in the words of the data model. *)
Lemma validateSkillFrontmatter_object (frontmatter : JsAny) :
  validateSkillFrontmatter frontmatter = true ->
  exists fm fm_name fm_description,
    frontmatter = AnyObject fm
    /\ any_prop fm "name" = AnyString fm_name
    /\ any_prop fm "description" = AnyString fm_description
    /\ isValidSkillName fm_name = true
    /\ 1 <= String.length fm_description <= MAX_DESCRIPTION_LENGTH.
Proof.
  unfold validateSkillFrontmatter.
  destruct frontmatter as [| | | |fm]; try discriminate.
  destruct (any_prop fm "name") as [| |n| |] eqn:En; try discriminate.
  destruct (isValidSkillName n) eqn:Hn; [|discriminate]. cbn [negb].
  destruct (any_prop fm "description") as [| |d| |] eqn:Ed;
    try discriminate.
  destruct ((String.length d =? 0) || (MAX_DESCRIPTION_LENGTH <? String.length d))
    eqn:Hd; [discriminate|].
  intros _. exists fm, n, d. repeat split; try assumption.
  - apply Bool.orb_false_iff in Hd as [Hd _]. apply Nat.eqb_neq in Hd. lia.
  - apply Bool.orb_false_iff in Hd as [_ Hd]. apply Nat.ltb_ge in Hd. lia.
Qed.

(** X14.  [validateSkillFrontmatter] returns true exactly for an object
    whose [name] is a string of the skill-name grammar and whose
    [description] is a string of 1 to 1024 characters; a value that is not
    an object, [null], a missing field or a field of another type makes it
    return false. *)
Theorem validateSkillFrontmatter_correct (frontmatter : JsAny) :
  validateSkillFrontmatter frontmatter = true
  <-> exists fm fm_name fm_description,
      frontmatter = AnyObject fm
      /\ any_prop fm "name" = AnyString fm_name
      /\ any_prop fm "description" = AnyString fm_description
      /\ skill_name_grammar fm_name
      /\ 1 <= String.length fm_description <= 1024.
Proof.
  split.
  - intros H.
    destruct (validateSkillFrontmatter_object _ H)
      as [fm [n [d [-> [Hn [Hd [Hv Hl]]]]]]].
    unfold MAX_DESCRIPTION_LENGTH in Hl.
    exists fm, n, d.
    split; [reflexivity|]. split; [assumption|]. split; [assumption|].
    split; [now apply isValidSkillName_grammar | exact Hl].
  - intros [fm [n [d [-> [Hn [Hd [Hv [H1 H2]]]]]]]].
    apply isValidSkillName_grammar in Hv.
    unfold validateSkillFrontmatter. rewrite Hn, Hv, Hd. cbn [negb].
    assert ((String.length d =? 0) = false) as -> by (apply Nat.eqb_neq; lia).
    assert ((MAX_DESCRIPTION_LENGTH <? String.length d) = false) as ->
        by (apply Nat.ltb_ge; unfold MAX_DESCRIPTION_LENGTH; lia).
    reflexivity.
Qed.

Lemma validateSkillFrontmatter_correct_witness :
  exists fm fm_name fm_description,
    AnyObject [("name", AnyString "git-workflow");
               ("description", AnyString "Follow team Git conventions.")]
    = AnyObject fm
    /\ any_prop fm "name" = AnyString fm_name
    /\ any_prop fm "description" = AnyString fm_description
    /\ skill_name_grammar fm_name
    /\ 1 <= String.length fm_description <= 1024.
Proof.
  apply (proj1 (validateSkillFrontmatter_correct
                  (AnyObject
                     [("name", AnyString "git-workflow");
                      ("description",
                       AnyString "Follow team Git conventions.")]))).
  reflexivity.
Defined.

(* ================================================================= *)
(** ** The static provider *)

Lemma existsb_eqb_In (x : string) (l : list string) :
  List.existsb (String.eqb x) l = true <-> In x l.
Proof.
  rewrite List.existsb_exists. split.
  - intros [y [Hin E]]. apply String.eqb_eq in E. now subst.
  - intros Hin. exists x. split; [assumption | apply String.eqb_refl].
Qed.

Lemma check_static_skill_ok (skill : Skill) :
  check_static_skill skill = None <-> static_skill_ok skill.
Proof.
  unfold check_static_skill, static_skill_ok. split.
  - destruct (isValidSkillName (name skill)); [|discriminate]. cbn [negb].
    destruct (negb (nonempty (description skill))
              || (1024 <? String.length (description skill))) eqn:Ed;
      [discriminate|].
    destruct (List.existsb (String.eqb "SKILL.md") (files skill)) eqn:Ef;
      [|discriminate].
    cbn [negb].
    destruct (List.find _ (files skill)) eqn:Efind; [discriminate|].
    intros _. apply Bool.orb_false_iff in Ed as [Ed1 Ed2].
    apply Bool.negb_false_iff in Ed1. apply Nat.ltb_ge in Ed2.
    repeat split.
    + destruct (description skill); [discriminate | simpl; lia].
    + assumption.
    + now apply existsb_eqb_In.
    + intros file Hin.
      pose proof (List.find_none _ _ Efind file Hin) as Hf.
      now apply Bool.negb_false_iff in Hf.
  - intros [Hn [[Hd1 Hd2] [Hmd Hfiles]]]. rewrite Hn. cbn [negb].
    assert (nonempty (description skill) = true) as ->
        by (destruct (description skill); [simpl in Hd1; lia | reflexivity]).
    assert ((1024 <? String.length (description skill)) = false) as ->
        by now apply Nat.ltb_ge.
    cbn [negb orb].
    assert (List.existsb (String.eqb "SKILL.md") (files skill) = true) as ->
        by now apply existsb_eqb_In.
    cbn [negb].
    destruct (List.find _ (files skill)) as [file|] eqn:Efind; [|reflexivity].
    destruct (List.find_some _ _ Efind) as [Hin Hbad].
    rewrite (Hfiles file Hin) in Hbad. discriminate.
Qed.

Lemma validate_static_ok (skills : list Skill) :
  validate_static skills = None <-> Forall static_skill_ok skills.
Proof.
  induction skills as [|s skills IH]; simpl.
  - split; [constructor | reflexivity].
  - destruct (check_static_skill s) eqn:E.
    + split; [discriminate|]. intros H. inversion H; subst.
      apply check_static_skill_ok in H2. congruence.
    + rewrite IH. split.
      * intros H. constructor; [now apply check_static_skill_ok | assumption].
      * intros H. now inversion H.
Qed.

Lemma validate_static_first (good rest : list Skill) (bad : Skill)
      (e : JsError) :
  Forall static_skill_ok good ->
  check_static_skill bad = Some e ->
  validate_static (good ++ bad :: rest) = Some e.
Proof.
  intros Hgood Hbad. induction Hgood as [|s good Hs _ IH]; simpl.
  - now rewrite Hbad.
  - apply check_static_skill_ok in Hs. now rewrite Hs.
Qed.

Lemma last_named_none (T : Type) (skill_name : T -> string)
      (key : string) (skills : list T) :
  last_named skill_name key skills = None
  <-> forall s, In s skills -> skill_name s <> key.
Proof.
  induction skills as [|x skills IH]; simpl.
  - split; [intros _ s [] | reflexivity].
  - destruct (last_named skill_name key skills) as [s'|].
    + split; [discriminate|]. intros H.
      assert (Some s' = None) as E; [|discriminate].
      apply IH. intros s Hin. apply H. now right.
    + destruct (String.eqb (skill_name x) key) eqn:E.
      * split; [discriminate|]. intros H. apply String.eqb_eq in E.
        exfalso. now apply (H x); [left|].
      * split; [|reflexivity]. intros _ s [<- | Hin].
        -- now apply String.eqb_neq.
        -- now apply (proj1 IH eq_refl).
Qed.

(** Whether the static provider knows a skill name. *)
Lemma static_skillMap_get (skills : list Skill) (skillName : string) :
  (Map_get (set_all name [] skills) skillName = None
   <-> forall s, In s skills -> name s <> skillName)
  /\ ((exists s, In s skills /\ name s = skillName) ->
      exists s, Map_get (set_all name [] skills) skillName = Some s).
Proof.
  rewrite Map_get_set_all. cbn [Map_get]. split.
  - rewrite <- last_named_none.
    now destruct (last_named name skillName skills).
  - intros [s [Hin Hs]].
    destruct (last_named name skillName skills) as [s'|] eqn:E; [eauto|].
    exfalso. now apply (proj1 (last_named_none name skillName skills) E s).
Qed.

Section StaticProviderFacts.

Variable W : Type.
Variable Object_member_read : string -> string -> outcome (option string).

(** X15.  [createStaticProvider] returns a provider exactly when every
    skill has a valid name, a description of 1 to 1024 characters and a
    files list that holds [SKILL.md] and valid paths only; otherwise it
    throws for the first skill that fails, with [Invalid skill name: ...]
    when it is the name.  The provider returned gives back the skills as
    they were passed, in order, and leaves the world alone. *)
Theorem createStaticProvider_validates (skills : list Skill)
        (additionalFiles : option AdditionalFiles) :
  ((exists provider,
       createStaticProvider W Object_member_read skills additionalFiles
       = Ret provider)
   <-> Forall static_skill_ok skills)
  /\ (forall provider,
         createStaticProvider W Object_member_read skills additionalFiles
         = Ret provider ->
         forall w, getSkills provider w = (Ret skills, w))
  /\ (forall good bad rest,
         skills = (good ++ bad :: rest)%list ->
         Forall static_skill_ok good ->
         isValidSkillName (name bad) = false ->
         createStaticProvider W Object_member_read skills additionalFiles
         = Throw (ThrownError
                    (mkError ("Invalid skill name: " ++ name bad)))).
Proof.
  unfold createStaticProvider. repeat split.
  - intros [provider H].
    destruct (validate_static skills) eqn:E; [discriminate|].
    now apply validate_static_ok.
  - intros H. apply validate_static_ok in H. rewrite H. eauto.
  - intros provider H w.
    destruct (validate_static skills); [discriminate|].
    inversion H; subst. reflexivity.
  - intros good bad rest -> Hgood Hbad.
    rewrite (@validate_static_first good rest bad
               (mkError ("Invalid skill name: " ++ name bad)) Hgood).
    + reflexivity.
    + unfold check_static_skill. now rewrite Hbad.
Qed.

(** X16.  The static provider's [getSkillFile] returns [null] for
    [SKILL.md], for a skill name none of its skills bears, and when no
    additional files were given; for a known skill with an entry of its own
    in the additional files it returns the content stored under the path,
    and [null] for a path that is neither stored nor the name of a member of
    [Object.prototype]; a path that is not stored but names such a member
    yields that inherited member, not [null].  For a known skill without an
    entry of its own, it returns [null] unless the skill is named like a
    member of [Object.prototype]: then the path is read on that inherited
    member, and the call throws when that read throws. *)
Theorem static_getSkillFile_lookup (skills : list Skill)
        (skillName filePath : string) :
  (forall additionalFiles,
      static_getSkillFile Object_member_read skills additionalFiles
                          skillName "SKILL.md" = Ret None)
  /\ (forall additionalFiles,
         (forall s, In s skills -> name s <> skillName) ->
         static_getSkillFile Object_member_read skills additionalFiles
                             skillName filePath = Ret None)
  /\ static_getSkillFile Object_member_read skills None skillName filePath
     = Ret None
  /\ (forall table skillFiles,
         (exists s, In s skills /\ name s = skillName) ->
         filePath <> "SKILL.md" ->
         assoc_files skillName table = Some skillFiles ->
         (forall content,
             assoc filePath skillFiles = Some content ->
             static_getSkillFile Object_member_read skills (Some table)
                                 skillName filePath = Ret (Some content))
         /\ (assoc filePath skillFiles = None ->
             ~ In filePath Object_prototype_members ->
             static_getSkillFile Object_member_read skills (Some table)
                                 skillName filePath = Ret None)
         /\ (assoc filePath skillFiles = None ->
             In filePath Object_prototype_members ->
             static_getSkillFile Object_member_read skills (Some table)
                                 skillName filePath
             = Ret (Some (JsValue_toString (JsInherited filePath)))))
  /\ (forall table,
         (exists s, In s skills /\ name s = skillName) ->
         filePath <> "SKILL.md" ->
         assoc_files skillName table = None ->
         (~ In skillName Object_prototype_members ->
          static_getSkillFile Object_member_read skills (Some table)
                              skillName filePath = Ret None)
         /\ (In skillName Object_prototype_members ->
             static_getSkillFile Object_member_read skills (Some table)
                                 skillName filePath
             = Object_member_read skillName filePath)).
Proof.
  unfold static_getSkillFile. cbv zeta. repeat split.
  - intros additionalFiles.
    now destruct (Map_get (set_all name [] skills) skillName).
  - intros additionalFiles Hnone.
    apply (proj1 (static_skillMap_get skills skillName)) in Hnone.
    now rewrite Hnone.
  - destruct (Map_get (set_all name [] skills) skillName); [|reflexivity].
    now destruct (String.eqb filePath "SKILL.md").
  - intros content Hc.
    destruct (proj2 (static_skillMap_get skills skillName) H) as [s ->].
    apply String.eqb_neq in H0. now rewrite H0, H1, Hc.
  - intros Hc Hm.
    destruct (proj2 (static_skillMap_get skills skillName) H) as [s ->].
    apply String.eqb_neq in H0. rewrite H0, H1, Hc.
    destruct (List.existsb (String.eqb filePath) Object_prototype_members)
      eqn:E; [|reflexivity].
    apply existsb_eqb_In in E. contradiction.
  - intros Hc Hm.
    destruct (proj2 (static_skillMap_get skills skillName) H) as [s ->].
    apply String.eqb_neq in H0. rewrite H0, H1, Hc.
    apply existsb_eqb_In in Hm. now rewrite Hm.
  - intros Hm.
    destruct (proj2 (static_skillMap_get skills skillName) H) as [s ->].
    apply String.eqb_neq in H0. rewrite H0, H1.
    destruct (List.existsb (String.eqb skillName) Object_prototype_members)
      eqn:E; [|reflexivity].
    apply existsb_eqb_In in E. contradiction.
  - intros Hm.
    destruct (proj2 (static_skillMap_get skills skillName) H) as [s ->].
    apply String.eqb_neq in H0. rewrite H0, H1.
    apply existsb_eqb_In in Hm. now rewrite Hm.
Qed.

End StaticProviderFacts.

Lemma createStaticProvider_validates_witness :
  createStaticProvider Fixtures.World ProviderFixtures.no_member
    (Fixtures.testSkills
     ++ mkSkill "Invalid_Name" "Test" "Test" ["SKILL.md"] :: [])%list
    None
  = Throw (ThrownError (mkError "Invalid skill name: Invalid_Name")).
Proof.
  apply (proj2 (proj2 (@createStaticProvider_validates Fixtures.World
                         ProviderFixtures.no_member
                         (Fixtures.testSkills
                          ++ mkSkill "Invalid_Name" "Test" "Test" ["SKILL.md"]
                          :: [])%list
                         None))
               Fixtures.testSkills
               (mkSkill "Invalid_Name" "Test" "Test" ["SKILL.md"]) []
               eq_refl).
  - apply validate_static_ok. reflexivity.
  - reflexivity.
Defined.

Lemma static_getSkillFile_lookup_witness :
  static_getSkillFile ProviderFixtures.no_member Fixtures.testSkills
    (Some ProviderFixtures.additionalFiles) "code-review" "toString"
  = Ret (Some "function toString() { [native code] }").
Proof.
  destruct (@static_getSkillFile_lookup ProviderFixtures.no_member
              Fixtures.testSkills "code-review" "toString")
    as [_ [_ [_ [Hknown _]]]].
  destruct (Hknown ProviderFixtures.additionalFiles
                   [("references/CHECKLIST.md", "# Checklist")])
    as [_ [_ Hmember]].
  - exists (mkSkill "code-review"
              "Review code for bugs, security issues, and best practices."
              "# Code Review"
              ["SKILL.md"; "references/CHECKLIST.md"]).
    split; [right; left; reflexivity | reflexivity].
  - discriminate.
  - reflexivity.
  - apply Hmember; [reflexivity | cbn; tauto].
Defined.

(* ================================================================= *)
(** ** The static provider under the handler *)

Lemma last_named_some (T : Type) (skill_name : T -> string)
      (key : string) (skills : list T) (s : T) :
  last_named skill_name key skills = Some s ->
  In s skills /\ skill_name s = key.
Proof.
  induction skills as [|x skills IH]; simpl; [discriminate|].
  destruct (last_named skill_name key skills) as [s'|].
  - intros E. inversion E; subst. destruct (IH eq_refl). split; [now right|].
    assumption.
  - destruct (String.eqb (skill_name x) key) eqn:E; [|discriminate].
    intros E'. inversion E'; subst. apply String.eqb_eq in E.
    split; [now left | assumption].
Qed.

Lemma static_skillMap_known (skills : list Skill) (skillName : string)
      (s : Skill) :
  Map_get (set_all name [] skills) skillName = Some s ->
  In s skills /\ name s = skillName.
Proof.
  rewrite Map_get_set_all. cbn [Map_get].
  destruct (last_named name skillName skills) as [s'|] eqn:E; [|discriminate].
  intros E'. inversion E'; subst. now apply (last_named_some name _ _ E).
Qed.

(** X17.  A provider made by [createStaticProvider] returns its skills
    without touching the world, and its [getSkillFile] is the lookup of the
    static provider, which touches no world either.  When every skill named
    like a member of [Object.prototype] has an entry of its own in the
    additional files, or no additional files were given, the lookup never
    throws, and then, with a sink that returns, the handler never answers
    500 over this provider. *)
Theorem static_provider_never_fails (W : Type) (now : W -> Z)
        (URL_resolve : string -> string -> option string)
        (Object_member_read : string -> string -> outcome (option string))
        (skills : list Skill) (additionalFiles : option AdditionalFiles)
        (provider : SkillProvider W) (config : SkillsHandlerConfig W) :
  createStaticProvider W Object_member_read skills additionalFiles
  = Ret provider ->
  (forall w, getSkills provider w = (Ret skills, w))
  /\ (forall skillName filePath w,
         getSkillFile provider skillName filePath w
         = (static_getSkillFile Object_member_read skills additionalFiles
                                skillName filePath, w))
  /\ ((forall s table,
          In s skills -> In (name s) Object_prototype_members ->
          additionalFiles = Some table ->
          assoc_files (name s) table <> None) ->
      (forall skillName filePath,
          exists content,
            static_getSkillFile Object_member_read skills additionalFiles
                                skillName filePath = Ret content)
      /\ (sink_returns config ->
          forall request w response w',
            handler now URL_resolve provider config request w
            = (Ret response, w') ->
            status response <> 500)).
Proof.
  intros H. unfold createStaticProvider in H.
  destruct (validate_static skills); [discriminate|].
  inversion H; subst; clear H. split; [reflexivity|]. split; [reflexivity|].
  intros Hown.
  assert (forall skillName filePath,
             exists content,
               static_getSkillFile Object_member_read skills additionalFiles
                                   skillName filePath = Ret content)
    as Hreturns.
  { intros skillName filePath. unfold static_getSkillFile. cbv zeta.
    destruct (Map_get (set_all name [] skills) skillName) as [s|] eqn:Hs;
      [|now eauto].
    destruct (static_skillMap_known _ _ Hs) as [Hin Hname].
    destruct (String.eqb filePath "SKILL.md"); [now eauto|].
    destruct additionalFiles as [table|]; [|now eauto].
    destruct (assoc_files skillName table) as [skillFiles|] eqn:Ha.
    - destruct (assoc filePath skillFiles); [now eauto|].
      destruct (List.existsb (String.eqb filePath) Object_prototype_members);
        now eauto.
    - destruct (List.existsb (String.eqb skillName) Object_prototype_members)
        eqn:Hm; [|now eauto].
      exfalso. apply existsb_eqb_In in Hm. subst skillName.
      now apply (Hown s table Hin Hm eq_refl). }
  split; [exact Hreturns|].
  intros Hsink request w response w' Hrun Hs.
  destruct (status_500_cause _ _ _ _ _ _ Hsink Hrun Hs)
    as [[t [w1 E]] | [n [f [t [w1 [_ [_ E]]]]]]]; [discriminate E|].
  cbn [getSkillFile] in E. unfold liftO in E.
  destruct (Hreturns n f) as [content Hc]. rewrite Hc in E. discriminate E.
Qed.

Lemma static_provider_never_fails_witness :
  exists provider,
    createStaticProvider Fixtures.World ProviderFixtures.Object_read
      Fixtures.testSkills (Some ProviderFixtures.additionalFiles)
    = Ret provider
    /\ forall skillName filePath,
        exists content,
          static_getSkillFile ProviderFixtures.Object_read
            Fixtures.testSkills (Some ProviderFixtures.additionalFiles)
            skillName filePath
          = Ret content.
Proof.
  eexists. split; [reflexivity|].
  apply (proj2 (proj2 (@static_provider_never_fails
                         Fixtures.World Fixtures.clock Fixtures.resolve
                         ProviderFixtures.Object_read Fixtures.testSkills
                         (Some ProviderFixtures.additionalFiles)
                         _ Fixtures.recording_config eq_refl))).
  intros s table [<- | [<- | []]] Hm; cbn in Hm;
    repeat (destruct Hm as [Hm | Hm]; [discriminate Hm|]); contradiction.
Defined.

(** Without an entry of its own, a skill named [constructor] makes the
    lookup read the path on the function [Object]: for the path [caller]
    that read throws, and the handler answers 500. *)
Lemma static_provider_inherited_read :
  exists provider,
    createStaticProvider Fixtures.World ProviderFixtures.Object_read
      [mkSkill "constructor" "A skill named like a member." "# Body"
               ["SKILL.md"]]
      (Some ProviderFixtures.additionalFiles)
    = Ret provider
    /\ getSkillFile provider "constructor" "caller" []
       = (Throw (TypeError "restricted function property"), [])
    /\ getSkillFile provider "constructor" "name" []
       = (Ret (Some "Object"), [])
    /\ exists response,
        Fixtures.run provider Fixtures.default_config
          (Fixtures.GET "/.well-known/skills/constructor/caller")
        = (Ret response, [])
        /\ status response = 500.
Proof.
  eexists. split; [reflexivity|]. split; [reflexivity|].
  split; [reflexivity|]. eexists. split; reflexivity.
Qed.

(* ================================================================= *)
(** ** More of the composite provider *)

Lemma filter_filter_comm (A : Type) (p q : A -> bool) (l : list A) :
  List.filter p (List.filter q l) = List.filter q (List.filter p l).
Proof.
  induction l as [|x l IH]; [reflexivity|]. simpl.
  destruct (q x) eqn:Eq, (p x) eqn:Ep; simpl; rewrite ?Eq, ?Ep, IH;
    reflexivity.
Qed.

Lemma filter_filter_absorb (A : Type) (p q : A -> bool) (l : list A) :
  (forall x, p x = true -> q x = true) ->
  List.filter p (List.filter q l) = List.filter p l.
Proof.
  intros Hpq. induction l as [|x l IH]; [reflexivity|]. simpl.
  destruct (q x) eqn:Eq; simpl.
  - now rewrite IH.
  - rewrite IH. destruct (p x) eqn:Ep; [|reflexivity].
    rewrite (Hpq x Ep) in Eq. discriminate.
Qed.

Lemma filter_filter_andb (A : Type) (p q : A -> bool) (l : list A) :
  List.filter p (List.filter q l) = List.filter (fun x => p x && q x) l.
Proof.
  induction l as [|x l IH]; [reflexivity|]. simpl.
  destruct (q x) eqn:Eq; simpl.
  - rewrite Bool.andb_true_r. destruct (p x); now rewrite IH.
  - now rewrite Bool.andb_false_r.
Qed.

Lemma keep_first_filter (p : string -> bool) (l : list string) :
  keep_first (List.filter p l) = List.filter p (keep_first l).
Proof.
  induction l as [|y l IH]; [reflexivity|]. simpl.
  destruct (p y) eqn:Ep; simpl.
  - now rewrite IH, filter_filter_comm.
  - rewrite IH. symmetry. apply filter_filter_absorb.
    intros x Hx. apply Bool.negb_true_iff, String.eqb_neq. intros ->.
    congruence.
Qed.

(** The keys of a map filled from names, by first occurrence. *)
Lemma fold_keys_keep_first (names keys : list string) :
  List.fold_left
    (fun ks k =>
       if List.existsb (fun k0 => String.eqb k0 k) ks then ks
       else (ks ++ [k])%list)
    names keys
  = (keys
     ++ keep_first
          (List.filter
             (fun y => negb (List.existsb (fun k0 => String.eqb k0 y) keys))
             names))%list.
Proof.
  revert keys. induction names as [|x names IH]; intros keys; simpl.
  - now rewrite app_nil_r.
  - destruct (List.existsb (fun k0 => String.eqb k0 x) keys) eqn:E; simpl.
    + apply IH.
    + rewrite IH, <- app_assoc. simpl. do 2 f_equal.
      rewrite <- keep_first_filter, filter_filter_andb. f_equal.
      apply List.filter_ext. intros y.
      rewrite List.existsb_app. simpl.
      rewrite Bool.orb_false_r, Bool.negb_orb, String.eqb_sym.
      apply Bool.andb_comm.
Qed.

Section MoreCompositeFacts.

Variable W : Type.
Variable T : Type.
Variable skill_name : T -> string.

Lemma set_all_keys (skills : list T) (m : JsMap T) :
  List.map fst (set_all skill_name m skills)
  = List.fold_left
      (fun ks k =>
         if List.existsb (fun k0 => String.eqb k0 k) ks then ks
         else (ks ++ [k])%list)
      (List.map skill_name skills) (List.map fst m).
Proof.
  unfold set_all. revert m.
  induction skills as [|s skills IH]; intros m; simpl.
  - reflexivity.
  - rewrite IH, Map_set_keys. reflexivity.
Qed.

Lemma set_all_names (skills : list T) :
  List.map skill_name (Map_values (set_all skill_name [] skills))
  = keep_first (List.map skill_name skills).
Proof.
  destruct (@set_all_invariant T skill_name skills []) as [_ Hk];
    [constructor | constructor |].
  unfold Map_values. rewrite List.map_map.
  transitivity (List.map fst (set_all skill_name [] skills)).
  - apply List.map_ext_in. intros kv Hin.
    unfold keyed_by_name in Hk. rewrite Forall_forall in Hk.
    symmetry. now apply Hk.
  - rewrite set_all_keys, fold_keys_keep_first. simpl. f_equal.
    clear. induction (List.map skill_name skills) as [|x l IH];
      simpl; congruence.
Qed.

Lemma Map_set_fresh (m : JsMap T) (k : string) (v : T) :
  ~ In k (List.map fst m) -> Map_set m k v = (m ++ [(k, v)])%list.
Proof.
  induction m as [|[k0 v0] m IH]; simpl; intros H; [reflexivity|].
  destruct (String.eqb k0 k) eqn:E.
  - apply String.eqb_eq in E. exfalso. apply H. now left.
  - rewrite IH; [reflexivity|]. intros Hin. apply H. now right.
Qed.

Lemma set_all_distinct (skills : list T) (m : JsMap T) :
  NoDup (List.map fst m ++ List.map skill_name skills) ->
  set_all skill_name m skills
  = (m ++ List.map (fun s => (skill_name s, s)) skills)%list.
Proof.
  unfold set_all. revert m.
  induction skills as [|s skills IH]; intros m Hnd; simpl.
  - now rewrite app_nil_r.
  - rewrite Map_set_fresh.
    + rewrite IH.
      * now rewrite <- app_assoc.
      * rewrite List.map_app. simpl. rewrite <- app_assoc. exact Hnd.
    + intros Hin. apply NoDup_remove_2 in Hnd. apply Hnd.
      apply in_or_app. now left.
Qed.

(** The loop of [getSkills] stops at the first provider that throws. *)
Lemma collect_failure (before : list (Provider W T)) :
  forall (provider : Provider W T) (after : list (Provider W T))
         (m : JsMap T) (w w1 w2 : W) (lists : list (list T)) (t : JsThrown),
    getSkills_each before w = (Ret lists, w1) ->
    getSkills provider w1 = (Throw t, w2) ->
    collect skill_name (before ++ provider :: after) m w = (Throw t, w2).
Proof.
  induction before as [|p before IH];
    intros provider after m w w1 w2 lists t Heach Hthrow.
  - cbn in Heach. inversion Heach; subst.
    cbn [app collect]. unfold bind. now rewrite Hthrow.
  - cbn [getSkills_each app collect] in *. unfold bind in *.
    destruct (getSkills p w) as [[skills|t0] w0]; [|discriminate].
    destruct (getSkills_each before w0) as [[others|t0] w3] eqn:E;
      [|discriminate].
    cbn in Heach. inversion Heach; subst.
    now apply (IH provider after _ w0 w1 w2 others t).
Qed.

Lemma first_file_skip (nulls rest : list (Provider W T))
      (skillName filePath : string) :
  forall w w1 : W,
  all_null nulls skillName filePath w w1 ->
  first_file (nulls ++ rest) skillName filePath w
  = first_file rest skillName filePath w1.
Proof.
  induction nulls as [|q nulls IH]; intros w w1 H.
  - cbn in H. now subst.
  - cbn [all_null] in H. destruct H as [w0 [Hq Hrest]].
    cbn [app first_file]. unfold bind. rewrite Hq. now apply IH.
Qed.

(** X18.  The composite [getSkills] lists the names in the order of their
    first occurrence in the providers' lists taken in order (a skill
    overridden by a later provider keeps the place of the first of its
    name); when no name occurs twice, the result is the concatenation of the
    providers' lists. *)
Theorem composite_getSkills_order (providers : list (Provider W T))
        (w w' : W) (lists : list (list T)) :
  getSkills_each providers w = (Ret lists, w') ->
  exists result,
    getSkills (createCompositeProvider skill_name providers) w
    = (Ret result, w')
    /\ List.map skill_name result
       = keep_first (List.map skill_name (List.concat lists))
    /\ (NoDup (List.map skill_name (List.concat lists)) ->
        result = List.concat lists).
Proof.
  intros H.
  exists (Map_values (set_all skill_name [] (List.concat lists))).
  split; [|split].
  - cbn [createCompositeProvider getSkills]. unfold bind.
    now rewrite (collect_each skill_name providers [] w H).
  - apply set_all_names.
  - intros Hnd. rewrite set_all_distinct by exact Hnd.
    unfold Map_values. cbn [app]. rewrite List.map_map. cbn [snd].
    apply List.map_id.
Qed.

(** X19.  When a provider's [getSkills] throws or rejects, the composite
    [getSkills] rejects with the same value, after the providers before it
    and without calling the providers after it. *)
Theorem composite_getSkills_failure (before after : list (Provider W T))
        (provider : Provider W T) (w w1 w2 : W) (lists : list (list T))
        (t : JsThrown) :
  getSkills_each before w = (Ret lists, w1) ->
  getSkills provider w1 = (Throw t, w2) ->
  getSkills (createCompositeProvider skill_name
               (before ++ provider :: after)) w
  = (Throw t, w2).
Proof.
  intros Heach Hthrow.
  cbn [createCompositeProvider getSkills]. unfold bind.
  now rewrite (collect_failure before provider after [] w Heach Hthrow).
Qed.

(** X20.  The composite [getSkillFile] asks the providers from the last to
    the first and stops at the first answer that is not [null]: when the
    providers after one, asked in turn from the last, each return [null],
    that provider is asked in the world they leave, and its content, or its
    failure, is the result; the providers before it are not asked.  When
    every provider returns [null], so does the composite, in the world the
    first provider leaves. *)
Theorem composite_getSkillFile_precedence (skillName filePath : string) :
  (forall (before : list (Provider W T)) (provider : Provider W T)
          (after : list (Provider W T)) (text : string) (w w1 w' : W),
      all_null (List.rev after) skillName filePath w w1 ->
      getSkillFile provider skillName filePath w1 = (Ret (Some text), w') ->
      getSkillFile (createCompositeProvider skill_name
                      (before ++ provider :: after)) skillName filePath w
      = (Ret (Some text), w'))
  /\ (forall (before : list (Provider W T)) (provider : Provider W T)
             (after : list (Provider W T)) (t : JsThrown) (w w1 w' : W),
         all_null (List.rev after) skillName filePath w w1 ->
         getSkillFile provider skillName filePath w1 = (Throw t, w') ->
         getSkillFile (createCompositeProvider skill_name
                         (before ++ provider :: after)) skillName filePath w
         = (Throw t, w'))
  /\ (forall (providers : list (Provider W T)) (w w' : W),
         all_null (List.rev providers) skillName filePath w w' ->
         getSkillFile (createCompositeProvider skill_name providers)
                      skillName filePath w
         = (Ret None, w')).
Proof.
  repeat split.
  - intros before provider after text w w1 w' Hnull Hsome.
    cbn [createCompositeProvider getSkillFile].
    rewrite List.rev_app_distr. cbn [List.rev]. rewrite <- app_assoc.
    erewrite first_file_skip; [|exact Hnull].
    cbn [app first_file]. unfold bind. now rewrite Hsome.
  - intros before provider after t w w1 w' Hnull Hthrow.
    cbn [createCompositeProvider getSkillFile].
    rewrite List.rev_app_distr. cbn [List.rev]. rewrite <- app_assoc.
    erewrite first_file_skip; [|exact Hnull].
    cbn [app first_file]. unfold bind. now rewrite Hthrow.
  - intros providers w w' Hnull.
    cbn [createCompositeProvider getSkillFile].
    rewrite <- (app_nil_r (List.rev providers)).
    erewrite first_file_skip; [|exact Hnull].
    reflexivity.
Qed.

End MoreCompositeFacts.

Lemma composite_getSkills_order_witness :
  exists result,
    getSkills (createCompositeProvider name
                 [Fixtures.static_provider; ProviderFixtures.null_provider])
              []
    = (Ret result, [])
    /\ List.map name result = ["git-workflow"; "code-review"]
    /\ result = Fixtures.testSkills.
Proof.
  destruct (@composite_getSkills_order Fixtures.World Skill name
              [Fixtures.static_provider; ProviderFixtures.null_provider]
              [] [] [Fixtures.testSkills; []] eq_refl)
    as [result [Hrun [Hnames Hid]]].
  exists result. split; [exact Hrun|]. split; [exact Hnames|].
  apply Hid. cbn. repeat constructor; cbn; intuition discriminate.
Defined.

Lemma composite_getSkills_failure_witness :
  getSkills (createCompositeProvider name
               [Fixtures.static_provider; Fixtures.failing_provider;
                ProviderFixtures.null_provider]) []
  = (Throw (ThrownError (mkError "disk failure")), []).
Proof.
  apply (@composite_getSkills_failure Fixtures.World Skill name
           [Fixtures.static_provider] [ProviderFixtures.null_provider]
           Fixtures.failing_provider [] [] [] [Fixtures.testSkills]);
    reflexivity.
Defined.

Lemma composite_getSkillFile_precedence_witness :
  getSkillFile (createCompositeProvider name
                  [Fixtures.failing_provider;
                   ProviderFixtures.checklist_provider;
                   ProviderFixtures.noting_provider;
                   ProviderFixtures.null_provider])
               "code-review" "x.md" []
  = (Ret (Some "# Checklist"),
     [mkEvent (event NOT_FOUND "asked") 0%Z]).
Proof.
  apply (proj1 (@composite_getSkillFile_precedence Fixtures.World Skill name
                  "code-review" "x.md")
               [Fixtures.failing_provider] ProviderFixtures.checklist_provider
               [ProviderFixtures.noting_provider;
                ProviderFixtures.null_provider]
               "# Checklist" [] [mkEvent (event NOT_FOUND "asked") 0%Z]).
  - cbn. eexists. split; [reflexivity|]. eexists. split; reflexivity.
  - reflexivity.
Defined.

(* ================================================================= *)
(** ** The file provider *)

Section FileProviderFacts.

Variable W : Type.
Variable now : W -> Z.
Variable resolvedDir : string.
Variable path_join : string -> string -> string.
Variable path_join3 : string -> string -> string -> string.
Variable path_normalize : string -> string.
Variable readdir : string -> M W (list Dirent).
Variable readFile : string -> M W string.
Variable matter : string -> outcome (JsAny * string).
Variable collectFiles : string -> string -> M W (list string).

(** One turn of the scan returns, with at most one skill more, and only for
    a directory with a valid name. *)
Lemma scan_entry_returns (entry : Dirent) (skills : list Skill) (w : W) :
  exists added w',
    scan_entry resolvedDir path_join readFile matter collectFiles
               entry skills w
    = (Ret (skills ++ added)%list, w')
    /\ Forall (fun s => isValidSkillName (name s) = true
                        /\ 1 <= String.length (description s) <= 1024) added
    /\ List.length added
       <= (if isDirectory entry && isValidSkillName (dirent_name entry)
           then 1 else 0).
Proof.
  unfold scan_entry.
  destruct (isDirectory entry); cbn [negb andb];
    [|exists [], w; rewrite app_nil_r; repeat split; auto].
  destruct (isValidSkillName (dirent_name entry)); cbn [negb];
    [|exists [], w; rewrite app_nil_r; repeat split; auto].
  unfold try_catch, bind, ret.
  destruct (readFile _ w) as [[content|t] w1];
    [|exists [], w1; rewrite app_nil_r; repeat split; auto].
  destruct (matter content) as [[data parsed]|t];
    [|exists [], w1; rewrite app_nil_r; repeat split; auto].
  destruct (validateSkillFrontmatter data) eqn:Hv; cbn [negb];
    [|exists [], w1; rewrite app_nil_r; repeat split; auto].
  destruct (collectFiles _ _ w1) as [[files|t] w2];
    [|exists [], w2; rewrite app_nil_r; repeat split; auto].
  eexists [_], w2. split; [reflexivity|]. split; [|simpl; lia].
  constructor; [|constructor].
  destruct (validateSkillFrontmatter_object _ Hv)
    as [fm [n [d [-> [Hn [Hd [Hvalid Hlen]]]]]]].
  cbn [name description any_get]. rewrite Hn, Hd. cbn [any_string].
  unfold MAX_DESCRIPTION_LENGTH in Hlen. now split.
Qed.

Lemma scan_entries_returns (entries : list Dirent) :
  forall (skills : list Skill) (w : W),
  exists added w',
    scan_entries resolvedDir path_join readFile matter collectFiles
                 entries skills w
    = (Ret (skills ++ added)%list, w')
    /\ Forall (fun s => isValidSkillName (name s) = true
                        /\ 1 <= String.length (description s) <= 1024) added
    /\ List.length added
       <= List.length
            (List.filter
               (fun e => isDirectory e && isValidSkillName (dirent_name e))
               entries).
Proof.
  induction entries as [|entry entries IH]; intros skills w.
  - exists [], w. rewrite app_nil_r. repeat split; auto.
  - cbn [scan_entries]. unfold bind.
    destruct (scan_entry_returns entry skills w)
      as [added1 [w1 [-> [Hok1 Hlen1]]]].
    destruct (IH (skills ++ added1)%list w1)
      as [added2 [w2 [-> [Hok2 Hlen2]]]].
    exists (added1 ++ added2)%list, w2. rewrite app_assoc.
    split; [reflexivity|]. split; [now apply Forall_app|].
    rewrite List.length_app. cbn [List.filter].
    destruct (isDirectory entry && isValidSkillName (dirent_name entry));
      simpl; lia.
Qed.

(** X21.  The directory scan of the file provider never throws, whatever the
    file system and the frontmatter parser do: a failing [readdir] gives no
    skills, and otherwise it gives at most one skill per directory entry
    that is a directory with a valid skill name.  Every skill it gives has a
    valid name and a description of 1 to 1024 characters, both taken from
    the frontmatter. *)
Theorem scan_directory_returns (w : W) :
  exists skills w',
    scan_directory resolvedDir path_join readdir readFile matter collectFiles
                   w
    = (Ret skills, w')
    /\ Forall (fun s => isValidSkillName (name s) = true
                        /\ 1 <= String.length (description s) <= 1024)
              skills
    /\ (forall t w1, readdir resolvedDir w = (Throw t, w1) ->
                     skills = [] /\ w' = w1)
    /\ (forall entries w1,
           readdir resolvedDir w = (Ret entries, w1) ->
           List.length skills
           <= List.length
                (List.filter
                   (fun e =>
                      isDirectory e && isValidSkillName (dirent_name e))
                   entries)).
Proof.
  unfold scan_directory, try_catch, bind, ret.
  destruct (readdir resolvedDir w) as [[entries|t] w1].
  - destruct (scan_entries_returns entries [] w1)
      as [added [w2 [-> [Hok Hlen]]]].
    exists added, w2. cbn [app]. repeat split; try assumption.
    + discriminate.
    + discriminate.
    + intros entries' w1' E. inversion E; subst. exact Hlen.
  - exists [], w1. repeat split; try constructor.
    + now inversion H.
    + discriminate.
Qed.

(** X22.  [scanSkills] never throws and always leaves a cache behind.
    While the clock is less than 60000 ms past the last scan it returns the
    cached list, empty or not, without touching the file system; with no
    cache yet, or at 60000 ms or more, it scans the directory and keeps the
    result with the time read at the start of the call.  A later call that
    starts less than 60000 ms after that time returns the same list again
    and leaves the world alone. *)
Theorem scanSkills_cache (cache : FileCache) (w : W) :
  exists skills cache' w',
    scanSkills now resolvedDir path_join readdir readFile matter
               collectFiles cache w
    = (Ret (skills, cache'), w')
    /\ skillsCache cache' = Some skills
    /\ (forall cached,
           skillsCache cache = Some cached ->
           (now w - lastScan cache < CACHE_TTL)%Z ->
           skills = cached /\ cache' = cache /\ w' = w)
    /\ (skillsCache cache = None
        \/ (CACHE_TTL <= now w - lastScan cache)%Z ->
        scan_directory resolvedDir path_join readdir readFile matter
                       collectFiles w
        = (Ret skills, w')
        /\ cache' = mkFileCache (Some skills) (now w))
    /\ (forall w2,
           (now w2 - lastScan cache' < CACHE_TTL)%Z ->
           scanSkills now resolvedDir path_join readdir readFile matter
                      collectFiles cache' w2
           = (Ret (skills, cache'), w2)).
Proof.
  assert (forall c l x,
             skillsCache c = Some l ->
             (now x - lastScan c < CACHE_TTL)%Z ->
             scanSkills now resolvedDir path_join readdir readFile matter
                        collectFiles c x
             = (Ret (l, c), x)) as Hhit.
  { intros c l x Hc Hfresh. unfold scanSkills. cbv zeta. rewrite Hc.
    apply Z.ltb_lt in Hfresh. now rewrite Hfresh. }
  assert (exists scanned w1,
             scan_directory resolvedDir path_join readdir readFile matter
                            collectFiles w
             = (Ret scanned, w1)) as [scanned [w1 Hscan]].
  { unfold scan_directory, try_catch, bind, ret.
    destruct (readdir resolvedDir w) as [[entries|t] w0]; [|now eauto].
    destruct (scan_entries_returns entries [] w0) as [added [w2 [-> _]]].
    now eauto. }
  destruct (skillsCache cache) as [cached|] eqn:Hc.
  - destruct (Z.ltb_spec (now w - lastScan cache) CACHE_TTL) as [Hlt | Hge].
    + exists cached, cache, w.
      split; [now apply Hhit|]. split; [assumption|]. split; [|split].
      * intros cached' E _. inversion E. now subst.
      * intros [E | E]; [discriminate | lia].
      * intros w2 Hw2. now apply Hhit.
    + exists scanned, (mkFileCache (Some scanned) (now w)), w1.
      assert (scanSkills now resolvedDir path_join readdir readFile matter
                         collectFiles cache w
              = (Ret (scanned, mkFileCache (Some scanned) (now w)), w1))
        as Hrun.
      { unfold scanSkills. cbv zeta. rewrite Hc, Hscan.
        apply Z.ltb_ge in Hge. now rewrite Hge. }
      split; [exact Hrun|]. split; [reflexivity|]. split; [|split].
      * intros cached' _ Hlt. lia.
      * intros _. now split.
      * intros w2 Hw2. now apply Hhit.
  - exists scanned, (mkFileCache (Some scanned) (now w)), w1.
    assert (scanSkills now resolvedDir path_join readdir readFile matter
                       collectFiles cache w
            = (Ret (scanned, mkFileCache (Some scanned) (now w)), w1))
      as Hrun.
    { unfold scanSkills. cbv zeta. now rewrite Hc, Hscan. }
    split; [exact Hrun|]. split; [reflexivity|]. split; [|split].
    + intros cached' E. discriminate.
    + intros _. now split.
    + intros w2 Hw2. now apply Hhit.
Qed.

(** X23.  The file provider's [getSkillFile] never throws.  It returns
    [null] without reading anything for an invalid skill name, an invalid
    file path and [SKILL.md]; content it returns is what [readFile] gave for
    the joined path of a valid name and a valid path other than [SKILL.md]
    whose normal form begins with the skill's directory; a read that fails
    gives [null]. *)
Theorem file_getSkillFile_guards (skillName filePath : string) (w : W) :
  (isValidSkillName skillName = false \/ isValidFilePath filePath = false
   \/ filePath = "SKILL.md" ->
   file_getSkillFile resolvedDir path_join path_join3 path_normalize readFile
                     skillName filePath w
   = (Ret None, w))
  /\ (exists result w',
         file_getSkillFile resolvedDir path_join path_join3 path_normalize
                           readFile skillName filePath w
         = (Ret result, w'))
  /\ (forall content w',
         file_getSkillFile resolvedDir path_join path_join3 path_normalize
                           readFile skillName filePath w
         = (Ret (Some content), w') ->
         isValidSkillName skillName = true
         /\ isValidFilePath filePath = true
         /\ filePath <> "SKILL.md"
         /\ startsWith
              (path_normalize (path_join3 resolvedDir skillName filePath))
              (path_join resolvedDir skillName) = true
         /\ readFile (path_join3 resolvedDir skillName filePath) w
            = (Ret content, w'))
  /\ (forall t w',
         isValidSkillName skillName = true ->
         isValidFilePath filePath = true ->
         filePath <> "SKILL.md" ->
         readFile (path_join3 resolvedDir skillName filePath) w
         = (Throw t, w') ->
         exists w'',
           file_getSkillFile resolvedDir path_join path_join3 path_normalize
                             readFile skillName filePath w
           = (Ret None, w'')).
Proof.
  unfold file_getSkillFile, try_catch, bind, ret. cbv zeta. repeat split.
  - intros [H | [H | H]].
    + now rewrite H.
    + rewrite H. now destruct (isValidSkillName skillName).
    + subst filePath.
      now destruct (isValidSkillName skillName),
                   (isValidFilePath "SKILL.md").
  - destruct (isValidSkillName skillName); cbn [negb]; [|now eauto].
    destruct (isValidFilePath filePath); cbn [negb]; [|now eauto].
    destruct (String.eqb filePath "SKILL.md"); [now eauto|].
    destruct (startsWith _ _); cbn [negb]; [|now eauto].
    destruct (readFile _ w) as [[content|t] w1]; eauto.
  - destruct (isValidSkillName skillName); [reflexivity|discriminate].
  - destruct (isValidSkillName skillName); [|discriminate]. cbn [negb] in H.
    destruct (isValidFilePath filePath); [reflexivity|discriminate].
  - intros ->. destruct (isValidSkillName skillName); [|discriminate].
    cbn [negb] in H. discriminate.
  - destruct (isValidSkillName skillName); [|discriminate]. cbn [negb] in H.
    destruct (isValidFilePath filePath); [|discriminate]. cbn [negb] in H.
    destruct (String.eqb filePath "SKILL.md"); [discriminate|].
    destruct (startsWith _ _); [reflexivity|discriminate].
  - destruct (isValidSkillName skillName); [|discriminate]. cbn [negb] in H.
    destruct (isValidFilePath filePath); [|discriminate]. cbn [negb] in H.
    destruct (String.eqb filePath "SKILL.md"); [discriminate|].
    destruct (startsWith _ _); [|discriminate]. cbn [negb] in H.
    destruct (readFile _ w) as [[c|t] w1]; inversion H; now subst.
  - intros t w' Hn Hp Hne Hread. rewrite Hn, Hp. cbn [negb].
    apply String.eqb_neq in Hne. rewrite Hne.
    destruct (startsWith _ _); cbn [negb]; [|now eauto].
    rewrite Hread. eauto.
Qed.

End FileProviderFacts.

Lemma scan_directory_returns_witness :
  exists skills w',
    scan_directory "skills" ProviderFixtures.fs_join
                   ProviderFixtures.fs_readdir ProviderFixtures.fs_readFile
                   ProviderFixtures.fs_matter
                   ProviderFixtures.fs_collectFiles 0%Z
    = (Ret skills, w')
    /\ List.length skills <= 1.
Proof.
  destruct (@scan_directory_returns Z "skills" ProviderFixtures.fs_join
              ProviderFixtures.fs_readdir ProviderFixtures.fs_readFile
              ProviderFixtures.fs_matter ProviderFixtures.fs_collectFiles 0%Z)
    as [skills [w' [Hrun [_ [_ Hlen]]]]].
  exists skills, w'. split; [exact Hrun|].
  exact (Hlen _ 0%Z eq_refl).
Defined.

Lemma scanSkills_cache_witness :
  scanSkills ProviderFixtures.fs_clock "skills" ProviderFixtures.fs_join
             ProviderFixtures.fs_readdir ProviderFixtures.fs_readFile
             ProviderFixtures.fs_matter ProviderFixtures.fs_collectFiles
             (mkFileCache (Some []) 1000%Z) 60999%Z
  = (Ret ([], mkFileCache (Some []) 1000%Z), 60999%Z).
Proof.
  destruct (@scanSkills_cache Z ProviderFixtures.fs_clock "skills"
              ProviderFixtures.fs_join ProviderFixtures.fs_readdir
              ProviderFixtures.fs_readFile ProviderFixtures.fs_matter
              ProviderFixtures.fs_collectFiles
              (mkFileCache (Some []) 1000%Z) 60999%Z)
    as [skills [cache' [w' [Hrun [_ [Hhit _]]]]]].
  destruct (Hhit [] eq_refl eq_refl) as [-> [-> ->]].
  exact Hrun.
Defined.

Lemma file_getSkillFile_guards_witness :
  file_getSkillFile "skills" ProviderFixtures.fs_join ProviderFixtures.fs_join3
                    (fun p => p) ProviderFixtures.fs_readFile
                    "git-workflow" "../secret" 0%Z
  = (Ret None, 0%Z).
Proof.
  apply (proj1 (@file_getSkillFile_guards Z "skills" ProviderFixtures.fs_join
                  ProviderFixtures.fs_join3 (fun p => p)
                  ProviderFixtures.fs_readFile "git-workflow" "../secret"
                  0%Z)).
  right. left. reflexivity.
Defined.
